(** * cppcheck-codequality: the XML-to-Code-Climate conversion core

    A shallow embedding of [src/__init__.py]: the category table, the
    per-record conversion with its template dictionaries, the fingerprint,
    and [convert_file] with its cleanup branch.

    Python objects live in an explicit heap, so that the aliasing between
    the module-level template [CODE_QUAL_ELEMENT], the per-record shallow
    copies and the deep-copied output elements is the one of the program. *)

From Stdlib Require Import ZArith List String Ascii Lia Bool.
From Stdlib Require Import Floats.SpecFloat.
From stdpp Require Import base tactics option list.

Import ListNotations.
Local Open Scope string_scope.
Local Open Scope Z_scope.

(* ===================================================================== *)
(** ** Python strings

    A Python [str] is modelled as a [string] whose characters are the code
    points 0..255.  On that alphabet [str.strip], [int()] and the UTF-8
    encoder below are the ones of CPython. *)
(* ===================================================================== *)

Module PyStr.

Definition code (c : ascii) : Z := Z.of_N (N_of_ascii c).

(** [str.isspace] on one character (the Unicode White_Space and
    bidirectional-separator characters below U+0100). *)
Definition isspace (c : ascii) : bool :=
  let n := code c in
  ((9 <=? n) && (n <=? 13)) || ((28 <=? n) && (n <=? 32))
  || (n =? 133) || (n =? 160).

Fixpoint lstrip (s : string) : string :=
  match s with
  | String c r => if isspace c then lstrip r else s
  | EmptyString => EmptyString
  end.

(** [rstrip] keeps a character when it is not a space or when something
    is kept after it. *)
Fixpoint rstrip (s : string) : string :=
  match s with
  | EmptyString => EmptyString
  | String c r =>
      match rstrip r with
      | EmptyString => if isspace c then EmptyString else String c EmptyString
      | r' => String c r'
      end
  end.

(** [s.strip()] *)
Definition strip (s : string) : string := rstrip (lstrip s).

Definition digit_char (d : Z) : ascii := ascii_of_N (Z.to_N (48 + d)).

(** Decimal digits of a positive number, most significant first. *)
Fixpoint pos_digits (fuel : nat) (n : Z) (acc : string) : string :=
  match fuel with
  | O => acc
  | S f =>
      let acc' := String (digit_char (n mod 10)) acc in
      if n <? 10 then acc' else pos_digits f (n / 10) acc'
  end.

(** [str(n)] for an [int]. *)
Definition str_of_int (n : Z) : string :=
  match n with
  | Z0 => "0"
  | Zpos p => pos_digits (Pos.to_nat (Pos.size p)) n ""
  | Zneg p => String "-" (pos_digits (Pos.to_nat (Pos.size p)) (Zpos p) "")
  end.

Definition is_digit (c : ascii) : bool :=
  let n := code c in (48 <=? n) && (n <=? 57).

(** The digits of an [int()] literal in base 10: at least one digit, single
    underscores allowed between digits only. [prev] tells whether the
    previous character was a digit. *)
Fixpoint parse_digits (s : string) (acc : Z) (prev : bool) : option Z :=
  match s with
  | EmptyString => if prev then Some acc else None
  | String c r =>
      if is_digit c then parse_digits r (10 * acc + (code c - 48)) true
      else if (code c =? 95) && prev then
        match r with
        | String c' _ => if is_digit c' then parse_digits r acc false else None
        | EmptyString => None
        end
      else None
  end.

(** The number of digit characters of a literal: underscores are not
    counted, leading zeros are. *)
Fixpoint count_digits (s : string) : Z :=
  match s with
  | EmptyString => 0
  | String c r => (if is_digit c then 1 else 0) + count_digits r
  end.

(** [sys.get_int_max_str_digits()] of CPython 3.11. *)
Definition max_str_digits : Z := 4300.

(** The digits of a literal within the limit that [int()] puts on the
    length of a decimal literal. *)
Definition parse_literal (s : string) : option Z :=
  if count_digits s <=? max_str_digits then parse_digits s 0 false else None.

(** [int(s)] for a [str]: surrounding whitespace is dropped, one sign is
    allowed, and a literal of more than [max_str_digits] digits is refused;
    [None] stands for the [ValueError]. *)
Definition int_of_str (s : string) : option Z :=
  match strip s with
  | String "-" r => option_map Z.opp (parse_literal r)
  | String "+" r => parse_literal r
  | t => parse_literal t
  end.

(** [s.encode("utf-8")] on code points below 256: bytes as numbers. *)
Fixpoint utf8 (s : string) : list Z :=
  match s with
  | EmptyString => []
  | String c r =>
      let n := code c in
      if n <? 128 then n :: utf8 r
      else (192 + n / 64) :: (128 + n mod 64) :: utf8 r
  end.

(** [needle in hay] for two strings. *)
Fixpoint contains (needle hay : string) : bool :=
  match hay with
  | EmptyString => match needle with EmptyString => true | _ => false end
  | String _ r => String.prefix needle hay || contains needle r
  end.

End PyStr.

(* ===================================================================== *)
(** ** MD5 (RFC 1321), as [hashlib.md5(...).hexdigest()] computes it      *)
(* ===================================================================== *)

Module MD5.

Definition w32 (x : Z) : Z := x mod 4294967296.

Definition rotl (x s : Z) : Z :=
  w32 (Z.lor (Z.shiftl x s) (Z.shiftr x (32 - s))).

Definition not32 (x : Z) : Z := Z.lxor x 4294967295.

Definition K : list Z :=
  [ 3614090360; 3905402710; 606105819; 3250441966;
    4118548399; 1200080426; 2821735955; 4249261313;
    1770035416; 2336552879; 4294925233; 2304563134;
    1804603682; 4254626195; 2792965006; 1236535329;
    4129170786; 3225465664; 643717713; 3921069994;
    3593408605; 38016083; 3634488961; 3889429448;
    568446438; 3275163606; 4107603335; 1163531501;
    2850285829; 4243563512; 1735328473; 2368359562;
    4294588738; 2272392833; 1839030562; 4259657740;
    2763975236; 1272893353; 4139469664; 3200236656;
    681279174; 3936430074; 3572445317; 76029189;
    3654602809; 3873151461; 530742520; 3299628645;
    4096336452; 1126891415; 2878612391; 4237533241;
    1700485571; 2399980690; 4293915773; 2240044497;
    1873313359; 4264355552; 2734768916; 1309151649;
    4149444226; 3174756917; 718787259; 3951481745 ].

Definition S : list Z :=
  [ 7; 12; 17; 22; 7; 12; 17; 22; 7; 12; 17; 22; 7; 12; 17; 22;
    5; 9; 14; 20; 5; 9; 14; 20; 5; 9; 14; 20; 5; 9; 14; 20;
    4; 11; 16; 23; 4; 11; 16; 23; 4; 11; 16; 23; 4; 11; 16; 23;
    6; 10; 15; 21; 6; 10; 15; 21; 6; 10; 15; 21; 6; 10; 15; 21 ].

Definition nthZ (l : list Z) (i : Z) : Z := nth (Z.to_nat i) l 0.

Record regs := Regs { rA : Z; rB : Z; rC : Z; rD : Z }.

Definition init : regs :=
  Regs 1732584193 4023233417 2562383102 271733878.

(** One of the 64 operations of a block. *)
Definition step (M : list Z) (r : regs) (i : Z) : regs :=
  let '(Regs a b c d) := r in
  let '(f, g) :=
    if i <? 16 then (Z.lor (Z.land b c) (Z.land (not32 b) d), i)
    else if i <? 32 then
      (Z.lor (Z.land d b) (Z.land (not32 d) c), (5 * i + 1) mod 16)
    else if i <? 48 then (Z.lxor (Z.lxor b c) d, (3 * i + 5) mod 16)
    else (Z.lxor c (Z.lor b (not32 d)), (7 * i) mod 16) in
  let f' := w32 (f + a + nthZ K i + nthZ M g) in
  Regs d (w32 (b + rotl f' (nthZ S i))) b c.

Definition rounds : list Z := map Z.of_nat (seq 0 64).

(** Little-endian 32-bit words of a byte list. *)
Fixpoint words (bs : list Z) : list Z :=
  match bs with
  | b0 :: b1 :: b2 :: b3 :: r =>
      (b0 + 256 * b1 + 65536 * b2 + 16777216 * b3) :: words r
  | _ => []
  end.

Definition block (r : regs) (M : list Z) : regs :=
  let r' := fold_left (step M) rounds r in
  Regs (w32 (rA r + rA r')) (w32 (rB r + rB r'))
       (w32 (rC r + rC r')) (w32 (rD r + rD r')).

Fixpoint blocks (n : nat) (r : regs) (ws : list Z) : regs :=
  match n with
  | O => r
  | Datatypes.S n' => blocks n' (block r (firstn 16 ws)) (skipn 16 ws)
  end.

Definition le_bytes (n : nat) (x : Z) : list Z :=
  map (fun i => (x / 256 ^ Z.of_nat i) mod 256) (seq 0 n).

(** Padding: 0x80, zeros up to 56 modulo 64, the bit length on 8 bytes. *)
Definition pad (msg : list Z) : list Z :=
  let len := Z.of_nat (List.length msg) in
  let zeros := Z.to_nat ((55 - len) mod 64) in
  msg ++ 128 :: repeat 0 zeros ++ le_bytes 8 ((8 * len) mod 2 ^ 64).

Definition digest (msg : list Z) : list Z :=
  let ws := words (pad msg) in
  let r := blocks (List.length ws / 16) init ws in
  le_bytes 4 (rA r) ++ le_bytes 4 (rB r) ++ le_bytes 4 (rC r)
    ++ le_bytes 4 (rD r).

Definition hex_char (d : Z) : ascii :=
  ascii_of_N (Z.to_N (if d <? 10 then 48 + d else 87 + d)).

Fixpoint hex (bs : list Z) : string :=
  match bs with
  | [] => EmptyString
  | b :: r => String (hex_char (b / 16)) (String (hex_char (b mod 16)) (hex r))
  end.

(** [hashlib.md5(s.encode("utf-8")).hexdigest()] *)
Definition hexdigest (s : string) : string := hex (digest (PyStr.utf8 s)).

End MD5.

(* ===================================================================== *)
(** ** Binary64 arithmetic of [math.ceil(line / 10.0)]

    The operations are the reference ones of the Standard Library's
    [SpecFloat] at precision 53 and maximal exponent 1024. *)
(* ===================================================================== *)

Module PyFloat.

Definition prec : Z := 53.
Definition emax : Z := 1024.

(** [float(n)] for an [int]; [None] is the [OverflowError] of an integer
    too large for a double. *)
Definition of_int (n : Z) : option spec_float :=
  match binary_normalize prec emax n 0 false with
  | S754_infinity _ => None
  | x => Some x
  end.

(** The literal [10.0]. *)
Definition ten : spec_float := S754_finite false 5629499534213120 (-49).

Definition div (x y : spec_float) : spec_float := SFdiv prec emax x y.

(** [math.ceil(x)]: an integer, or [None] for an infinity or a NaN. *)
Definition ceil (x : spec_float) : option Z :=
  match x with
  | S754_zero _ => Some 0
  | S754_finite s m e =>
      let v := cond_Zopp s (Zpos m) in
      Some (if 0 <=? e then v * 2 ^ e else - ((- v) / 2 ^ (- e)))
  | _ => None
  end.

End PyFloat.

(* ===================================================================== *)
(** ** Exceptions, and the document [xmltodict.parse] returns            *)
(* ===================================================================== *)

Inductive exn : Type :=
| KeyError (key : string)
| TypeError
| ValueError
| IndexError
| AttributeError
| OverflowError
| RecursionError
| OSError
| ExpatError.

Inductive result (A : Type) : Type :=
| Ok (a : A)
| Raise (e : exn).
Arguments Ok {A} a.
Arguments Raise {A} e.

(** What [xmltodict.parse] builds for an element: [None] for an empty
    element, a [str] for one with text only, otherwise a dictionary with
    the attributes under their names prefixed by [@] (always strings) and
    the child elements under their tag names; a tag that occurs several
    times is one entry holding a list. *)
#[warnings="-register-all"]
Inductive xml_value : Type :=
| XNone
| XText (s : string)
| XList (l : list xml_value)
| XDict (attrs : list (string * string)) (elems : list (string * xml_value)).

Module Xml.

Fixpoint assoc {A} (k : string) (l : list (string * A)) : option A :=
  match l with
  | [] => None
  | (k', v) :: r => if String.eqb k k' then Some v else assoc k r
  end.

(** [x[k]] for a key [k] that names an attribute ([@...]). *)
Definition attr (x : xml_value) (k : string) : result string :=
  match x with
  | XDict attrs _ =>
      match assoc k attrs with Some v => Ok v | None => Raise (KeyError k) end
  | _ => Raise TypeError
  end.

(** [x[k]] for a key [k] that names a child element. *)
Definition item (x : xml_value) (k : string) : result xml_value :=
  match x with
  | XDict _ elems =>
      match assoc k elems with Some v => Ok v | None => Raise (KeyError k) end
  | _ => Raise TypeError
  end.

(** [l[i]] for a list and an integer index. *)
Definition index (l : list xml_value) (i : nat) : result xml_value :=
  match nth_error l i with Some v => Ok v | None => Raise IndexError end.

Definition is_text (s : string) (x : xml_value) : bool :=
  match x with XText t => String.eqb t s | _ => false end.

Definition has_key {A} (k : string) (l : list (string * A)) : bool :=
  match assoc k l with Some _ => true | None => false end.

(** [k in x] for a string [k]. *)
Definition contains (k : string) (x : xml_value) : result bool :=
  match x with
  | XNone => Raise TypeError
  | XText s => Ok (PyStr.contains k s)
  | XList l => Ok (existsb (is_text k) l)
  | XDict attrs elems =>
      Ok (if String.prefix "@" k then has_key k attrs else has_key k elems)
  end.

Definition is_dict (x : xml_value) : bool :=
  match x with XDict _ _ => true | _ => false end.

(** The nesting of the calls that print a value: one level for a string
    or [None], one more for each list or dictionary around it. *)
Fixpoint repr_depth (x : xml_value) : nat :=
  match x with
  | XNone => 1
  | XText _ => 1
  | XList l => S (fold_right (fun y m => Nat.max (repr_depth y) m) 0%nat l)
  | XDict attrs elems =>
      S (fold_right (fun kv m => Nat.max (let '(_, y) := kv in repr_depth y) m)
           (match attrs with [] => 0 | _ :: _ => 1 end)%nat elems)
  end.

Definition is_list (x : xml_value) : bool :=
  match x with XList _ => true | _ => false end.

(** [len(x)] *)
Definition len (x : xml_value) : result nat :=
  match x with
  | XNone => Raise TypeError
  | XText s => Ok (String.length s)
  | XList l => Ok (List.length l)
  | XDict attrs elems => Ok (List.length attrs + List.length elems)%nat
  end.

End Xml.

(* ===================================================================== *)
(** ** The Python heap

    Dictionaries and lists are objects with an address; a value is an atom
    or a reference.  The objects created when the module is loaded (the
    template) are the [Glob] addresses, the objects created by the running
    code are the [Dyn] addresses, allocated in increasing order. *)
(* ===================================================================== *)

Inductive addr : Type :=
| Glob (n : nat)
| Dyn (n : nat).

Inductive pyval : Type :=
| VNone
| VStr (s : string)
| VInt (z : Z)
| VRef (a : addr).

(** A dictionary keeps its keys in insertion order. *)
Inductive pyobj : Type :=
| ODict (items : list (string * pyval))
| OList (elts : list pyval).

Inductive level : Type := DEBUG | INFO | WARNING.

(** The arguments of a log call are kept unformatted, as the [logging]
    module does; [ARepr x] stands for the text that [str(x)] returned for a
    parsed element, [AAbspath p] for [os.path.abspath(p)]. *)
Inductive log_arg : Type :=
| AStr (s : string)
| ARepr (x : xml_value)
| AAbspath (s : string).

Record log_record : Type := LogRecord {
  log_level : level;
  log_msg : string;
  log_args : list log_arg
}.

(** The file system: the text of each file that can be opened for reading
    (as text mode returns it), and the paths that can be opened for
    writing. *)
Record filesystem : Type := FileSystem {
  files : string -> option string;
  writable : string -> bool
}.

Record state : Type := State {
  globals : list pyobj;
  dyn : list pyobj;
  log : list log_record;
  fs : filesystem
}.

(** A computation runs on the state and returns a value or raises; the
    state changes made before an exception stay. *)
Definition M (A : Type) : Type := state -> result A * state.

Definition ret {A} (a : A) : M A := fun st => (Ok a, st).
Definition raise {A} (e : exn) : M A := fun st => (Raise e, st).
Definition bind {A B} (c : M A) (k : A -> M B) : M B :=
  fun st =>
    match c st with
    | (Ok a, st') => k a st'
    | (Raise e, st') => (Raise e, st')
    end.
Definition lift {A} (r : result A) : M A := fun st => (r, st).

Declare Scope py_scope.
Delimit Scope py_scope with py.
Notation "x <- c ;; k" := (bind c (fun x => k))
  (at level 100, c at next level, right associativity) : py_scope.
Notation "c ;;; k" := (bind c (fun _ => k))
  (at level 100, k at level 100, right associativity) : py_scope.
Local Open Scope py_scope.

Fixpoint mapM {A B} (f : A -> M B) (l : list A) : M (list B) :=
  match l with
  | [] => ret []
  | x :: r => y <- f x ;; ys <- mapM f r ;; ret (y :: ys)
  end.

Fixpoint forM_ {A} (l : list A) (f : A -> M unit) : M unit :=
  match l with
  | [] => ret tt
  | x :: r => f x ;;; forM_ r f
  end.

Module Heap.

Definition lookup (st : state) (a : addr) : option pyobj :=
  match a with
  | Glob n => globals st !! n
  | Dyn n => dyn st !! n
  end.

Definition store (a : addr) (o : pyobj) (st : state) : state :=
  match a with
  | Glob n => State (<[n := o]> (globals st)) (dyn st) (log st) (fs st)
  | Dyn n => State (globals st) (<[n := o]> (dyn st)) (log st) (fs st)
  end.

(** A new object gets the next dynamic address. *)
Definition alloc (o : pyobj) : M pyval :=
  fun st =>
    (Ok (VRef (Dyn (List.length (dyn st)))),
     State (globals st) (dyn st ++ [o]) (log st) (fs st)).

Definition get_dict (v : pyval) : M (list (string * pyval)) :=
  fun st =>
    match v with
    | VRef a =>
        match lookup st a with
        | Some (ODict items) => (Ok items, st)
        | _ => (Raise TypeError, st)
        end
    | _ => (Raise TypeError, st)
    end.

Definition get_list (v : pyval) : M (list pyval) :=
  fun st =>
    match v with
    | VRef a =>
        match lookup st a with
        | Some (OList elts) => (Ok elts, st)
        | _ => (Raise TypeError, st)
        end
    | _ => (Raise TypeError, st)
    end.

Definition put (v : pyval) (o : pyobj) : M unit :=
  fun st =>
    match v with
    | VRef a => (Ok tt, store a o st)
    | _ => (Raise TypeError, st)
    end.

(** Assignment to a key: in place when the key exists, else at the end. *)
Fixpoint assign (k : string) (v : pyval) (items : list (string * pyval))
  : list (string * pyval) :=
  match items with
  | [] => [(k, v)]
  | (k', v') :: r =>
      if String.eqb k k' then (k', v) :: r else (k', v') :: assign k v r
  end.

(** [d[k]] *)
Definition getitem (d : pyval) (k : string) : M pyval :=
  items <- get_dict d ;;
  match Xml.assoc k items with
  | Some v => ret v
  | None => raise (KeyError k)
  end.

(** [d[k] = v] *)
Definition setitem (d : pyval) (k : string) (v : pyval) : M unit :=
  items <- get_dict d ;;
  put d (ODict (assign k v items)).

(** [k in d] *)
Definition contains (k : string) (d : pyval) : M bool :=
  items <- get_dict d ;;
  ret (Xml.has_key k items).

(** [dict(d)]: a new dictionary with the same entries (a shallow copy). *)
Definition dict_copy (d : pyval) : M pyval :=
  items <- get_dict d ;;
  alloc (ODict items).

(** [l.append(v)] *)
Definition append (l : pyval) (v : pyval) : M unit :=
  elts <- get_list l ;;
  put l (OList (elts ++ [v])).

(** [copy.deepcopy(v)]: atoms are returned as they are, a dictionary or a
    list becomes a new object holding the copies of its values.  [fuel]
    bounds the nesting depth (the interpreter's recursion limit).  The
    objects of the program are trees, so the memo of [deepcopy], which
    keeps an object that is reached twice shared in the copy, plays no
    part and is left out. *)
Fixpoint deepcopy_at (fuel : nat) (v : pyval) : M pyval :=
  match fuel with
  | O => raise RecursionError
  | S fuel' =>
      match v with
      | VRef a =>
          fun st =>
            match lookup st a with
            | Some (ODict items) =>
                (items' <- mapM (fun kv =>
                                   x <- deepcopy_at fuel' (snd kv) ;;
                                   ret (fst kv, x)) items ;;
                 alloc (ODict items')) st
            | Some (OList elts) =>
                (elts' <- mapM (deepcopy_at fuel') elts ;;
                 alloc (OList elts')) st
            | None => (Raise TypeError, st)
            end
      | _ => ret v
      end
  end.

Definition recursion_limit : nat := 1000.

Definition deepcopy (v : pyval) : M pyval := deepcopy_at recursion_limit v.

Definition log_call (l : level) (msg : string) (args : list log_arg) : M unit :=
  fun st =>
    (Ok tt, State (globals st) (dyn st) (log st ++ [LogRecord l msg args])
                  (fs st)).

End Heap.

(* ===================================================================== *)
(** ** The module [src/__init__.py]                                       *)
(* ===================================================================== *)

Definition nl : string := String "010"%char EmptyString.

(** [s.split("\n")] *)
Fixpoint split_nl (s : string) : list string :=
  match s with
  | EmptyString => [EmptyString]
  | String c r =>
      if Ascii.eqb c "010"%char then EmptyString :: split_nl r
      else match split_nl r with
           | [] => [String c EmptyString]
           | l :: ls => String c l :: ls
           end
  end.

(** The lines [linecache] keeps for a text: each ends with a newline, which
    is added to the last one when the text lacks it. *)
Fixpoint readlines (s : string) : list string :=
  match s with
  | EmptyString => []
  | String c r =>
      if Ascii.eqb c "010"%char then nl :: readlines r
      else match readlines r with
           | [] => [String c nl]
           | l :: ls => String c l :: ls
           end
  end.

(** [linecache.getline(path, lineno)] for a path that the process looks up
    for the first time and that names the file it opens: the line, or the
    empty string when the file cannot be read or has no such line.  A line
    number below 1 gives the empty string whatever the file holds.  What
    [linecache] does besides is not modelled: the lines it keeps from an
    earlier lookup of the path, its search of [sys.path] for a relative
    path that does not open, and the [ValueError] of a path that holds a
    NUL character. *)
Definition linecache_getline (f : filesystem) (path : string) (lineno : Z)
  : string :=
  match files f path with
  | Some text =>
      let lines := readlines text in
      if (1 <=? lineno) && (lineno <=? Z.of_nat (List.length lines))
      then nth (Z.to_nat (lineno - 1)) lines EmptyString
      else EmptyString
  | None => EmptyString
  end.

Definition getline (path : string) (lineno : Z) : M string :=
  fun st => (Ok (linecache_getline (fs st) path lineno), st).

(** [str(x)] of a parsed element.  The text is built by calls that nest as
    [x] does and CPython raises [RecursionError] when they nest deeper than
    the recursion limit allows; as for [deepcopy], the frames that are
    already in use when [__convert] runs are not counted.  The text itself
    is kept as [ARepr x]. *)
Definition str (x : xml_value) : result log_arg :=
  if (Xml.repr_depth x <=? Heap.recursion_limit)%nat
  then Ok (ARepr x)
  else Raise RecursionError.

(** [int(s)] *)
Definition int (s : string) : M Z :=
  match PyStr.int_of_str s with
  | Some z => ret z
  | None => raise ValueError
  end.

(** The operand of a string concatenation. *)
Definition as_str (v : pyval) : M string :=
  match v with
  | VStr s => ret s
  | _ => raise TypeError
  end.

(** [int(math.ceil(line / 10.0)) * 10] *)
Definition rounded_line (line : Z) : result Z :=
  match PyFloat.of_int line with
  | None => Raise OverflowError
  | Some x =>
      match PyFloat.ceil (PyFloat.div x PyFloat.ten) with
      | Some c => Ok (c * 10)
      | None => Raise OverflowError
      end
  end.

(** The module-level template and the three dictionaries nested in it. *)
Module Template.

Definition element : pyobj :=
  ODict [ ("type", VStr "issue");
          ("check_name", VStr "--CODE-CLIMATE-REQUIREMENT--");
          ("description", VStr "--CODE-CLIMATE-REQUIREMENT--");
          ("categories", VStr "--CODE-CLIMATE-REQUIREMENT--");
          ("fingerprint", VStr "--GITLAB-REQUIREMENT--");
          ("location", VRef (Glob 1)) ].

Definition location (path : string) : pyobj :=
  ODict [ ("path", VStr path); ("positions", VRef (Glob 2)) ].

Definition positions : pyobj := ODict [ ("begin", VRef (Glob 3)) ].

Definition begin (line column : Z) : pyobj :=
  ODict [ ("line", VInt line); ("column", VInt column) ].

(** The objects as the module creates them when it is loaded. *)
Definition loaded : list pyobj :=
  [ element; location ""; positions; begin (-1) (-1) ].

End Template.

Definition CODE_QUAL_ELEMENT : pyval := VRef (Glob 0).

(** The state of a process that has just imported the module. *)
Definition initial_state (f : filesystem) : state :=
  State Template.loaded [] [] f.

Definition map_severity_to_category : list (string * string) :=
  [ ("error", "Bug Risk");
    ("warning", "Bug Risk");
    ("style", "Style");
    ("performance", "Performance");
    ("portability", "Compatibility");
    ("information", "Style") ].

Definition __get_codeclimate_category (cppcheck_severity : string)
  : result string :=
  match Xml.assoc cppcheck_severity map_severity_to_category with
  | Some c => Ok c
  | None => Raise (KeyError cppcheck_severity)
  end.

(** The body of [for i in range(1, len(error["location"]))]. *)
Definition other_location (tmp_dict : pyval) (loc : xml_value) : M unit :=
  template_location <- Heap.getitem CODE_QUAL_ELEMENT "location" ;;
  loc_other <- Heap.dict_copy template_location ;;
  file <- lift (Xml.attr loc "@file") ;;
  Heap.setitem loc_other "path" (VStr file) ;;;
  line_s <- lift (Xml.attr loc "@line") ;;
  line <- int line_s ;;
  positions <- Heap.getitem loc_other "positions" ;;
  begin <- Heap.getitem positions "begin" ;;
  Heap.setitem begin "line" (VInt line) ;;;
  column_s <- lift (Xml.attr loc "@column") ;;
  column <- int column_s ;;
  positions <- Heap.getitem loc_other "positions" ;;
  begin <- Heap.getitem positions "begin" ;;
  Heap.setitem begin "column" (VInt column) ;;;
  has <- Heap.contains "other_locations" tmp_dict ;;
  (if negb has
   then l <- Heap.alloc (OList []) ;; Heap.setitem tmp_dict "other_locations" l
   else ret tt) ;;;
  others <- Heap.getitem tmp_dict "other_locations" ;;
  copy <- Heap.deepcopy loc_other ;;
  Heap.append others copy.

(** [path], [line] and [column] of the primary location. *)
Definition primary_location (tmp_dict : pyval) (location : xml_value)
  : M (string * Z * Z) :=
  match location with
  | XList locs =>
      loc0 <- lift (Xml.index locs 0) ;;
      has_file0 <- lift (Xml.contains "@file0" loc0) ;;
      path <- lift (Xml.attr loc0 (if has_file0 then "@file0" else "@file")) ;;
      line_s <- lift (Xml.attr loc0 "@line") ;;
      line <- int line_s ;;
      column_s <- lift (Xml.attr loc0 "@column") ;;
      column <- int column_s ;;
      forM_ (tl locs) (other_location tmp_dict) ;;;
      ret (path, line, column)
  | _ =>
      path <- lift (Xml.attr location "@file") ;;
      line_s <- lift (Xml.attr location "@line") ;;
      line <- int line_s ;;
      has_column <- lift (Xml.contains "@column" location) ;;
      column <- (if has_column
                 then column_s <- lift (Xml.attr location "@column") ;;
                      int column_s
                 else ret 0) ;;
      ret (path, line, column)
  end.

Definition cwe_tag (cwe_id : string) : string := "[CWE-" ++ cwe_id ++ "] ".

Definition cwe_reference (cwe_id : string) : string :=
  "Refer to [CWE-" ++ cwe_id ++ "](https://cwe.mitre.org/data/definitions/"
    ++ cwe_id ++ ".html)".

Definition fingerprint_string (path : string) (rounded : Z)
    (rule codeline : string) : string :=
  path ++ ":" ++ PyStr.str_of_int rounded ++ "-" ++ rule ++ "-" ++ codeline.

(** The body of [for error in dict_in["results"]["errors"]["error"]];
    [dict_out] is the list of the elements appended so far. *)
Definition convert_error (error : xml_value) (dict_out : list pyval)
  : M (list pyval) :=
  printed <- lift (str error) ;;
  Heap.log_call DEBUG "Processing -- %s" [printed] ;;;
  has_location <- lift (Xml.contains "location" error) ;;
  if negb has_location then ret dict_out else
  tmp_dict <- Heap.dict_copy CODE_QUAL_ELEMENT ;;
  rule <- lift (Xml.attr error "@id") ;;
  Heap.setitem tmp_dict "check_name" (VStr rule) ;;;
  msg <- lift (Xml.attr error "@msg") ;;
  Heap.setitem tmp_dict "description" (VStr msg) ;;;
  severity <- lift (Xml.attr error "@severity") ;;
  category <- lift (__get_codeclimate_category severity) ;;
  cats <- Heap.alloc (OList (map VStr (split_nl category))) ;;
  Heap.append cats (VStr severity) ;;;
  Heap.setitem tmp_dict "categories" cats ;;;
  location <- lift (Xml.item error "location") ;;
  plc <- primary_location tmp_dict location ;;
  let '(path, line, column) := plc in
  loc <- Heap.getitem tmp_dict "location" ;;
  Heap.setitem loc "path" (VStr path) ;;;
  loc <- Heap.getitem tmp_dict "location" ;;
  positions <- Heap.getitem loc "positions" ;;
  begin <- Heap.getitem positions "begin" ;;
  Heap.setitem begin "line" (VInt line) ;;;
  loc <- Heap.getitem tmp_dict "location" ;;
  positions <- Heap.getitem loc "positions" ;;
  begin <- Heap.getitem positions "begin" ;;
  Heap.setitem begin "column" (VInt column) ;;;
  has_cwe <- lift (Xml.contains "@cwe" error) ;;
  (if has_cwe
   then
     content <- Heap.alloc (ODict [("data", VStr "")]) ;;
     Heap.setitem tmp_dict "content" content ;;;
     cwe_id <- lift (Xml.attr error "@cwe") ;;
     d <- Heap.getitem tmp_dict "description" ;;
     description <- as_str d ;;
     Heap.setitem tmp_dict "description"
       (VStr (cwe_tag cwe_id ++ description)) ;;;
     content <- Heap.getitem tmp_dict "content" ;;
     d <- Heap.getitem content "data" ;;
     data <- as_str d ;;
     Heap.setitem content "data" (VStr (data ++ cwe_reference cwe_id))
   else ret tt) ;;;
  text <- getline path line ;;
  let codeline := PyStr.strip text in
  rounded <- lift (rounded_line line) ;;
  let fingerprint_str := fingerprint_string path rounded rule codeline in
  Heap.log_call DEBUG ("Fingerprint string:" ++ nl ++ "  %s")
    [AStr fingerprint_str] ;;;
  Heap.setitem tmp_dict "fingerprint" (VStr (MD5.hexdigest fingerprint_str)) ;;;
  copy <- Heap.deepcopy tmp_dict ;;
  ret (dict_out ++ [copy])%list.

Fixpoint convert_errors (errors : list xml_value) (dict_out : list pyval)
  : M (list pyval) :=
  match errors with
  | [] => ret dict_out
  | error :: rest =>
      dict_out' <- convert_error error dict_out ;;
      convert_errors rest dict_out'
  end.

(** What [__convert] hands to [json.dumps], or the [True] it returns for an
    empty document. *)
Inductive converted : Type :=
| RetTrue
| RetList (dict_out : list pyval).

(** [__convert] from the parsed document [dict_in] up to the value it
    serialises. *)
Definition convert_dict (dict_in : xml_value) : M converted :=
  n <- lift (Xml.len dict_in) ;;
  if (n =? 0)%nat
  then Heap.log_call INFO "Empty file imported. Skipping..." [] ;;;
       ret RetTrue
  else
    results <- lift (Xml.item dict_in "results") ;;
    cppcheck <- lift (Xml.item results "cppcheck") ;;
    version <- lift (Xml.attr cppcheck "@version") ;;
    (if String.ltb version "1.82"
     then Heap.log_call WARNING
            (nl ++ "WARNING: This was tested against a newer version of CppCheck") []
     else ret tt) ;;;
    errors <- lift (Xml.item results "errors") ;;
    if negb (Xml.is_dict errors)
    then Heap.log_call WARNING "Nothing to do" [] ;;;
         ret (RetList [])
    else
      error <- lift (Xml.item errors "error") ;;
      let error_list := match error with XList l => l | _ => [error] end in
      dict_out <- convert_errors error_list [] ;;
      (if (List.length dict_out =? 0)%nat
       then Heap.log_call WARNING "Result is empty" []
       else ret tt) ;;;
      ret (RetList dict_out).

(* ===================================================================== *)
(** ** Reading a value out of the heap

    [reify] follows the references of a value and returns the tree that
    [json.dumps] would print for it. *)
(* ===================================================================== *)

#[warnings="-register-all"]
Inductive json : Type :=
| JNone
| JStr (s : string)
| JInt (z : Z)
| JList (l : list json)
| JDict (items : list (string * json)).

Fixpoint all_some {A B} (f : A -> option B) (l : list A) : option (list B) :=
  match l with
  | [] => Some []
  | x :: r =>
      match f x, all_some f r with
      | Some y, Some ys => Some (y :: ys)
      | _, _ => None
      end
  end.

Definition reify_item (f : pyval -> option json) (kv : string * pyval)
  : option (string * json) :=
  match f (snd kv) with
  | Some j => Some (fst kv, j)
  | None => None
  end.

Fixpoint reify_at (fuel : nat) (g d : list pyobj) (v : pyval) : option json :=
  match fuel with
  | O => None
  | S fuel' =>
      match v with
      | VNone => Some JNone
      | VStr s => Some (JStr s)
      | VInt z => Some (JInt z)
      | VRef a =>
          match match a with Glob n => g !! n | Dyn n => d !! n end with
          | Some (ODict items) =>
              option_map JDict (all_some (reify_item (reify_at fuel' g d)) items)
          | Some (OList elts) =>
              option_map JList (all_some (reify_at fuel' g d) elts)
          | None => None
          end
      end
  end.

Definition reify (st : state) (v : pyval) : option json :=
  reify_at Heap.recursion_limit (globals st) (dyn st) v.

(** [j[k]] on a reified dictionary. *)
Definition field (k : string) (j : json) : option json :=
  match j with
  | JDict items => Xml.assoc k items
  | _ => None
  end.

(* ===================================================================== *)
(** ** [__convert] and [convert_file]

    [xmltodict.parse] and [json.dumps] are library functions: the parser is
    a parameter, the serialiser is applied to the reified output. *)
(* ===================================================================== *)

(** The value [__convert] returns: [True] or the JSON text. *)
Inductive pyret : Type :=
| PTrue
| PStr (s : string).

Section Serialised.

Variable xmltodict_parse : string -> result xml_value.
Variable json_dumps : json -> string.

(** [json.dumps(dict_out)] *)
Definition dumps (dict_out : list pyval) : M string :=
  fun st =>
    match all_some (reify st) dict_out with
    | Some js => (Ok (json_dumps (JList js)), st)
    | None => (Raise RecursionError, st)
    end.

Definition __convert (xml_input : string) : M pyret :=
  dict_in <- lift (xmltodict_parse xml_input) ;;
  r <- convert_dict dict_in ;;
  match r with
  | RetTrue => ret PTrue
  | RetList dict_out => s <- dumps dict_out ;; ret (PStr s)
  end.

(** [open(fname, mode="r")] followed by [read()]: the handle is modelled
    by the text it gives. *)
Definition open_read (fname : string) : M string :=
  fun st =>
    match files (fs st) fname with
    | Some text => (Ok text, st)
    | None => (Raise OSError, st)
    end.

(** The file system in which the file [name] holds [text].  Files are told
    apart by their paths as strings: two spellings of the path of one file
    are two files here. *)
Definition set_file (name text : string) (f : filesystem) : filesystem :=
  FileSystem
    (fun p => if String.eqb p name then Some text else files f p)
    (writable f).

(** [open(fname, "w")]: the file is created or emptied. *)
Definition open_write (fname : string) : M unit :=
  fun st =>
    if writable (fs st) fname
    then (Ok tt, State (globals st) (dyn st) (log st)
                       (set_file fname EmptyString (fs st)))
    else (Raise OSError, st).

(** [f_out.write(json_out)] and the close that ends the [with] block, for
    a file that takes the text: a device that refuses it is not modelled. *)
Definition write (fname : string) (json_out : pyret) : M unit :=
  fun st =>
    match json_out with
    | PStr s => (Ok tt, State (globals st) (dyn st) (log st)
                              (set_file fname s (fs st)))
    | PTrue => (Raise TypeError, st)
    end.

(** [fin.close()], where [fin] is [None] or the handle. *)
Definition close (fin : option string) : M unit :=
  match fin with
  | Some _ => ret tt
  | None => raise AttributeError
  end.

Definition convert_file (fname_in fname_out : string) : M bool :=
  fun st0 =>
    (* try: *)
    let '(opened, st1) :=
      (Heap.log_call DEBUG "Reading input file: %s" [AAbspath fname_in] ;;;
       open_read fname_in) st0 in
    let fin := match opened with Ok text => Some text | Raise _ => None end in
    let '(tried, st2) :=
      match opened with
      | Ok text => __convert text st1
      | Raise e => (Raise e, st1)
      end in
    (* finally: [fin is not sys.stdin] holds for [None] and for a file *)
    let '(closed, st3) :=
      (Heap.log_call DEBUG "Closing input file" [] ;;; close fin) st2 in
    match closed, tried with
    | Raise e, _ => (Raise e, st3)
    | Ok _, Raise e => (Raise e, st3)
    | Ok _, Ok json_out =>
        (Heap.log_call DEBUG "Writing output file: %s" [AStr fname_out] ;;;
         open_write fname_out ;;;
         write fname_out json_out ;;;
         ret true) st3
    end.

End Serialised.

(* ===================================================================== *)
(** * Definitions used to state and prove the properties                 *)
(* ===================================================================== *)

(** The mantissa [binary_round_aux] keeps for a quotient of 53 or 54 bits,
    in units of the last place of the quotient. *)
Definition rounded_mantissa (q : positive) (l : location) : Z :=
  if Zpos q <? 2 ^ 53 then round_nearest_even (Zpos q) l
  else 2 * round_nearest_even
             (shr_m (shr_1 (shr_record_of_loc (Zpos q) l)))
             (loc_of_shr_record (shr_1 (shr_record_of_loc (Zpos q) l))).

(** The state with more dynamic objects. *)
Definition extend (st : state) (ext : list pyobj) : state :=
  State (globals st) (dyn st ++ ext) (log st) (fs st).

(** [v] reads as [j] from the objects [ext] placed at address [lo],
    whatever is stored below that address and in the globals. *)
Definition copied (f lo : nat) (ext : list pyobj) (v : pyval) (j : json)
  : Prop :=
  forall D, List.length D = lo -> reify_at f [] (D ++ ext) v = Some j.

(** The heap [d] holds the objects [ext] from address [lo] on. *)
Definition holds (d : list pyobj) (lo : nat) (ext : list pyobj) : Prop :=
  exists D more, d = (D ++ ext ++ more)%list /\ List.length D = lo.

(** [v] reads as [j] from objects of [d] that lie between [lo] and [hi]
    and refer to nothing else. *)
Definition frozen (f : nat) (d : list pyobj) (lo hi : nat) (v : pyval)
    (j : json) : Prop :=
  exists ext,
    hi = (lo + List.length ext)%nat /\ holds d lo ext /\ copied f lo ext v j.

(** *** The conversion of one record as a function

    [pure_error] computes, without a heap, the exception or the issue that
    [convert_error] produces for a record; the exceptions come in the order
    in which the code meets them. *)

Record location_t : Type := Location {
  loc_path : string;
  loc_line : Z;
  loc_column : Z
}.

Record issue : Type := Issue {
  i_check_name : string;
  i_description : string;
  i_categories : list string;
  i_location : location_t;
  i_other_locations : list location_t;
  i_content : option string;
  i_fingerprint : string
}.

Definition rbind {A B} (r : result A) (k : A -> result B) : result B :=
  match r with
  | Ok a => k a
  | Raise e => Raise e
  end.

Notation "x <-- c ;; k" := (rbind c (fun x => k))
  (at level 100, c at next level, right associativity) : py_scope.

Definition pure_int (s : string) : result Z :=
  match PyStr.int_of_str s with
  | Some z => Ok z
  | None => Raise ValueError
  end.

Definition pure_other (loc : xml_value) : result location_t :=
  file <-- Xml.attr loc "@file" ;;
  line_s <-- Xml.attr loc "@line" ;;
  line <-- pure_int line_s ;;
  column_s <-- Xml.attr loc "@column" ;;
  column <-- pure_int column_s ;;
  Ok (Location file line column).

Fixpoint pure_others (locs : list xml_value) : result (list location_t) :=
  match locs with
  | [] => Ok []
  | loc :: rest =>
      o <-- pure_other loc ;;
      os <-- pure_others rest ;;
      Ok (o :: os)
  end.

Definition pure_primary (location : xml_value)
  : result (location_t * list location_t) :=
  match location with
  | XList locs =>
      loc0 <-- Xml.index locs 0 ;;
      has_file0 <-- Xml.contains "@file0" loc0 ;;
      path <-- Xml.attr loc0 (if has_file0 then "@file0" else "@file") ;;
      line_s <-- Xml.attr loc0 "@line" ;;
      line <-- pure_int line_s ;;
      column_s <-- Xml.attr loc0 "@column" ;;
      column <-- pure_int column_s ;;
      others <-- pure_others (tl locs) ;;
      Ok (Location path line column, others)
  | _ =>
      path <-- Xml.attr location "@file" ;;
      line_s <-- Xml.attr location "@line" ;;
      line <-- pure_int line_s ;;
      has_column <-- Xml.contains "@column" location ;;
      column <-- (if has_column
                  then column_s <-- Xml.attr location "@column" ;;
                       pure_int column_s
                  else Ok 0) ;;
      Ok (Location path line column, [])
  end.

Definition pure_error (f : filesystem) (error : xml_value)
  : result (option issue) :=
  printed <-- str error ;;
  has_location <-- Xml.contains "location" error ;;
  if negb has_location then Ok None else
  rule <-- Xml.attr error "@id" ;;
  msg <-- Xml.attr error "@msg" ;;
  severity <-- Xml.attr error "@severity" ;;
  category <-- __get_codeclimate_category severity ;;
  location <-- Xml.item error "location" ;;
  pl <-- pure_primary location ;;
  has_cwe <-- Xml.contains "@cwe" error ;;
  cwe <-- (if has_cwe
           then cwe_id <-- Xml.attr error "@cwe" ;; Ok (Some cwe_id)
           else Ok None) ;;
  let path := loc_path (fst pl) in
  let line := loc_line (fst pl) in
  let codeline := PyStr.strip (linecache_getline f path line) in
  rounded <-- rounded_line line ;;
  Ok (Some
        (Issue rule
           (match cwe with Some c => cwe_tag c ++ msg | None => msg end)
           (split_nl category ++ [severity])%list
           (fst pl) (snd pl)
           (option_map cwe_reference cwe)
           (MD5.hexdigest (fingerprint_string path rounded rule codeline)))).

(** The issues of the records of a list, in order; the first exception
    stops the conversion. *)
Fixpoint pure_errors (f : filesystem) (errors : list xml_value)
  : result (list issue) :=
  match errors with
  | [] => Ok []
  | error :: rest =>
      i <-- pure_error f error ;;
      issues <-- pure_errors f rest ;;
      Ok (match i with Some x => x :: issues | None => issues end)
  end.

Definition location_json (l : location_t) : json :=
  JDict [ ("path", JStr (loc_path l));
          ("positions",
           JDict [ ("begin",
                    JDict [ ("line", JInt (loc_line l));
                            ("column", JInt (loc_column l)) ]) ]) ].

(** The dictionary of an issue, with its keys in the order in which the
    code creates them. *)
Definition issue_json (i : issue) : json :=
  JDict
    ([ ("type", JStr "issue");
       ("check_name", JStr (i_check_name i));
       ("description", JStr (i_description i));
       ("categories", JList (map JStr (i_categories i)));
       ("fingerprint", JStr (i_fingerprint i));
       ("location", location_json (i_location i)) ]
     ++ match i_other_locations i with
        | [] => []
        | others => [ ("other_locations", JList (map location_json others)) ]
        end
     ++ match i_content i with
        | Some data => [ ("content", JDict [ ("data", JStr data) ]) ]
        | None => []
        end)%list.

(** The globals when the nested template dictionaries hold [path], [line]
    and [column]. *)
Definition template (path : string) (line column : Z) : list pyobj :=
  [ Template.element; Template.location path; Template.positions;
    Template.begin line column ].

Definition template_ok (st : state) : Prop :=
  exists path line column, globals st = template path line column.

(** *** While a record is converted

    [d0] holds the objects that existed before, [l] the objects of the
    record: [tmp_dict] first.  [base] is [tmp_dict] without its
    [other_locations], [done] the secondary locations already added: their
    copies are separate from the objects the code still changes. *)
Definition others_inv (d0 l : list pyobj) (base : list (string * pyval))
    (done : list location_t) : Prop :=
  match done with
  | [] => l !! 0%nat = Some (ODict base)
  | _ :: _ =>
      exists o refs,
        (1 < o)%nat
        /\ l !! 0%nat
           = Some (ODict (base ++ [("other_locations",
                                    VRef (Dyn (List.length d0 + o)))])%list)
        /\ l !! o = Some (OList refs)
        /\ Forall2
             (fun r x =>
                exists lo hi,
                  (List.length d0 + o < lo)%nat
                  /\ frozen 4 (d0 ++ l) lo hi r (location_json x))
             refs done
  end.

(** What [other_location] leaves for a location that reads as [x]. *)
Definition other_post (d0 : list pyobj) (base : list (string * pyval))
    (done : list location_t) (c : pyobj) (p0 : string)
    (lg : list log_record) (f : filesystem) (xs : list location_t)
    (r : result unit * state) : Prop :=
  fst r = Ok tt
  /\ exists l' line column,
       snd r = State (template p0 line column) (d0 ++ l') lg f
       /\ others_inv d0 l' base (done ++ xs)%list
       /\ l' !! 1%nat = Some c.

(** What [primary_location] leaves for a location element that reads as
    [pl]. *)
Definition primary_post (d0 : list pyobj) (base : list (string * pyval))
    (c : pyobj) (p0 : string) (lg : list log_record) (f : filesystem)
    (pl : location_t * list location_t)
    (r : result (string * Z * Z) * state) : Prop :=
  fst r = Ok (loc_path (fst pl), loc_line (fst pl), loc_column (fst pl))
  /\ exists l' line column,
       snd r = State (template p0 line column) (d0 ++ l')%list lg f
       /\ others_inv d0 l' base (snd pl)
       /\ l' !! 1%nat = Some c.

(** The two records that the conversion of a record logs. *)
Definition record_log (error : xml_value) (fingerprint_str : string)
  : list log_record :=
  [ LogRecord DEBUG "Processing -- %s" [ARepr error];
    LogRecord DEBUG ("Fingerprint string:" ++ nl ++ "  %s")
      [AStr fingerprint_str] ].

(** What [convert_error] leaves for a record that reads as the issue [i]:
    one more output element, which reads as [i] from objects of its own;
    the nested template dictionaries hold the primary location of [i]. *)
Definition error_post (d0 : list pyobj) (lg : list log_record)
    (f : filesystem) (error : xml_value) (dict_out : list pyval) (i : issue)
    (r : result (list pyval) * state) : Prop :=
  exists v ext s lo hi,
    r = (Ok (dict_out ++ [v])%list,
         State (template (loc_path (i_location i)) (loc_line (i_location i))
                         (loc_column (i_location i)))
               (d0 ++ ext)%list (lg ++ record_log error s)%list f)
    /\ i_fingerprint i = MD5.hexdigest s
    /\ frozen 6 (d0 ++ ext)%list lo hi v (issue_json i).

(** The primary location of the last issue of a list: what the nested
    template dictionaries hold after the conversion. *)
Fixpoint last_location (issues : list issue) (last : location_t)
  : location_t :=
  match issues with
  | [] => last
  | i :: rest => last_location rest (i_location i)
  end.

(** What [convert_errors] leaves for records that read as [issues]: one
    output element for each of them, in order. *)
Definition errors_post (d0 : list pyobj) (lg : list log_record)
    (f : filesystem) (last : location_t) (dict_out : list pyval)
    (issues : list issue) (r : result (list pyval) * state) : Prop :=
  exists vs ext lg',
    r = (Ok (dict_out ++ vs)%list,
         State (template (loc_path (last_location issues last))
                         (loc_line (last_location issues last))
                         (loc_column (last_location issues last)))
               (d0 ++ ext)%list (lg ++ lg')%list f)
    /\ Forall (fun r => log_level r = DEBUG) lg'
    /\ Forall2
         (fun v i => exists lo hi, frozen 6 (d0 ++ ext)%list lo hi v (issue_json i))
         vs issues.

(* ===================================================================== *)
(** ** Reports used as examples

    The documents are what [xmltodict.parse] returns for the reports of
    the repository's tests. *)
(* ===================================================================== *)

Module Sample.

(** [<location file0=... file=... line=... column=.../>] *)
Definition location_elem (file0 : option string) (file line : string)
    (column : option string) : xml_value :=
  XDict (match file0 with Some p => [("@file0", p)] | None => [] end
         ++ [("@file", file); ("@line", line)]
         ++ match column with Some c => [("@column", c)] | None => [] end)%list
        [].

(** [<error id=... severity=... msg=... verbose="message">] with its
    locations: none, one (a dictionary) or several (a list). *)
Definition error_elem (id severity msg : string) (locations : list xml_value)
  : xml_value :=
  XDict [("@id", id); ("@severity", severity); ("@msg", msg);
         ("@verbose", "message")]
        match locations with
        | [] => []
        | [l] => [("location", l)]
        | ls => [("location", XList ls)]
        end.

(** [<results version="2"><cppcheck version="1.90"/><errors>...] *)
Definition report (errors : list xml_value) : xml_value :=
  XDict []
    [("results",
      XDict [("@version", "2")]
        [("cppcheck", XDict [("@version", "1.90")] []);
         ("errors",
          match errors with
          | [] => XNone
          | [e] => XDict [] [("error", e)]
          | es => XDict [] [("error", XList es)]
          end)])].

(** A source tree with one file of four lines. *)
Definition four_lines : filesystem :=
  FileSystem
    (fun p =>
       if String.eqb p "tests/cpp_src/four_lines.c"
       then Some ("int a;" ++ nl ++ "  int b;  " ++ nl ++ "int c;" ++ nl
                  ++ "int d;" ++ nl)
       else None)
    (fun _ => true).

(** A warning at line 2 of the file, and an error in a header that is not
    in the tree. *)
Definition warning_record : xml_value :=
  error_elem "uninitMemberVar" "warning" "message"
    [location_elem None "tests/cpp_src/four_lines.c" "2" (Some "5")].

Definition header_record : xml_value :=
  error_elem "id" "error" "msg"
    [location_elem None "tests/cpp_src/Foo.h" "15" (Some "0")].

(** The records of the repository's tests. *)
Definition no_cwe_record : xml_value :=
  error_elem "uninitMemberVar" "error" "message"
    [location_elem None "tests/cpp_src/bad_code_1.cpp" "50" (Some "3")].

Definition multiple_locations_record : xml_value :=
  error_elem "cppCheckType" "error" "message"
    [location_elem None "tests/cpp_src/Foo.h" "1" None;
     location_elem None "tests/cpp_src/Foo.h" "2" None;
     location_elem None "tests/cpp_src/Foo.h" "3" (Some "3")].

Definition no_loc_column_record : xml_value :=
  error_elem "uninitMemberVar" "error" "message"
    [location_elem None "tests/cpp_src/bad_code_1.cpp" "3" None].

Definition longer_than_file_record : xml_value :=
  error_elem "id" "error" "msg"
    [location_elem None "tests/cpp_src/four_lines.c" "5" (Some "0")].

Definition location_file0_record : xml_value :=
  error_elem "cppCheckType" "error" "message"
    [location_elem (Some "tests/cpp_src/Foo.cpp") "tests/cpp_src/Foo.h" "3"
       None].

(** A message that is not about the code, with a severity that is not in
    the table. *)
Definition unlocated_record : xml_value :=
  error_elem "toomanyconfigs" "bogus" "msg" [].

Definition unknown_severity_record : xml_value :=
  error_elem "id" "bogus" "msg"
    [location_elem None "tests/cpp_src/four_lines.c" "1" (Some "0")].

(** A record whose line number is beyond the integers that binary64
    represents exactly. *)
Definition far_record : xml_value :=
  error_elem "id" "error" "msg"
    [location_elem None "tests/cpp_src/Foo.h" "9007199254741001" (Some "0")].

End Sample.

(** The values that [__convert] hands to [json.dumps], read out of the
    heap; [None] when the conversion raises or returns [True]. *)
Definition output_of (r : result converted * state) : option (list json) :=
  match r with
  | (Ok (RetList dict_out), st) => all_some (reify st) dict_out
  | _ => None
  end.

(** The value a run returns, or [default] when it raises. *)
Definition value_of {A} (default : A) (r : result A * state) : A :=
  match fst r with
  | Ok a => a
  | Raise _ => default
  end.

(** The keys of a dictionary. *)
Definition keys (j : json) : list string :=
  match j with
  | JDict items => map fst items
  | _ => []
  end.

(** The conversion of the report with the records [errors] by a process
    that has just loaded the module. *)
Definition run (f : filesystem) (errors : list xml_value)
  : result converted * state :=
  convert_dict (Sample.report errors) (initial_state f).

(** The exception of a run, if it raises. *)
Definition raised {A} (r : result A * state) : option exn :=
  match fst r with
  | Raise e => Some e
  | Ok _ => None
  end.

(** What a record gives when it is the only one converted by a process
    that has just loaded the module. *)
Definition converted_alone (f : filesystem) (error : xml_value) : list json :=
  match convert_error error [] (initial_state f) with
  | (Ok out, st) =>
      match all_some (reify st) out with Some js => js | None => [] end
  | (Raise _, _) => []
  end.

(** Rounding up to a multiple of ten, on integers. *)
Definition round_up_10 (n : Z) : Z := (n + 9) / 10 * 10.

Definition is_lower_hex (c : ascii) : bool :=
  existsb (Ascii.eqb c) (list_ascii_of_string "0123456789abcdef").

Fixpoint all_chars (p : ascii -> bool) (s : string) : bool :=
  match s with
  | EmptyString => true
  | String c r => p c && all_chars p r
  end.

(** The six severities of the table. *)
Definition known_severity (s : string) : bool :=
  Xml.has_key s map_severity_to_category.

(** [j["location"]["path"]] *)
Definition path_of (j : json) : option json :=
  match field "location" j with
  | Some l => field "path" l
  | None => None
  end.

(** The exceptions raised for a missing attribute or element: their key is
    the name of an attribute or [location], never a severity of the
    table. *)
Definition attr_error (e : exn) : Prop :=
  match e with
  | KeyError k => String.prefix "@" k = true \/ k = "location"
  | _ => True
  end.

(** The path, line and column of the primary location of a record, read
    from the attributes of the location: of the first location when there
    are several, where the path is its [file0] if it has one and the column
    must be there; of the only location otherwise, where the path is its
    [file] and the column is 0 when there is none. *)
Definition primary_of (location : xml_value) (path : string)
    (line column : Z) : Prop :=
  match location with
  | XList locs =>
      exists loc0 has_file0 line_s column_s,
        nth_error locs 0 = Some loc0
        /\ Xml.contains "@file0" loc0 = Ok has_file0
        /\ Xml.attr loc0 (if has_file0 then "@file0" else "@file") = Ok path
        /\ Xml.attr loc0 "@line" = Ok line_s
        /\ PyStr.int_of_str line_s = Some line
        /\ Xml.attr loc0 "@column" = Ok column_s
        /\ PyStr.int_of_str column_s = Some column
  | _ =>
      Xml.attr location "@file" = Ok path
      /\ (exists line_s,
            Xml.attr location "@line" = Ok line_s
            /\ PyStr.int_of_str line_s = Some line)
      /\ match Xml.contains "@column" location with
         | Ok true =>
             exists column_s,
               Xml.attr location "@column" = Ok column_s
               /\ PyStr.int_of_str column_s = Some column
         | _ => column = 0
         end
  end.

(** The dictionary [j] holds the path, line, column, description,
    categories and fingerprint of the record [error], each given by the
    attributes of the record and by the text of the line in the file
    system [f]. *)
Definition own_issue (f : filesystem) (error : xml_value) (j : json) : Prop :=
  exists rule msg severity category location path line column rounded,
    Xml.attr error "@id" = Ok rule
    /\ Xml.attr error "@msg" = Ok msg
    /\ Xml.attr error "@severity" = Ok severity
    /\ __get_codeclimate_category severity = Ok category
    /\ Xml.item error "location" = Ok location
    /\ primary_of location path line column
    /\ rounded_line line = Ok rounded
    /\ field "location" j = Some (location_json (Location path line column))
    /\ field "description" j
       = Some (JStr match Xml.attr error "@cwe" with
                    | Ok cwe_id => cwe_tag cwe_id ++ msg
                    | Raise _ => msg
                    end)
    /\ field "categories" j
       = Some (JList (map JStr (split_nl category ++ [severity])%list))
    /\ field "fingerprint" j
       = Some (JStr (MD5.hexdigest
                       (fingerprint_string path rounded rule
                          (PyStr.strip (linecache_getline f path line))))).

(* ===================================================================== *)
(** ** Definitions for the further properties                            *)
(* ===================================================================== *)

(** A computation that leaves the file system as it is and only adds
    records to the log, whether it returns or raises. *)
Definition frames {A} (c : M A) : Prop :=
  forall st,
    fs (snd (c st)) = fs st
    /\ exists l, log (snd (c st)) = (log st ++ l)%list.

(** The state after one call of the logger. *)
Definition logged (st : state) (l : level) (msg : string)
    (args : list log_arg) : state :=
  State (globals st) (dyn st) (log st ++ [LogRecord l msg args])%list (fs st).

(** The state in which [convert_file] calls [__convert]. *)
Definition reading (fname_in : string) (st : state) : state :=
  logged st DEBUG "Reading input file: %s" [AAbspath fname_in].

(** The records that the loop of [__convert] goes through: the children
    [error] of [results/errors], a single one taken as a list of one. *)
Definition document_records (dict_in : xml_value) : list xml_value :=
  match Xml.item dict_in "results" with
  | Ok results =>
      match Xml.item results "errors" with
      | Ok errors =>
          if Xml.is_dict errors then
            match Xml.item errors "error" with
            | Ok (XList l) => l
            | Ok error => [error]
            | Raise _ => []
            end
          else []
      | Raise _ => []
      end
  | Raise _ => []
  end.

(** [dict_in["results"]["cppcheck"]["@version"]] *)
Definition document_version (dict_in : xml_value) : result string :=
  results <-- Xml.item dict_in "results" ;;
  cppcheck <-- Xml.item results "cppcheck" ;;
  Xml.attr cppcheck "@version".

(** [isinstance(dict_in["results"]["errors"], dict)] *)
Definition has_errors (dict_in : xml_value) : bool :=
  match Xml.item dict_in "results" with
  | Ok results =>
      match Xml.item results "errors" with
      | Ok errors => Xml.is_dict errors
      | Raise _ => false
      end
  | Raise _ => false
  end.

(** ["location" in error] holds. *)
Definition located (error : xml_value) : bool :=
  match Xml.contains "location" error with
  | Ok true => true
  | _ => false
  end.

Definition is_warning (r : log_record) : bool :=
  match log_level r with
  | WARNING => true
  | _ => false
  end.

Definition version_warning : log_record :=
  LogRecord WARNING
    (nl ++ "WARNING: This was tested against a newer version of CppCheck") [].

(** The conversion of a document as a function: the exception, [None] for
    the [True] of an empty document, or the issues. *)
Definition pure_dict (f : filesystem) (dict_in : xml_value)
  : result (option (list issue)) :=
  n <-- Xml.len dict_in ;;
  if (n =? 0)%nat then Ok None else
  results <-- Xml.item dict_in "results" ;;
  cppcheck <-- Xml.item results "cppcheck" ;;
  version <-- Xml.attr cppcheck "@version" ;;
  errors <-- Xml.item results "errors" ;;
  if negb (Xml.is_dict errors) then Ok (Some []) else
  error <-- Xml.item errors "error" ;;
  issues <-- pure_errors f (match error with XList l => l | _ => [error] end) ;;
  Ok (Some issues).


(** The record of the repository's test [test_convert_severity_warning],
    which has a CWE number. *)
Definition severity_warning_record : xml_value :=
  XDict [("@id", "uninitMemberVar"); ("@severity", "warning");
         ("@msg", "Ur c0de suks");
         ("@verbose", "i can right go0d3r c0d3 thAn u");
         ("@cwe", "123456789")]
        [("location",
          Sample.location_elem None "tests/cpp_src/bad_code_1.cpp" "50"
            (Some "5"))].

(** A record with three locations, each with a column. *)
Definition three_locations_record : xml_value :=
  Sample.error_elem "cppCheckType" "error" "message"
    [Sample.location_elem (Some "tests/cpp_src/four_lines.c")
       "tests/cpp_src/Foo.h" "1" (Some "1");
     Sample.location_elem (Some "tests/cpp_src/four_lines.c")
       "tests/cpp_src/Foo.h" "2" (Some "2");
     Sample.location_elem None "tests/cpp_src/Foo.h" "3" (Some "3")].

(** The list that a run of [convert_dict] returns. *)
Definition list_of (r : result converted * state) : list pyval :=
  match fst r with
  | Ok (RetList dict_out) => dict_out
  | _ => []
  end.

(** A report with a message that is not about the code and a warning. *)
Definition mixed_report : xml_value :=
  Sample.report [Sample.unlocated_record; Sample.warning_record].

(** A parser that gives the document [doc] for any text but the empty
    one, and a serialiser that prints the number of issues. *)
Definition parse_as (doc : xml_value) (xml_input : string)
  : result xml_value :=
  match xml_input with
  | EmptyString => Raise ExpatError
  | _ => Ok doc
  end.

Definition dumps_count (j : json) : string :=
  match j with
  | JList l => PyStr.str_of_int (Z.of_nat (List.length l))
  | _ => EmptyString
  end.

(** A file system with a report and a path that cannot be written. *)
Definition with_report : filesystem :=
  FileSystem
    (fun p => if String.eqb p "cppcheck.xml" then Some "<results/>"
              else files Sample.four_lines p)
    (fun p => negb (String.eqb p "/proc/version")).

(** The source tree after an edit: a line was added at the top of the
    file and the second line lost its indentation. *)
Definition shifted_lines : filesystem :=
  FileSystem
    (fun p =>
       if String.eqb p "tests/cpp_src/four_lines.c"
       then Some ("/* new */" ++ nl ++ "int a;" ++ nl ++ "int b;" ++ nl
                  ++ "int c;" ++ nl ++ "int d;" ++ nl)
       else None)
    (fun _ => true).

(** The warning of [Sample.warning_record], as reported after the edit. *)
Definition shifted_record : xml_value :=
  Sample.error_elem "uninitMemberVar" "warning" "message"
    [Sample.location_elem None "tests/cpp_src/four_lines.c" "3" (Some "1")].



(** A record that cppcheck reports at line 0 of a file. *)
Definition line_zero_record : xml_value :=
  Sample.error_elem "id" "error" "msg"
    [Sample.location_elem None "tests/cpp_src/four_lines.c" "0" (Some "0")].

(* ===================================================================== *)
(** * Facts about the library models                                     *)
(* ===================================================================== *)

Local Open Scope list_scope.

Example md5_empty : MD5.hexdigest "" = "d41d8cd98f00b204e9800998ecf8427e".
Proof. vm_compute. reflexivity. Qed.

Example md5_abc : MD5.hexdigest "abc" = "900150983cd24fb0d6963f7d28e17f72".
Proof. vm_compute. reflexivity. Qed.

Example md5_two_blocks :
  MD5.hexdigest
    "aaaaaaaaaaaaaaaaaaaaaaaaaaaaaaaaaaaaaaaaaaaaaaaaaaaaaaaaaaaaaaaaaaaaaa"
  = "0f5c6c4e740bfcc08c3c26ccb2673d46".
Proof. vm_compute. reflexivity. Qed.

Lemma hex_length bs : String.length (MD5.hex bs) = (2 * List.length bs)%nat.
Proof. induction bs as [|b r IH]; simpl; [reflexivity | rewrite IH; lia]. Qed.

Lemma digest_length msg : List.length (MD5.digest msg) = 16%nat.
Proof.
  unfold MD5.digest, MD5.le_bytes. rewrite !length_app, !length_map.
  reflexivity.
Qed.

Lemma hexdigest_length s : String.length (MD5.hexdigest s) = 32%nat.
Proof. unfold MD5.hexdigest. rewrite hex_length, digest_length. reflexivity. Qed.

Example ten_is_10 :
  binary_normalize PyFloat.prec PyFloat.emax 10 0 false = PyFloat.ten.
Proof. vm_compute. reflexivity. Qed.

(* ===================================================================== *)
(** * The rounding of the line number

    Below 2^53 the binary64 computation of [math.ceil(line / 10.0)] is the
    exact ceiling of [line / 10]. *)
(* ===================================================================== *)

Section FloatFacts.

Local Abbreviation fexp := (SpecFloat.fexp PyFloat.prec PyFloat.emax).
Local Abbreviation shr_fexp := (SpecFloat.shr_fexp PyFloat.prec PyFloat.emax).
Local Abbreviation binary_round_aux :=
  (SpecFloat.binary_round_aux PyFloat.prec PyFloat.emax).

Lemma digits2_pos_bounds p :
  2 ^ (Zpos (digits2_pos p) - 1) <= Zpos p < 2 ^ Zpos (digits2_pos p).
Proof.
  induction p as [p IH | p IH |]; cbn [digits2_pos].
  - rewrite Pos2Z.inj_succ, Z.pow_succ_r by lia.
    replace (Z.succ (Zpos (digits2_pos p)) - 1)
      with (Z.succ (Zpos (digits2_pos p) - 1)) by lia.
    rewrite Z.pow_succ_r by lia. lia.
  - rewrite Pos2Z.inj_succ, Z.pow_succ_r by lia.
    replace (Z.succ (Zpos (digits2_pos p)) - 1)
      with (Z.succ (Zpos (digits2_pos p) - 1)) by lia.
    rewrite Z.pow_succ_r by lia. lia.
  - cbn. lia.
Qed.

Lemma digits2_pos_unique p k :
  2 ^ (k - 1) <= Zpos p < 2 ^ k -> Zpos (digits2_pos p) = k.
Proof.
  intros [Hlo Hhi]. pose proof (digits2_pos_bounds p) as [Blo Bhi].
  set (d := Zpos (digits2_pos p)) in *.
  assert (0 < d) by (subst d; lia).
  destruct (Z.lt_trichotomy d k) as [Hlt | [Heq | Hgt]]; [| exact Heq |].
  - assert (2 ^ d <= 2 ^ (k - 1)) by (apply Z.pow_le_mono_r; lia). lia.
  - assert (0 <= k) by
      (destruct (Z.neg_nonneg_cases k) as [Hn|]; [|lia];
       rewrite (Z.pow_neg_r 2 k Hn) in Hhi; lia).
    assert (2 ^ k <= 2 ^ (d - 1)) by (apply Z.pow_le_mono_r; lia). lia.
Qed.

Lemma pos_iter_xO p k : Zpos (Pos.iter xO p k) = Zpos p * 2 ^ Zpos k.
Proof.
  rewrite (Pos.iter_swap_gen _ _ Zpos xO (Z.mul 2)) by reflexivity.
  revert p. induction k using Pos.peano_ind; intros p.
  - cbn. lia.
  - rewrite Pos.iter_succ, Pos2Z.inj_succ, Z.pow_succ_r, IHk by lia. lia.
Qed.

Lemma fexp_normal e : -1021 <= e -> fexp e = e - 53.
Proof. intros H. unfold SpecFloat.fexp, emin, PyFloat.prec, PyFloat.emax. lia. Qed.

Lemma shr_fexp_53 m e l :
  Zpos (digits2_pos m) = 53 -> -1074 <= e ->
  shr_fexp (Zpos m) e l = (shr_record_of_loc (Zpos m) l, e).
Proof.
  intros Hd He. unfold SpecFloat.shr_fexp, Zdigits2. rewrite Hd.
  rewrite fexp_normal by lia.
  replace (53 + e - 53 - e) with 0 by lia. reflexivity.
Qed.

Lemma shr_fexp_54 m e l :
  Zpos (digits2_pos m) = 54 -> -1075 <= e ->
  shr_fexp (Zpos m) e l = (shr_1 (shr_record_of_loc (Zpos m) l), e + 1).
Proof.
  intros Hd He. unfold SpecFloat.shr_fexp, Zdigits2. rewrite Hd.
  rewrite fexp_normal by lia.
  replace (54 + e - 53 - e) with 1 by lia. reflexivity.
Qed.

Lemma binary_round_aux_exact m e :
  Zpos (digits2_pos m) = 53 -> -1074 <= e <= 971 ->
  binary_round_aux false (Zpos m) e loc_Exact = S754_finite false m e.
Proof.
  intros Hd He. unfold SpecFloat.binary_round_aux.
  rewrite shr_fexp_53 by (assumption || lia). cbn.
  rewrite shr_fexp_53 by (assumption || lia). cbn.
  destruct (Z.leb_spec e (PyFloat.emax - PyFloat.prec)) as [_ | Hgt].
  - reflexivity.
  - unfold PyFloat.emax, PyFloat.prec in Hgt. lia.
Qed.

(** [float(n)] is exact below 2^53: a 53-bit mantissa and an exponent
    between -52 and 0. *)
Lemma of_int_small p :
  Zpos p < 2 ^ 53 ->
  exists m e,
    PyFloat.of_int (Zpos p) = Some (S754_finite false m e)
    /\ Zpos (digits2_pos m) = 53 /\ -52 <= e <= 0
    /\ Zpos m = Zpos p * 2 ^ (- e).
Proof.
  intros Hp. pose proof (digits2_pos_bounds p) as [Blo Bhi].
  set (d := Zpos (digits2_pos p)) in *.
  assert (Hd : 1 <= d <= 53).
  { split; [subst d; lia |].
    destruct (Z_le_gt_dec d 53) as [|Hgt]; [assumption|].
    assert (2 ^ 53 <= 2 ^ (d - 1)) by (apply Z.pow_le_mono_r; lia). lia. }
  unfold PyFloat.of_int, binary_normalize, binary_round.
  fold d. rewrite Z.add_0_r, fexp_normal by lia.
  unfold shl_align. rewrite Z.sub_0_r.
  destruct (d - 53) as [| q | q] eqn:Hq; [| lia |].
  - exists p, 0. rewrite binary_round_aux_exact by (fold d; lia).
    repeat split; lia.
  - assert (Hm : Zpos (PosDef.Pos.iter xO p q) = Zpos p * 2 ^ Zpos q)
      by apply pos_iter_xO.
    assert (Hdm : Zpos (digits2_pos (PosDef.Pos.iter xO p q)) = 53).
    { apply digits2_pos_unique. rewrite Hm.
      replace 53 with (d + Zpos q) by lia.
      replace (d + Zpos q - 1) with (d - 1 + Zpos q) by lia.
      rewrite !Z.pow_add_r by lia.
      assert (0 < 2 ^ Zpos q) by (apply Z.pow_pos_nonneg; lia). nia. }
    exists (PosDef.Pos.iter xO p q), (Z.neg q).
    rewrite binary_round_aux_exact by (assumption || lia).
    repeat split; try lia. rewrite Hm. reflexivity.
Qed.

Lemma shr_record_of_loc_m m l : shr_m (shr_record_of_loc m l) = m.
Proof. destruct l as [| []]; reflexivity. Qed.

Lemma loc_of_shr_record_of_loc m l :
  loc_of_shr_record (shr_record_of_loc m l) = l.
Proof. destruct l as [| []]; reflexivity. Qed.

(** The last step of [binary_round_aux]: a mantissa of 53 bits is kept, and
    2^53 is renormalised; the value does not change. *)
Lemma round_aux_finish M e :
  2 ^ 52 <= M <= 2 ^ 53 -> -1074 <= e <= 970 ->
  exists m' e',
    (let '(mrs, e'') := shr_fexp M e loc_Exact in
     match shr_m mrs with
     | Z0 => S754_zero false
     | Zpos m0 =>
         if e'' <=? PyFloat.emax - PyFloat.prec
         then S754_finite false m0 e'' else S754_infinity false
     | Zneg _ => S754_nan
     end) = S754_finite false m' e'
    /\ e <= e' <= e + 1 /\ Zpos m' * 2 ^ (e' - e) = M.
Proof.
  intros HM He.
  destruct M as [| m | m]; [cbn in HM; lia | | cbn in HM; lia].
  destruct (Z.eq_dec (Zpos m) (2 ^ 53)) as [Heq | Hne].
  - injection Heq as ->.
    rewrite shr_fexp_54 by (reflexivity || lia). cbn [shr_1 shr_record_of_loc shr_m].
    destruct (Z.leb_spec (e + 1) (PyFloat.emax - PyFloat.prec)) as [_ | Hgt];
      [| unfold PyFloat.emax, PyFloat.prec in Hgt; lia].
    eexists _, _. split; [reflexivity |]. split; [lia |].
    replace (e + 1 - e) with 1 by lia. reflexivity.
  - rewrite shr_fexp_53 by (try apply digits2_pos_unique; lia).
    cbn [shr_record_of_loc shr_m].
    destruct (Z.leb_spec e (PyFloat.emax - PyFloat.prec)) as [_ | Hgt];
      [| unfold PyFloat.emax, PyFloat.prec in Hgt; lia].
    eexists _, _. split; [reflexivity |]. split; [lia |].
    rewrite Z.sub_diag. cbn. lia.
Qed.

Lemma round_nearest_even_bounds m l :
  m <= round_nearest_even m l <= m + 1.
Proof.
  destruct l as [| []]; cbn; try lia. destruct (Z.even m); lia.
Qed.

Lemma shr_1_m q l :
  shr_m (shr_1 (shr_record_of_loc (Zpos q) l)) = Zpos q / 2.
Proof.
  destruct l as [| []]; destruct q as [q | q |]; cbn [shr_record_of_loc shr_1 shr_m orb];
    try reflexivity;
    solve [ rewrite Pos2Z.inj_xI; apply Z.div_unique with 1; lia
          | rewrite Pos2Z.inj_xO; apply Z.div_unique with 0; lia ].
Qed.

Lemma binary_round_aux_value q e l :
  2 ^ 52 <= Zpos q < 2 ^ 54 -> -1074 <= e <= 900 ->
  exists m' e',
    binary_round_aux false (Zpos q) e l = S754_finite false m' e'
    /\ e <= e' <= e + 2 /\ Zpos m' * 2 ^ (e' - e) = rounded_mantissa q l.
Proof.
  intros Hq He. unfold SpecFloat.binary_round_aux, rounded_mantissa.
  destruct (Z.ltb_spec (Zpos q) (2 ^ 53)) as [Hlt | Hge].
  - rewrite shr_fexp_53 by (try apply digits2_pos_unique; lia).
    rewrite shr_record_of_loc_m, loc_of_shr_record_of_loc.
    pose proof (round_nearest_even_bounds (Zpos q) l) as Hb.
    destruct (round_aux_finish (round_nearest_even (Zpos q) l) e)
      as (m' & e' & Hfin & He' & Hval); [lia | lia |].
    exists m', e'. split; [exact Hfin |]. split; [lia | exact Hval].
  - rewrite shr_fexp_54 by (try apply digits2_pos_unique; lia).
    pose proof (shr_1_m q l) as Hhalf.
    set (mrs := shr_1 (shr_record_of_loc (Zpos q) l)) in *.
    pose proof (round_nearest_even_bounds (shr_m mrs) (loc_of_shr_record mrs))
      as Hb.
    assert (2 ^ 52 <= Zpos q / 2 < 2 ^ 53).
    { split; [apply Z.div_le_lower_bound | apply Z.div_lt_upper_bound]; lia. }
    destruct (round_aux_finish
                (round_nearest_even (shr_m mrs) (loc_of_shr_record mrs)) (e + 1))
      as (m' & e' & Hfin & He' & Hval); [lia | lia |].
    exists m', e'. split; [exact Hfin |]. split; [lia |].
    rewrite <- Hval. replace (e' - e) with (1 + (e' - (e + 1))) by lia.
    rewrite Z.pow_add_r by lia. lia.
Qed.

Lemma ceil_div_unique q M c :
  0 < M -> M * (c - 1) < q <= M * c -> - ((- q) / M) = c.
Proof.
  intros HM Hq. rewrite <- (Z.div_unique (- q) M (- c) (M * c - q)); lia.
Qed.

(** [math.ceil] of a positive double with a negative exponent, from its
    mantissa expressed at a lower exponent. *)
Lemma ceil_finite m' e' e M :
  e <= e' < 0 -> Zpos m' * 2 ^ (e' - e) = M ->
  PyFloat.ceil (S754_finite false m' e') = Some (- ((- M) / 2 ^ (- e))).
Proof.
  intros He HM. unfold PyFloat.ceil, cond_Zopp.
  destruct (Z.leb_spec 0 e') as [? | _]; [lia |].
  f_equal. f_equal. subst M.
  replace (- e) with (- e' + (e' - e)) by lia.
  rewrite Z.pow_add_r by lia.
  rewrite <- Z.mul_opp_l.
  apply eq_sym, Z.div_mul_cancel_r.
  - apply Z.pow_nonzero; lia.
  - apply Z.pow_nonzero; lia.
Qed.

Lemma div_ten_ceil m e n :
  Zpos (digits2_pos m) = 53 -> -52 <= e <= 0 -> Zpos m = n * 2 ^ (- e) ->
  PyFloat.ceil (PyFloat.div (S754_finite false m e) PyFloat.ten)
  = Some ((n + 9) / 10).
Proof.
  intros Hd He Hm.
  unfold PyFloat.div, PyFloat.ten, SFdiv, SFdiv_core_binary.
  cbn [Zdigits2 xorb]. rewrite Hd.
  change (Zpos (digits2_pos 5629499534213120)) with 53.
  replace (53 + e - (53 + -49)) with (e + 49) by lia.
  rewrite fexp_normal by lia.
  replace (Z.min (e + 49 - 53) (e - -49)) with (e - 4) by lia.
  replace (e - -49 - (e - 4)) with 53 by lia.
  pose proof (Z_div_mod (Zpos m ≪ 53) 5629499534213120 eq_refl) as Hdiv.
  destruct (Z.div_eucl (Zpos m ≪ 53) 5629499534213120) as [Q R].
  rewrite Z.shiftl_mul_pow2 in Hdiv by lia.
  change (2 ^ 53) with 9007199254740992 in Hdiv.
  destruct Hdiv as [Heq HR].
  pose proof (digits2_pos_bounds m) as Bm. rewrite Hd in Bm.
  change (2 ^ (53 - 1)) with 4503599627370496 in Bm.
  change (2 ^ 53) with 9007199254740992 in Bm.
  set (r5 := 8 * Zpos m - 5 * Q).
  assert (HRr : R = 1125899906842624 * r5) by (subst r5; lia).
  assert (Hr5 : 0 <= r5 < 5) by lia.
  assert (HQ : 4503599627370496 <= Q < 18014398509481984) by lia.
  destruct Q as [| q | q]; [lia | | lia].
  assert (Hr5def : r5 = 8 * Zpos m - 5 * Zpos q) by reflexivity.
  clearbody r5.
  assert (Hloc : new_location 5629499534213120 R
                 = if r5 =? 0 then loc_Exact
                   else if r5 <? 3 then loc_Inexact Lt else loc_Inexact Gt).
  { assert (Hc : r5 = 0 \/ r5 = 1 \/ r5 = 2 \/ r5 = 3 \/ r5 = 4) by lia.
    rewrite HRr.
    destruct Hc as [-> | [-> | [-> | [-> | ->]]]]; vm_compute; reflexivity. }
  rewrite Hloc. clear Hloc.
  destruct (binary_round_aux_value q (e - 4)
              (if r5 =? 0 then loc_Exact
               else if r5 <? 3 then loc_Inexact Lt else loc_Inexact Gt))
    as (m' & e' & Hres & He' & Hval);
    [change (2 ^ 52) with 4503599627370496;
     change (2 ^ 54) with 18014398509481984; lia | lia |].
  rewrite Hres, (ceil_finite m' e' (e - 4) _ ltac:(lia) Hval).
  f_equal.
  replace (- (e - 4)) with (4 + - e) by lia.
  rewrite Z.pow_add_r by lia. change (2 ^ 4) with 16.
  assert (HW : 0 < 2 ^ (- e)) by (apply Z.pow_pos_nonneg; lia).
  set (W := 2 ^ (- e)) in *.
  pose proof (Z_div_mod_eq_full (n + 9) 10) as Hc.
  pose proof (Z.mod_pos_bound (n + 9) 10 ltac:(lia)) as Hcb.
  set (c := (n + 9) / 10) in *.
  assert (H1 : (10 * c - 9) * W <= n * W)
    by (apply Z.mul_le_mono_nonneg_r; lia).
  assert (H2 : n * W <= (10 * c) * W)
    by (apply Z.mul_le_mono_nonneg_r; lia).
  apply ceil_div_unique; [lia |].
  unfold rounded_mantissa. clear Hval Hres.
  change (2 ^ 53) with 9007199254740992.
  rewrite Hm in Hr5def. clearbody W c.
  clear Heq HR Hd He Bm HRr R Hc Hcb Hm He' e' m' m e.
  destruct (Z.ltb_spec (Zpos q) 9007199254740992) as [Hlt | Hge].
  - clear HQ Hlt.
    destruct (Z.eqb_spec r5 0) as [Hz | Hnz];
      [| destruct (Z.ltb_spec r5 3) as [Hlt3 | Hge3]];
      cbn [round_nearest_even]; lia.
  - clear HQ. destruct q as [q' | q' |]; [| | lia];
      destruct (Z.eqb_spec r5 0) as [Hz | Hnz];
      try destruct (Z.ltb_spec r5 3) as [Hlt3 | Hge3];
      cbn [shr_record_of_loc shr_1 shr_m loc_of_shr_record orb
           round_nearest_even];
      try change (Zpos q'~1) with (2 * Zpos q' + 1) in *;
      try change (Zpos q'~0) with (2 * Zpos q') in *;
      try destruct (Z.even (Zpos q'));
      timeout 20 lia.
Qed.





End FloatFacts.

(** Below 2^53 the code rounds the line number up to the next multiple of
    10, exactly. *)
Lemma rounded_line_exact n :
  1 <= n < 2 ^ 53 -> rounded_line n = Ok ((n + 9) / 10 * 10).
Proof.
  intros Hn. destruct n as [| p | p]; [lia | | lia].
  destruct (of_int_small p) as (m & e & Hof & Hd & He & Hm); [lia |].
  unfold rounded_line. rewrite Hof.
  rewrite (div_ten_ceil m e (Zpos p) Hd He Hm). reflexivity.
Qed.

Lemma round_up_multiple n :
  let r := (n + 9) / 10 * 10 in r mod 10 = 0 /\ n <= r < n + 10.
Proof.
  cbn zeta. pose proof (Z_div_mod_eq_full (n + 9) 10).
  pose proof (Z.mod_pos_bound (n + 9) 10 ltac:(lia)).
  split; [apply Z.mod_mul; lia | lia].
Qed.

(* ===================================================================== *)
(** * The heap: reading is monotone, a deep copy is separate             *)
(* ===================================================================== *)

Lemma all_some_impl {A B} (f f' : A -> option B) l ys :
  (forall x y, f x = Some y -> f' x = Some y) ->
  all_some f l = Some ys -> all_some f' l = Some ys.
Proof.
  intros Himpl. revert ys. induction l as [| x r IH]; intros ys H.
  - exact H.
  - cbn in *. destruct (f x) as [y |] eqn:Hx; [| discriminate].
    destruct (all_some f r) as [ys' |] eqn:Hr; [| discriminate].
    rewrite (Himpl _ _ Hx), (IH _ eq_refl). exact H.
Qed.

Lemma reify_item_impl (f f' : pyval -> option json) kv y :
  (forall x j, f x = Some j -> f' x = Some j) ->
  reify_item f kv = Some y -> reify_item f' kv = Some y.
Proof.
  intros Himpl. unfold reify_item.
  destruct (f (snd kv)) as [j |] eqn:Hx; [| discriminate].
  rewrite (Himpl _ _ Hx). trivial.
Qed.

(** Reading a value gives the same tree with more fuel and in a heap that
    keeps every object the smaller heap has. *)
Lemma reify_at_mono f : forall f' g g' d d' v j,
  (f <= f')%nat ->
  (forall n o, g !! n = Some o -> g' !! n = Some o) ->
  (forall n o, d !! n = Some o -> d' !! n = Some o) ->
  reify_at f g d v = Some j -> reify_at f' g' d' v = Some j.
Proof.
  induction f as [| f IH]; intros f' g g' d d' v j Hf Hg Hd H;
    [discriminate |].
  destruct f' as [| f']; [lia |].
  cbn in *. destruct v as [| s | z | a]; try exact H.
  assert (Hrec : forall x j0, reify_at f g d x = Some j0 ->
                              reify_at f' g' d' x = Some j0)
    by (intros; eapply IH; eauto; lia).
  destruct (match a with Glob n => g !! n | Dyn n => d !! n end)
    as [o |] eqn:Ho; [| discriminate].
  assert (Ho' : match a with Glob n => g' !! n | Dyn n => d' !! n end = Some o)
    by (destruct a; auto).
  rewrite Ho'. destruct o as [items | elts].
  - destruct (all_some (reify_item (reify_at f g d)) items) as [js |] eqn:Hjs;
      [| discriminate].
    erewrite all_some_impl; [exact H | | exact Hjs].
    intros kv y. apply reify_item_impl. exact Hrec.
  - destruct (all_some (reify_at f g d) elts) as [js |] eqn:Hjs;
      [| discriminate].
    erewrite all_some_impl; [exact H | | exact Hjs]. exact Hrec.
Qed.

Lemma reify_at_app f g d ext v j :
  reify_at f g d v = Some j -> reify_at f g (d ++ ext) v = Some j.
Proof.
  apply reify_at_mono; [lia | auto |].
  intros n o. apply lookup_app_l_Some.
Qed.

Lemma reify_at_globals f g d v j :
  reify_at f [] d v = Some j -> reify_at f g d v = Some j.
Proof.
  apply reify_at_mono; [lia | | auto].
  intros n o H. destruct n; discriminate.
Qed.

Lemma copied_app f lo ext ext' v j :
  copied f lo ext v j -> copied f lo (ext ++ ext') v j.
Proof.
  intros H D HD. rewrite app_assoc. apply reify_at_app, H, HD.
Qed.

Lemma copied_shift f lo ext0 ext v j :
  copied f (lo + List.length ext0) ext v j -> copied f lo (ext0 ++ ext) v j.
Proof.
  intros H D HD. rewrite app_assoc. apply H. rewrite length_app. lia.
Qed.

Lemma copied_fuel f f' lo ext v j :
  (f <= f')%nat -> copied f lo ext v j -> copied f' lo ext v j.
Proof.
  intros Hf H D HD.
  exact (reify_at_mono f f' [] [] _ _ v j Hf (fun _ _ h => h) (fun _ _ h => h)
           (H D HD)).
Qed.

Lemma bind_ok {A B} (c : M A) (k : A -> M B) st a st' :
  c st = (Ok a, st') -> bind c k st = k a st'.
Proof. intros H. unfold bind. rewrite H. reflexivity. Qed.

Lemma bind_raise {A B} (c : M A) (k : A -> M B) st e st' :
  c st = (Raise e, st') -> bind c k st = (Raise e, st').
Proof. intros H. unfold bind. rewrite H. reflexivity. Qed.

Lemma extend_extend st e1 e2 : extend (extend st e1) e2 = extend st (e1 ++ e2).
Proof. unfold extend. cbn. rewrite app_assoc. reflexivity. Qed.

Lemma extend_nil st : extend st [] = st.
Proof. destruct st. unfold extend. cbn. rewrite app_nil_r. reflexivity. Qed.

Section DeepCopy.

Variables (F f : nat).

(** What the recursive calls of a deep copy at fuel [S F] do, for values
    that read with fuel [f]. *)
Hypothesis copy_rec : forall v st j,
  reify_at f (globals st) (dyn st) v = Some j ->
  exists v' ext,
    Heap.deepcopy_at F v st = (Ok v', extend st ext)
    /\ copied f (List.length (dyn st)) ext v' j.

Lemma mapM_copy_list elts : forall st js,
  all_some (reify_at f (globals st) (dyn st)) elts = Some js ->
  exists elts' ext,
    mapM (Heap.deepcopy_at F) elts st = (Ok elts', extend st ext)
    /\ forall D, List.length D = List.length (dyn st) ->
         all_some (reify_at f [] (D ++ ext)) elts' = Some js.
Proof.
  induction elts as [| x r IH]; intros st js H.
  - exists [], []. rewrite extend_nil. cbn in *. injection H as <-. auto.
  - cbn in H.
    destruct (reify_at f (globals st) (dyn st) x) as [j |] eqn:Hx;
      [| discriminate].
    destruct (all_some (reify_at f (globals st) (dyn st)) r) as [js' |] eqn:Hr;
      [| discriminate].
    injection H as <-.
    destruct (copy_rec x st j Hx) as (x' & ext1 & Hrun1 & Hc1).
    destruct (IH (extend st ext1) js') as (r' & ext2 & Hrun2 & Hc2).
    { eapply all_some_impl; [| exact Hr]. cbn. intros. now apply reify_at_app. }
    exists (x' :: r'), (ext1 ++ ext2)%list. split.
    + cbn [mapM]. rewrite (bind_ok _ _ _ _ _ Hrun1), (bind_ok _ _ _ _ _ Hrun2).
      rewrite extend_extend. reflexivity.
    + intros D HD. cbn [all_some].
      rewrite (copied_app _ _ _ ext2 _ _ Hc1 D HD).
      rewrite app_assoc, Hc2; [reflexivity |].
      cbn. rewrite !length_app. lia.
Qed.

Lemma mapM_copy_items items : forall st js,
  all_some (reify_item (reify_at f (globals st) (dyn st))) items = Some js ->
  exists items' ext,
    mapM (fun kv => x <- Heap.deepcopy_at F (snd kv) ;; ret (fst kv, x))
         items st = (Ok items', extend st ext)
    /\ forall D, List.length D = List.length (dyn st) ->
         all_some (reify_item (reify_at f [] (D ++ ext))) items' = Some js.
Proof.
  induction items as [| [k x] r IH]; intros st js H.
  - exists [], []. rewrite extend_nil. cbn in *. injection H as <-. auto.
  - cbn in H. unfold reify_item at 1 in H. cbn in H.
    destruct (reify_at f (globals st) (dyn st) x) as [j |] eqn:Hx;
      [| discriminate].
    destruct (all_some (reify_item (reify_at f (globals st) (dyn st))) r)
      as [js' |] eqn:Hr; [| discriminate].
    injection H as <-.
    destruct (copy_rec x st j Hx) as (x' & ext1 & Hrun1 & Hc1).
    destruct (IH (extend st ext1) js') as (r' & ext2 & Hrun2 & Hc2).
    { eapply all_some_impl; [| exact Hr]. cbn. intros kv y.
      apply reify_item_impl. intros. now apply reify_at_app. }
    exists ((k, x') :: r'), (ext1 ++ ext2)%list. split.
    + cbn [mapM fst snd].
      rewrite (bind_ok _ _ st (k, x') (extend st ext1)).
      * rewrite (bind_ok _ _ _ _ _ Hrun2), extend_extend. reflexivity.
      * rewrite (bind_ok _ _ _ _ _ Hrun1). reflexivity.
    + intros D HD. cbn [all_some]. unfold reify_item at 1. cbn [fst snd].
      rewrite (copied_app _ _ _ ext2 _ _ Hc1 D HD).
      rewrite app_assoc, Hc2; [reflexivity |].
      cbn. rewrite !length_app. lia.
Qed.

End DeepCopy.

(** A deep copy of a value that reads as [j] succeeds, only adds objects,
    and the copy reads as [j] from the added objects alone. *)
Lemma deepcopy_at_spec f : forall F v st j,
  (f <= F)%nat ->
  reify_at f (globals st) (dyn st) v = Some j ->
  exists v' ext,
    Heap.deepcopy_at F v st = (Ok v', extend st ext)
    /\ copied f (List.length (dyn st)) ext v' j.
Proof.
  induction f as [| f IH]; intros F v st j HF H; [discriminate |].
  destruct F as [| F]; [lia |].
  assert (Hrec : forall v st j,
             reify_at f (globals st) (dyn st) v = Some j ->
             exists v' ext,
               Heap.deepcopy_at F v st = (Ok v', extend st ext)
               /\ copied f (List.length (dyn st)) ext v' j)
    by (intros; apply IH; [lia | assumption]).
  cbn [reify_at] in H. cbn [Heap.deepcopy_at].
  destruct v as [| s | z | a].
  1-3: (eexists _, []; rewrite extend_nil; split; [reflexivity |];
        intros D _; cbn; congruence).
  unfold Heap.lookup.
  destruct (match a with Glob n => globals st !! n | Dyn n => dyn st !! n end)
    as [[items | elts] |]; [| | discriminate].
  - destruct (all_some (reify_item (reify_at f (globals st) (dyn st))) items)
      as [js |] eqn:Hjs; [| discriminate].
    injection H as <-.
    destruct (mapM_copy_items F f Hrec items st js Hjs)
      as (items' & ext & Hrun & Hc).
    exists (VRef (Dyn (List.length (dyn st ++ ext)))),
           (ext ++ [ODict items'])%list.
    split.
    + rewrite (bind_ok _ _ _ _ _ Hrun). unfold Heap.alloc, extend. cbn.
      rewrite <- app_assoc. reflexivity.
    + intros D HD. cbn [reify_at].
      rewrite app_assoc, (list_lookup_middle (D ++ ext) [] (ODict items'))
        by (rewrite !length_app; lia).
      erewrite all_some_impl; [reflexivity | | exact (Hc D HD)].
      intros kv y. apply reify_item_impl. intros. now apply reify_at_app.
  - destruct (all_some (reify_at f (globals st) (dyn st)) elts)
      as [js |] eqn:Hjs; [| discriminate].
    injection H as <-.
    destruct (mapM_copy_list F f Hrec elts st js Hjs)
      as (elts' & ext & Hrun & Hc).
    exists (VRef (Dyn (List.length (dyn st ++ ext)))),
           (ext ++ [OList elts'])%list.
    split.
    + rewrite (bind_ok _ _ _ _ _ Hrun). unfold Heap.alloc, extend. cbn.
      rewrite <- app_assoc. reflexivity.
    + intros D HD. cbn [reify_at].
      rewrite app_assoc, (list_lookup_middle (D ++ ext) [] (OList elts'))
        by (rewrite !length_app; lia).
      erewrite all_some_impl; [reflexivity | | exact (Hc D HD)].
      intros. now apply reify_at_app.
Qed.

(* ===================================================================== *)
(** * The heap operations on a state [State g (d0 ++ l) lg f]

    [d0] holds the objects that existed before the record is converted,
    [l] the objects of the record; an address of the record is
    [length d0 + i]. *)
(* ===================================================================== *)

Lemma lookup_base (d0 l : list pyobj) i :
  (d0 ++ l) !! (List.length d0 + i)%nat = l !! i.
Proof.
  rewrite lookup_app_r by lia. f_equal. lia.
Qed.

Section Prims.

Variables (g d0 l : list pyobj) (lg : list log_record) (f : filesystem).

Lemma getitem_dyn i items k v :
  l !! i = Some (ODict items) -> Xml.assoc k items = Some v ->
  Heap.getitem (VRef (Dyn (List.length d0 + i))) k (State g (d0 ++ l) lg f)
  = (Ok v, State g (d0 ++ l) lg f).
Proof.
  intros Hl Hk. unfold Heap.getitem, bind, Heap.get_dict, Heap.lookup. cbn.
  rewrite lookup_base, Hl, Hk. reflexivity.
Qed.

Lemma getitem_glob n items k v :
  g !! n = Some (ODict items) -> Xml.assoc k items = Some v ->
  Heap.getitem (VRef (Glob n)) k (State g (d0 ++ l) lg f)
  = (Ok v, State g (d0 ++ l) lg f).
Proof.
  intros Hl Hk. unfold Heap.getitem, bind, Heap.get_dict, Heap.lookup. cbn.
  rewrite Hl, Hk. reflexivity.
Qed.

Lemma setitem_dyn i items k v :
  l !! i = Some (ODict items) ->
  Heap.setitem (VRef (Dyn (List.length d0 + i))) k v (State g (d0 ++ l) lg f)
  = (Ok tt, State g (d0 ++ <[i := ODict (Heap.assign k v items)]> l) lg f).
Proof.
  intros Hl. unfold Heap.setitem, bind, Heap.get_dict, Heap.lookup, Heap.put,
    Heap.store. cbn [globals dyn log fs].
  rewrite lookup_base, Hl. cbn [globals dyn log fs].
  rewrite insert_app_r. reflexivity.
Qed.

Lemma setitem_glob n items k v :
  g !! n = Some (ODict items) ->
  Heap.setitem (VRef (Glob n)) k v (State g (d0 ++ l) lg f)
  = (Ok tt, State (<[n := ODict (Heap.assign k v items)]> g) (d0 ++ l) lg f).
Proof.
  intros Hl. unfold Heap.setitem, bind, Heap.get_dict, Heap.lookup, Heap.put,
    Heap.store. cbn.
  rewrite Hl. reflexivity.
Qed.

Lemma contains_dyn i items k :
  l !! i = Some (ODict items) ->
  Heap.contains k (VRef (Dyn (List.length d0 + i))) (State g (d0 ++ l) lg f)
  = (Ok (Xml.has_key k items), State g (d0 ++ l) lg f).
Proof.
  intros Hl. unfold Heap.contains, bind, Heap.get_dict, Heap.lookup. cbn.
  rewrite lookup_base, Hl. reflexivity.
Qed.

Lemma append_dyn i elts v :
  l !! i = Some (OList elts) ->
  Heap.append (VRef (Dyn (List.length d0 + i))) v (State g (d0 ++ l) lg f)
  = (Ok tt, State g (d0 ++ <[i := OList (elts ++ [v])]> l) lg f).
Proof.
  intros Hl. unfold Heap.append, bind, Heap.get_list, Heap.lookup, Heap.put,
    Heap.store. cbn [globals dyn log fs].
  rewrite lookup_base, Hl. cbn [globals dyn log fs].
  rewrite insert_app_r. reflexivity.
Qed.

Lemma alloc_nf o :
  Heap.alloc o (State g (d0 ++ l) lg f)
  = (Ok (VRef (Dyn (List.length d0 + List.length l))),
     State g (d0 ++ (l ++ [o])) lg f).
Proof.
  unfold Heap.alloc. cbn. rewrite length_app, app_assoc. reflexivity.
Qed.

Lemma dict_copy_glob n items :
  g !! n = Some (ODict items) ->
  Heap.dict_copy (VRef (Glob n)) (State g (d0 ++ l) lg f)
  = (Ok (VRef (Dyn (List.length d0 + List.length l))),
     State g (d0 ++ (l ++ [ODict items])) lg f).
Proof.
  intros Hl. unfold Heap.dict_copy, bind, Heap.get_dict, Heap.lookup. cbn.
  rewrite Hl. apply alloc_nf.
Qed.

Lemma log_nf lv msg args :
  Heap.log_call lv msg args (State g (d0 ++ l) lg f)
  = (Ok tt, State g (d0 ++ l) (lg ++ [LogRecord lv msg args]) f).
Proof. reflexivity. Qed.

Lemma deepcopy_nf fuel v j :
  (fuel <= Heap.recursion_limit)%nat ->
  reify_at fuel g (d0 ++ l) v = Some j ->
  exists v' ext,
    Heap.deepcopy v (State g (d0 ++ l) lg f)
    = (Ok v', State g (d0 ++ (l ++ ext)) lg f)
    /\ copied fuel (List.length d0 + List.length l) ext v' j.
Proof.
  intros Hf H.
  destruct (deepcopy_at_spec fuel Heap.recursion_limit v
              (State g (d0 ++ l) lg f) j Hf H) as (v' & ext & Hrun & Hc).
  exists v', ext. split.
  - unfold Heap.deepcopy. rewrite Hrun. unfold extend. cbn.
    rewrite <- app_assoc. reflexivity.
  - cbn in Hc. rewrite length_app in Hc. exact Hc.
Qed.

End Prims.

(** *** Separate regions *)

Lemma frozen_reify f g d lo hi v j :
  frozen f d lo hi v j -> reify_at f g d v = Some j.
Proof.
  intros (ext & _ & (D & more & -> & HD) & Hc).
  apply reify_at_globals. rewrite app_assoc. apply reify_at_app, Hc, HD.
Qed.

Lemma frozen_app f d more lo hi v j :
  frozen f d lo hi v j -> frozen f (d ++ more) lo hi v j.
Proof.
  intros (ext & Hhi & (D & more0 & -> & HD) & Hc).
  exists ext. split; [exact Hhi |]. split; [| exact Hc].
  exists D, (more0 ++ more)%list. split; [| exact HD].
  rewrite <- !app_assoc. reflexivity.
Qed.

Lemma frozen_hi f d lo hi v j :
  frozen f d lo hi v j -> (hi <= List.length d)%nat.
Proof.
  intros (ext & -> & (D & more & -> & HD) & _). rewrite !length_app. lia.
Qed.

Lemma frozen_insert f d lo hi v j a o :
  (a < lo \/ hi <= a)%nat ->
  frozen f d lo hi v j -> frozen f (<[a := o]> d) lo hi v j.
Proof.
  intros Ha (ext & Hhi & (D & more & -> & HD) & Hc).
  exists ext. split; [exact Hhi |]. split; [| exact Hc].
  destruct Ha as [Ha | Ha].
  - exists (<[a := o]> D), more. split.
    + rewrite insert_app_l by lia. reflexivity.
    + rewrite length_insert. exact HD.
  - exists D, (<[(a - hi)%nat := o]> more). split; [| exact HD].
    rewrite insert_app_r_alt by lia.
    rewrite insert_app_r_alt by lia.
    do 3 f_equal. lia.
Qed.

Lemma frozen_weaken f d lo hi hi' v j :
  frozen f d lo hi v j -> (hi <= hi')%nat -> (hi' <= List.length d)%nat ->
  frozen f d lo hi' v j.
Proof.
  intros (ext & -> & (D & more & -> & HD) & Hc) Hle Hlen.
  rewrite !length_app in Hlen.
  exists (ext ++ take (hi' - (lo + List.length ext)) more)%list.
  split; [rewrite length_app, length_take; lia |]. split.
  - exists D, (drop (hi' - (lo + List.length ext)) more). split; [| exact HD].
    rewrite <- app_assoc, take_drop. reflexivity.
  - apply copied_app, Hc.
Qed.

(** The copy made by [deepcopy] in [d0 ++ l] is frozen in the new heap. *)
Lemma copied_frozen f d ext v j :
  copied f (List.length d) ext v j ->
  frozen f (d ++ ext) (List.length d) (List.length (d ++ ext)) v j.
Proof.
  intros Hc. exists ext. split; [rewrite length_app; reflexivity |].
  split; [| exact Hc]. exists d, []. rewrite app_nil_r. auto.
Qed.

Lemma frozen_after_copy f d0 L ext v j :
  copied f (List.length d0 + List.length L) ext v j ->
  frozen f (d0 ++ (L ++ ext)) (List.length d0 + List.length L)
    (List.length d0 + List.length L + List.length ext) v j.
Proof.
  intros Hc. rewrite <- length_app in *. rewrite app_assoc.
  exists ext. split; [reflexivity |]. split; [| exact Hc].
  exists (d0 ++ L), []. rewrite app_nil_r. auto.
Qed.

Lemma frozen_insert_rel f d0 L i o lo hi v j :
  (List.length d0 + i < lo \/ hi <= List.length d0 + i)%nat ->
  frozen f (d0 ++ L) lo hi v j -> frozen f (d0 ++ <[i := o]> L) lo hi v j.
Proof.
  intros Hi H. rewrite <- insert_app_r. apply frozen_insert; assumption.
Qed.

Lemma frozen_app_rel f d0 L ext lo hi v j :
  frozen f (d0 ++ L) lo hi v j -> frozen f (d0 ++ (L ++ ext)) lo hi v j.
Proof. intros H. rewrite app_assoc. apply frozen_app, H. Qed.

Lemma frozen_hi_rel f d0 L lo hi v j :
  frozen f (d0 ++ L) lo hi v j -> (hi <= List.length d0 + List.length L)%nat.
Proof. intros H. apply frozen_hi in H. rewrite length_app in H. exact H. Qed.

(* ===================================================================== *)
(** * The conversion of one record computes [pure_error]                 *)
(* ===================================================================== *)

Lemma bind_lift {A B} (r : result A) (k : A -> M B) st :
  bind (lift r) k st
  = match r with Ok a => k a st | Raise e => (Raise e, st) end.
Proof. destruct r; reflexivity. Qed.

Lemma int_lift s : int s = lift (pure_int s).
Proof. unfold int, pure_int. destruct (PyStr.int_of_str s); reflexivity. Qed.

Lemma bind_ret {A B} (a : A) (k : A -> M B) st : bind (ret a) k st = k a st.
Proof. reflexivity. Qed.

Lemma assign_fresh k v items :
  Xml.has_key k items = false -> Heap.assign k v items = items ++ [(k, v)].
Proof.
  unfold Xml.has_key. induction items as [| [k' v'] r IH]; intros H.
  - reflexivity.
  - cbn in *. destruct (String.eqb k k'); [discriminate |].
    rewrite IH by exact H. reflexivity.
Qed.

Lemma assoc_fresh {A} k (v : A) items :
  Xml.has_key k items = false -> Xml.assoc k (items ++ [(k, v)]) = Some v.
Proof.
  unfold Xml.has_key. induction items as [| [k' v'] r IH]; intros H.
  - cbn. rewrite String.eqb_refl. reflexivity.
  - cbn in *. destruct (String.eqb k k'); [discriminate |]. apply IH, H.
Qed.

Lemma has_key_fresh {A} k (v : A) items :
  Xml.has_key k items = false -> Xml.has_key k (items ++ [(k, v)]) = true.
Proof.
  intros H. unfold Xml.has_key at 1. rewrite (assoc_fresh _ _ _ H).
  reflexivity.
Qed.

Lemma lookup_snoc (l : list pyobj) x : (l ++ [x]) !! List.length l = Some x.
Proof. apply list_lookup_middle. reflexivity. Qed.

Lemma insert_snoc (l : list pyobj) x y :
  <[List.length l := y]> (l ++ [x]) = l ++ [y].
Proof.
  replace (List.length l) with (List.length l + 0)%nat by lia.
  rewrite insert_app_r. reflexivity.
Qed.

Lemma bind_assoc {A B C} (c : M A) (k1 : A -> M B) (k2 : B -> M C) st :
  bind (bind c k1) k2 st = bind c (fun x => bind (k1 x) k2) st.
Proof. unfold bind. destruct (c st) as [[a | e] st']; reflexivity. Qed.

Lemma reify_loc_other e0 l0 d k path line column :
  d !! k = Some (ODict [("path", VStr path); ("positions", VRef (Glob 2))]) ->
  reify_at 4
    [e0; l0; Template.positions;
     ODict [("line", VInt line); ("column", VInt column)]] d (VRef (Dyn k))
  = Some (location_json (Location path line column)).
Proof. intros H. cbn [reify_at]. rewrite H. reflexivity. Qed.

Ltac lens :=
  repeat (rewrite length_app || rewrite length_insert);
  cbn [List.length]; lia.

(** Solves [h !! i = Some o] for a heap built by appending and updating. *)
Ltac lk :=
  lazymatch goal with
  | |- (<[?i := _]> _) !! ?i = Some _ => apply list_lookup_insert_eq; lens
  | |- (<[_ := _]> _) !! _ = Some _ =>
      rewrite list_lookup_insert_ne by lens; lk
  | |- (_ ++ [_]) !! _ = Some _ =>
      first [apply lookup_snoc | apply lookup_app_l_Some; lk]
  | |- (_ ++ _) !! _ = Some _ => apply lookup_app_l_Some; lk
  | |- _ => eassumption
  end.

(** Executes the first operation of the code with the lemma [lem]. *)
Ltac exec lem :=
  erewrite bind_ok
    by (eapply lem;
        first [reflexivity | lk | apply assoc_fresh; assumption]);
  cbn beta.

Ltac exec_lift :=
  rewrite bind_lift;
  match goal with
  | |- context [match ?r with Ok _ => _ | Raise _ => _ end] =>
      destruct r; cbn [rbind]; [| reflexivity]
  end.

Section OtherLocation.

Variables (d0 : list pyobj) (lg : list log_record) (f : filesystem).
Variables (base : list (string * pyval)) (c : pyobj) (p0 : string).
Hypothesis base_fresh : Xml.has_key "other_locations" base = false.

Lemma other_location_spec l l0 c0 done loc :
  others_inv d0 l base done ->
  l !! 1%nat = Some c ->
  let r := other_location (VRef (Dyn (List.length d0 + 0))) loc
             (State (template p0 l0 c0) (d0 ++ l) lg f) in
  match pure_other loc with
  | Raise e => fst r = Raise e
  | Ok x => other_post d0 base done c p0 lg f [x] r
  end.
Proof.
  intros Hinv Hc r. subst r. unfold other_location, pure_other.
  exec getitem_glob. exec dict_copy_glob.
  exec_lift.
  exec setitem_dyn. rewrite insert_snoc. simpl (Heap.assign _ _ _).
  exec_lift. rewrite int_lift. exec_lift.
  exec getitem_dyn. exec getitem_glob. exec setitem_glob.
  simpl (<[_ := _]> (template _ _ _)).
  exec_lift. rewrite int_lift. exec_lift.
  exec getitem_dyn. exec getitem_glob. exec setitem_glob.
  simpl (<[_ := _]> _).
  pose proof (lookup_lt_Some _ _ _ Hc) as Hlen.
  set (LO := ODict [("path", VStr a); ("positions", VRef (Glob 2))]).
  destruct done as [| x0 done'].
  - (* the first secondary location: the list is created *)
    cbn [others_inv] in Hinv.
    exec contains_dyn. rewrite base_fresh. cbn [negb].
    rewrite bind_assoc. exec alloc_nf.
    exec setitem_dyn. rewrite assign_fresh by assumption.
    exec getitem_dyn.
    match goal with
    | |- context [State ?g (d0 ++ ?L) lg f] =>
        destruct (deepcopy_nf g d0 L lg f 4 (VRef (Dyn (List.length d0 + List.length l)))
                    (location_json (Location a a1 a3)))
          as (v' & ext & Hrun & Hcp);
        [ unfold Heap.recursion_limit; lia
        | apply reify_loc_other; rewrite lookup_base; lk
        | ]
    end.
    rewrite (bind_ok _ _ _ _ _ Hrun). erewrite append_dyn by lk.
    split; [reflexivity |]. cbn [snd].
    eexists _, _, _. split; [reflexivity |]. split; [| lk].
    cbn [app others_inv].
    exists (List.length (l ++ [LO])), [v'].
    split; [lens |]. split; [lk |]. split.
    { lk. }
    constructor; [| constructor].
    eexists _, _. split; [| apply frozen_insert_rel;
                           [| apply frozen_after_copy, Hcp]].
    + lens.
    + left. lens.
  - (* a later one: the list exists *)
    cbn [others_inv] in Hinv.
    destruct Hinv as (o & refs & Ho & H0 & Hol & Hrefs).
    pose proof (lookup_lt_Some _ _ _ Hol) as Holen.
    exec contains_dyn. rewrite has_key_fresh by assumption. cbn [negb].
    rewrite bind_ret. exec getitem_dyn.
    match goal with
    | |- context [State ?g (d0 ++ ?L) lg f] =>
        destruct (deepcopy_nf g d0 L lg f 4 (VRef (Dyn (List.length d0 + List.length l)))
                    (location_json (Location a a1 a3)))
          as (v' & ext & Hrun & Hcp);
        [ unfold Heap.recursion_limit; lia
        | apply reify_loc_other; rewrite lookup_base; lk
        | ]
    end.
    rewrite (bind_ok _ _ _ _ _ Hrun). erewrite append_dyn by lk.
    split; [reflexivity |]. cbn [snd].
    eexists _, _, _. split; [reflexivity |]. split.
    2: lk.
    change ((x0 :: done') ++ [Location a a1 a3])
      with (x0 :: (done' ++ [Location a a1 a3])).
    cbn [others_inv].
    exists o, (refs ++ [v']).
    split; [exact Ho |]. split; [lk |]. split; [lk |].
    change (x0 :: (done' ++ [Location a a1 a3]))
      with ((x0 :: done') ++ [Location a a1 a3]).
    apply Forall2_app.
    + eapply Forall2_impl; [exact Hrefs |].
      intros r x (lo & hi & Hlo & Hfr). exists lo, hi. split; [exact Hlo |].
      apply frozen_insert_rel; [left; exact Hlo |].
      apply frozen_app_rel, frozen_app_rel, Hfr.
    + constructor; [| constructor].
      eexists _, _. split; [| apply frozen_insert_rel;
                             [| apply frozen_after_copy, Hcp]].
      * lens.
      * left. lens.
Qed.

Lemma other_locations_spec locs : forall l l0 c0 done,
  others_inv d0 l base done ->
  l !! 1%nat = Some c ->
  let r := forM_ locs (other_location (VRef (Dyn (List.length d0 + 0))))
             (State (template p0 l0 c0) (d0 ++ l) lg f) in
  match pure_others locs with
  | Raise e => fst r = Raise e
  | Ok xs => other_post d0 base done c p0 lg f xs r
  end.
Proof.
  induction locs as [| loc rest IH]; intros l l0 c0 done Hinv Hc r; subst r.
  - cbn [pure_others forM_]. split; [reflexivity |].
    exists l, l0, c0. rewrite app_nil_r. auto.
  - cbn [pure_others forM_].
    pose proof (other_location_spec l l0 c0 done loc Hinv Hc) as H1.
    cbv zeta in H1.
    destruct (other_location _ loc _) as [r1 st1] eqn:E1.
    destruct (pure_other loc) as [x | e]; cbn [rbind].
    + destruct H1 as (Hr & l' & l1 & c1 & Hst & Hinv' & Hc').
      cbn [fst snd] in Hr, Hst. subst r1 st1.
      rewrite (bind_ok _ _ _ _ _ E1).
      specialize (IH l' l1 c1 (done ++ [x]) Hinv' Hc'). cbv zeta in IH.
      destruct (pure_others rest) as [xs | e]; cbn [rbind]; [| exact IH].
      unfold other_post in *. rewrite <- app_assoc in IH. exact IH.
    + cbn [fst] in H1. subst r1. rewrite (bind_raise _ _ _ _ _ E1).
      reflexivity.
Qed.

Lemma primary_location_spec l l0 c0 location :
  l !! 0%nat = Some (ODict base) ->
  l !! 1%nat = Some c ->
  let r := primary_location (VRef (Dyn (List.length d0 + 0))) location
             (State (template p0 l0 c0) (d0 ++ l) lg f) in
  match pure_primary location with
  | Raise e => fst r = Raise e
  | Ok pl => primary_post d0 base c p0 lg f pl r
  end.
Proof.
  intros H0 Hc r. subst r.
  assert (Hsingle :
    forall x, (forall locs, x <> XList locs) ->
      let r := primary_location (VRef (Dyn (List.length d0 + 0))) x
                 (State (template p0 l0 c0) (d0 ++ l) lg f) in
      match pure_primary x with
      | Raise e => fst r = Raise e
      | Ok pl => primary_post d0 base c p0 lg f pl r
      end).
  { intros x Hx r. subst r.
    assert (E1 : primary_location (VRef (Dyn (List.length d0 + 0))) x
                 = (path <- lift (Xml.attr x "@file") ;;
                    line_s <- lift (Xml.attr x "@line") ;;
                    line <- int line_s ;;
                    has_column <- lift (Xml.contains "@column" x) ;;
                    column <- (if has_column
                               then column_s <- lift (Xml.attr x "@column") ;;
                                    int column_s
                               else ret 0) ;;
                    ret (path, line, column))).
    { destruct x; try reflexivity. destruct (Hx l1). reflexivity. }
    assert (E2 : pure_primary x
                 = (path <-- Xml.attr x "@file" ;;
                    line_s <-- Xml.attr x "@line" ;;
                    line <-- pure_int line_s ;;
                    has_column <-- Xml.contains "@column" x ;;
                    column <-- (if has_column
                                then column_s <-- Xml.attr x "@column" ;;
                                     pure_int column_s
                                else Ok 0) ;;
                    Ok (Location path line column, []))).
    { destruct x; try reflexivity. destruct (Hx l1). reflexivity. }
    rewrite E1, E2. clear E1 E2.
    exec_lift. exec_lift. rewrite int_lift. exec_lift. exec_lift.
    destruct a2.
    - rewrite bind_assoc. exec_lift. rewrite int_lift. exec_lift.
      split; [reflexivity |]. exists l, l0, c0. cbn. auto.
    - split; [reflexivity |]. exists l, l0, c0. cbn. auto. }
  destruct location as [| t | locs | attrs elems];
    try (apply Hsingle; intros locs'; discriminate).
  unfold primary_location, pure_primary.
  exec_lift. exec_lift. exec_lift. exec_lift. rewrite int_lift. exec_lift.
  exec_lift. rewrite int_lift. exec_lift.
  pose proof (other_locations_spec (tl locs) l l0 c0 [] H0 Hc) as H1.
  cbv zeta in H1.
  destruct (forM_ (tl locs) _ _) as [r1 st1] eqn:E1.
  destruct (pure_others (tl locs)) as [xs | e]; cbn [rbind].
  - destruct H1 as (Hr & l' & l1 & c1 & Hst & Hinv' & Hc').
    cbn [fst snd] in Hr, Hst. subst r1 st1.
    rewrite (bind_ok _ _ _ _ _ E1).
    split; [reflexivity |]. exists l', l1, c1. cbn. auto.
  - cbn [fst] in H1. subst r1. rewrite (bind_raise _ _ _ _ _ E1).
    reflexivity.
Qed.

End OtherLocation.
(* ===================================================================== *)
(** * The conversion of a record and of a list of records                *)
(* ===================================================================== *)

Lemma all_some_Forall2 {A B} (h : A -> option B) l ys :
  Forall2 (fun a b => h a = Some b) l ys -> all_some h l = Some ys.
Proof.
  induction 1 as [| a b l ys Ha _ IH]; cbn [all_some].
  - reflexivity.
  - rewrite Ha, IH. reflexivity.
Qed.

Lemma all_some_strings n g d xs :
  all_some (reify_at (S n) g d) (map VStr xs) = Some (map JStr xs).
Proof.
  induction xs as [| x xs IH]; cbn [all_some map].
  - reflexivity.
  - rewrite IH. reflexivity.
Qed.

Lemma all_some_app {A B} (h : A -> option B) l1 l2 ys1 ys2 :
  all_some h l1 = Some ys1 -> all_some h l2 = Some ys2 ->
  all_some h (l1 ++ l2) = Some (ys1 ++ ys2).
Proof.
  revert ys1. induction l1 as [| a l1 IH]; intros ys1 H1 H2; cbn in *.
  - injection H1 as <-. exact H2.
  - destruct (h a); [| discriminate].
    destruct (all_some h l1) as [ys |]; [| discriminate].
    injection H1 as <-. rewrite (IH ys eq_refl H2). reflexivity.
Qed.

Lemma all_some_map_Forall2 {A B C} (h : A -> option B) (k : C -> B) l xs :
  Forall2 (fun a x => h a = Some (k x)) l xs ->
  all_some h l = Some (map k xs).
Proof.
  induction 1 as [| a x l xs Ha _ IH]; cbn [all_some map].
  - reflexivity.
  - rewrite Ha, IH. reflexivity.
Qed.

Section Reify.

Variables (n : nat) (g d0 L : list pyobj).

Lemma reify_str s : reify_at (S n) g (d0 ++ L) (VStr s) = Some (JStr s).
Proof. reflexivity. Qed.

Lemma reify_int z : reify_at (S n) g (d0 ++ L) (VInt z) = Some (JInt z).
Proof. reflexivity. Qed.

Lemma reify_dyn_dict k items js :
  L !! k = Some (ODict items) ->
  all_some (reify_item (reify_at n g (d0 ++ L))) items = Some js ->
  reify_at (S n) g (d0 ++ L) (VRef (Dyn (List.length d0 + k)))
  = Some (JDict js).
Proof.
  intros Hk Hjs. cbn [reify_at]. rewrite lookup_base, Hk, Hjs. reflexivity.
Qed.

Lemma reify_dyn_list k elts js :
  L !! k = Some (OList elts) ->
  all_some (reify_at n g (d0 ++ L)) elts = Some js ->
  reify_at (S n) g (d0 ++ L) (VRef (Dyn (List.length d0 + k)))
  = Some (JList js).
Proof.
  intros Hk Hjs. cbn [reify_at]. rewrite lookup_base, Hk, Hjs. reflexivity.
Qed.

Lemma reify_glob_dict k items js :
  g !! k = Some (ODict items) ->
  all_some (reify_item (reify_at n g (d0 ++ L))) items = Some js ->
  reify_at (S n) g (d0 ++ L) (VRef (Glob k)) = Some (JDict js).
Proof.
  intros Hk Hjs. cbn [reify_at]. rewrite Hk, Hjs. reflexivity.
Qed.

Lemma reify_item_ok k v j :
  reify_at n g (d0 ++ L) v = Some j ->
  reify_item (reify_at n g (d0 ++ L)) (k, v) = Some (k, j).
Proof. intros H. unfold reify_item. cbn [fst snd]. rewrite H. reflexivity. Qed.

Lemma all_some_cons {A B} (h : A -> option B) a l b bs :
  h a = Some b -> all_some h l = Some bs -> all_some h (a :: l) = Some (b :: bs).
Proof. intros Ha Hl. cbn [all_some]. rewrite Ha, Hl. reflexivity. Qed.

End Reify.

Lemma reify_template_location n d p line column :
  reify_at (S (S (S (S n)))) (template p line column) d (VRef (Glob 1))
  = Some (location_json (Location p line column)).
Proof. reflexivity. Qed.

(** The dictionary of a record reads as its issue when the objects it
    refers to hold the parts of the issue. *)
Lemma reify_record n d0 L (i : issue) others content :
  L !! 0%nat
  = Some (ODict ([ ("type", VStr "issue");
                   ("check_name", VStr (i_check_name i));
                   ("description", VStr (i_description i));
                   ("categories", VRef (Dyn (List.length d0 + 1)));
                   ("fingerprint", VStr (i_fingerprint i));
                   ("location", VRef (Glob 1)) ] ++ others ++ content)) ->
  L !! 1%nat = Some (OList (map VStr (i_categories i))) ->
  match i_other_locations i with
  | [] => others = []
  | xs =>
      exists o refs,
        others = [("other_locations", VRef (Dyn (List.length d0 + o)))]
        /\ L !! o = Some (OList refs)
        /\ Forall2
             (fun r x =>
                reify_at (S (S (S (S n))))
                  (template (loc_path (i_location i)) (loc_line (i_location i))
                            (loc_column (i_location i)))
                  (d0 ++ L) r = Some (location_json x))
             refs xs
  end ->
  match i_content i with
  | None => content = []
  | Some data =>
      exists k,
        content = [("content", VRef (Dyn (List.length d0 + k)))]
        /\ L !! k = Some (ODict [("data", VStr data)])
  end ->
  reify_at (S (S (S (S (S (S n))))))
    (template (loc_path (i_location i)) (loc_line (i_location i))
              (loc_column (i_location i)))
    (d0 ++ L) (VRef (Dyn (List.length d0 + 0)))
  = Some (issue_json i).
Proof.
  intros H0 H1 Hothers Hcontent.
  eapply reify_dyn_dict; [exact H0 |].
  unfold issue_json.
  change (?a :: ?b :: ?c :: ?d :: ?e :: ?f :: ?r)%list
    with ([a; b; c; d; e; f] ++ r)%list.
  apply all_some_app; [| apply all_some_app].
  - repeat (apply all_some_cons; [apply reify_item_ok |]);
      try reflexivity.
    eapply reify_dyn_list; [exact H1 |]. apply all_some_strings.
  - destruct (i_other_locations i) as [| x xs].
    + subst others. reflexivity.
    + destruct Hothers as (o & refs & -> & Ho & Hrefs).
      apply all_some_cons; [apply reify_item_ok | reflexivity].
      eapply reify_dyn_list; [exact Ho |].
      apply all_some_map_Forall2. exact Hrefs.
  - destruct (i_content i) as [data |].
    + destruct Hcontent as (k & -> & Hk).
      apply all_some_cons; [apply reify_item_ok | reflexivity].
      eapply reify_dyn_dict; [exact Hk | reflexivity].
    + subst content. reflexivity.
Qed.

Lemma getline_nf g d lg f path line :
  getline path line (State g d lg f)
  = (Ok (linecache_getline f path line), State g d lg f).
Proof. reflexivity. Qed.

Ltac step lem := rewrite ?bind_assoc; exec lem.

(** The last step of a record: the copy of [tmp_dict], which holds the
    entries [others] and [content] after the six of the template. *)
Ltac copy_record others content :=
  match goal with
  | |- error_post ?d0 _ ?f _ _ ?i (_ (State ?g (?d0 ++ ?LL) ?LG ?f)) =>
      destruct (deepcopy_nf g d0 LL LG f 6 (VRef (Dyn (List.length d0 + 0)))
                  (issue_json i)) as (v' & ext & Hrun & Hcp);
      [ unfold Heap.recursion_limit; lia
      | apply (reify_record 0 d0 LL i others content)
      | rewrite (bind_ok _ _ _ _ _ Hrun); rewrite <- (app_assoc _ [_] [_]);
        eexists v', _, _, _, _;
        split; [reflexivity | split; [reflexivity |]];
        apply frozen_after_copy, Hcp ]
  end.

(** From the primary location to the copy: the nested template
    dictionaries are filled in, then the content and the fingerprint. *)
Ltac record_tail d0 l' others :=
  exec getitem_dyn; exec setitem_glob; simpl (<[_ := _]> (_ :: _));
  exec getitem_dyn; exec getitem_glob; exec getitem_glob;
  exec setitem_glob; simpl (<[_ := _]> (_ :: _));
  exec getitem_dyn; exec getitem_glob; exec getitem_glob;
  exec setitem_glob; simpl (<[_ := _]> (_ :: _));
  exec_lift;
  match goal with |- context [if ?b then _ else _] => destruct b end;
  [ step alloc_nf; step setitem_dyn; simpl (Heap.assign _ _ _);
    rewrite ?bind_assoc; exec_lift;
    step getitem_dyn; cbn [as_str]; rewrite bind_assoc, bind_ret;
    step setitem_dyn; simpl (Heap.assign _ _ _);
    step getitem_dyn; step getitem_dyn;
    cbn [as_str]; rewrite bind_assoc, bind_ret;
    erewrite bind_ok by (eapply setitem_dyn; lk);
    simpl (Heap.assign _ _ _); cbn beta
  | rewrite bind_ret ];
  (erewrite bind_ok by apply getline_nf); cbn beta;
  exec_lift; exec log_nf;
  exec setitem_dyn; simpl (Heap.assign _ _ _);
  [ copy_record others
      [("content", VRef (Dyn (List.length d0 + List.length l')))];
    [ | | | exists (List.length l'); split; [reflexivity |] ]
  | copy_record others (@nil (string * pyval)) ].

Lemma convert_error_nf error d0 lg f p0 l0 c0 dict_out :
  let r := convert_error error dict_out
             (State (template p0 l0 c0) (d0 ++ []) lg f) in
  match pure_error f error with
  | Raise e => fst r = Raise e
  | Ok None =>
      r = (Ok dict_out,
           State (template p0 l0 c0) (d0 ++ [])
                 (lg ++ [LogRecord DEBUG "Processing -- %s" [ARepr error]]) f)
  | Ok (Some i) => error_post d0 lg f error dict_out i r
  end.
Proof.
  intros r. subst r. unfold convert_error, pure_error, str.
  destruct (Nat.leb _ _); [| reflexivity].
  rewrite bind_lift. cbn [rbind].
  exec log_nf. exec_lift.
  destruct a; cbn [negb]; [| reflexivity].
  exec dict_copy_glob. cbn [app List.length].
  exec_lift. exec setitem_dyn. simpl (<[_ := _]> _).
  exec_lift. exec setitem_dyn. simpl (<[_ := _]> _).
  exec_lift. exec_lift.
  exec alloc_nf. cbn [app List.length].
  exec append_dyn. simpl (<[_ := _]> _).
  exec setitem_dyn. simpl (<[_ := _]> _).
  exec_lift.
  match goal with
  | |- context [State _ (d0 ++ [ODict ?base; ?c]) ?lg' f] =>
      pose proof (primary_location_spec d0 lg' f base c p0 eq_refl
                    [ODict base; c] l0 c0 a3 eq_refl eq_refl) as H1
  end.
  cbv zeta in H1.
  destruct (primary_location _ a3 _) as [r1 st1] eqn:E1.
  destruct (pure_primary a3) as [[loc others] | e]; cbn [rbind];
    [| cbn [fst] in H1; subst r1; rewrite (bind_raise _ _ _ _ _ E1);
       reflexivity].
  destruct H1 as (Hr & l' & l1 & c1 & Hst & Hinv & Hc).
  cbn [fst snd] in Hr, Hst, Hinv. subst r1 st1.
  rewrite (bind_ok _ _ _ _ _ E1). cbn beta iota. clear E1.
  cbn [fst snd]. unfold template.
  pose proof (lookup_lt_Some _ _ _ Hc) as Hlen.
  change [VStr a1] with (map VStr [a1]) in Hc. rewrite <- map_app in Hc.
  destruct others as [| x xs].
  - cbn [others_inv] in Hinv.
    record_tail d0 l' (@nil (string * pyval)); try lk; reflexivity.
  - cbn [others_inv] in Hinv.
    destruct Hinv as (o & refs & Ho & H0 & Hol & Hrefs).
    pose proof (lookup_lt_Some _ _ _ Hol) as Holen.
    record_tail d0 l' [("other_locations", VRef (Dyn (List.length d0 + o)))];
      try lk; try reflexivity.
    all: exists o, refs.
    all: split; [reflexivity |]. 
    all: split; [lk |].
    all: eapply Forall2_impl; [exact Hrefs |].
    all: intros r y (lo & hi & Hlo & Hfr).
    all: pose proof (frozen_hi_rel _ _ _ _ _ _ _ Hfr) as Hhi.
    all: apply frozen_reify with (lo := lo) (hi := hi).
    all: repeat (apply frozen_insert_rel; [lia |]).
    all: try apply frozen_app_rel.
    all: exact Hfr.
Qed.

Lemma convert_errors_spec f errors : forall d0 lg last dict_out,
  let r := convert_errors errors dict_out
             (State (template (loc_path last) (loc_line last)
                              (loc_column last)) d0 lg f) in
  match pure_errors f errors with
  | Raise e => fst r = Raise e
  | Ok issues => errors_post d0 lg f last dict_out issues r
  end.
Proof.
  induction errors as [| error rest IH]; intros d0 lg last dict_out r; subst r.
  - cbn [pure_errors convert_errors last_location].
    exists [], [], []. rewrite !app_nil_r. repeat split; constructor.
  - cbn [pure_errors convert_errors].
    pose proof (convert_error_nf error d0 lg f (loc_path last) (loc_line last)
                  (loc_column last) dict_out) as H1.
    cbv zeta in H1. rewrite app_nil_r in H1.
    destruct (convert_error error dict_out _) as [r1 st1] eqn:E1.
    destruct (pure_error f error) as [[i |] | e]; cbn [rbind].
    + destruct H1 as (v & ext & s & lo & hi & Heq & _ & Hfr).
      injection Heq as -> ->. rewrite (bind_ok _ _ _ _ _ E1).
      specialize (IH (d0 ++ ext) (lg ++ record_log error s) (i_location i)
                    (dict_out ++ [v])).
      cbv zeta in IH.
      destruct (pure_errors f rest) as [issues | e]; cbn [rbind];
        [| exact IH].
      destruct IH as (vs & ext' & lg' & Heq & Hlg & Hvs).
      exists (v :: vs), (ext ++ ext'), (record_log error s ++ lg').
      rewrite <- !app_assoc in Heq. cbn [last_location].
      split; [exact Heq |]. split.
      * apply Forall_app. split; [| exact Hlg].
        repeat constructor.
      * rewrite (app_assoc d0). constructor; [| exact Hvs].
        exists lo, hi. apply frozen_app, Hfr.
    + injection H1 as -> ->. rewrite (bind_ok _ _ _ _ _ E1).
      specialize (IH d0 (lg ++ [LogRecord DEBUG "Processing -- %s"
                                  [ARepr error]]) last dict_out).
      cbv zeta in IH.
      destruct (pure_errors f rest) as [issues | e]; cbn [rbind];
        [| exact IH].
      destruct IH as (vs & ext' & lg' & Heq & Hlg & Hvs).
      exists vs, ext', (LogRecord DEBUG "Processing -- %s" [ARepr error] :: lg').
      rewrite <- !app_assoc in Heq.
      split; [exact Heq |]. split; [| exact Hvs].
      constructor; [reflexivity | exact Hlg].
    + cbn [fst] in H1. subst r1. rewrite (bind_raise _ _ _ _ _ E1).
      reflexivity.
Qed.
(* ===================================================================== *)
(** * The properties of the conversion                                   *)
(* ===================================================================== *)

Lemma reify_frozen st lo hi v j :
  frozen 6 (dyn st) lo hi v j -> reify st v = Some j.
Proof.
  intros H. unfold reify.
  apply (reify_at_mono 6 Heap.recursion_limit (globals st) (globals st)
           (dyn st) (dyn st)); auto.
  - unfold Heap.recursion_limit. lia.
  - eapply frozen_reify, H.
Qed.

Lemma reify_frozen_state g d lg f lo hi v j :
  frozen 6 d lo hi v j -> reify (State g d lg f) v = Some j.
Proof. apply (reify_frozen (State g d lg f)). Qed.

(** The three ways in which the conversion of a record ends. *)
Lemma convert_error_cases error dict_out st :
  template_ok st ->
  let r := convert_error error dict_out st in
  match pure_error (fs st) error with
  | Raise e => fst r = Raise e
  | Ok None =>
      r = (Ok dict_out,
           State (globals st) (dyn st)
                 (log st ++ [LogRecord DEBUG "Processing -- %s" [ARepr error]])
                 (fs st))
  | Ok (Some i) => error_post (dyn st) (log st) (fs st) error dict_out i r
  end.
Proof.
  intros (p & l & c & Hg). destruct st as [g d lg f]. cbn [globals dyn log fs] in *. subst g.
  pose proof (convert_error_nf error d lg f p l c dict_out) as H.
  cbv zeta in H. rewrite app_nil_r in H. exact H.
Qed.



Lemma template_ok_initial f : template_ok (initial_state f).
Proof. exists EmptyString, (-1), (-1). reflexivity. Qed.

Lemma converted_alone_spec f error :
  converted_alone f error
  = match pure_error f error with
    | Ok (Some i) => [issue_json i]
    | _ => []
    end.
Proof.
  unfold converted_alone.
  pose proof (convert_error_cases error [] (initial_state f)
                (template_ok_initial f)) as H.
  cbv zeta in H. change (fs (initial_state f)) with f in H.
  destruct (convert_error error [] (initial_state f)) as [r st].
  destruct (pure_error f error) as [[i |] | e].
  - destruct H as (v & ext & s & lo & hi & Heq & _ & Hfr).
    injection Heq as -> ->. cbn [app all_some].
    rewrite (reify_frozen (State _ _ _ _) lo hi v (issue_json i) Hfr).
    reflexivity.
  - injection H as -> ->. reflexivity.
  - cbn [fst] in H. subst r. reflexivity.
Qed.

Lemma flat_map_alone f errors : forall issues,
  pure_errors f errors = Ok issues ->
  flat_map (converted_alone f) errors = map issue_json issues.
Proof.
  induction errors as [| error rest IH]; intros issues H;
    cbn [pure_errors flat_map] in *.
  - injection H as <-. reflexivity.
  - rewrite converted_alone_spec.
    destruct (pure_error f error) as [i | e]; cbn [rbind] in H;
      [| discriminate].
    destruct (pure_errors f rest) as [issues' | e]; cbn [rbind] in H;
      [| discriminate].
    injection H as <-. rewrite (IH issues' eq_refl).
    destruct i; reflexivity.
Qed.

(** The two ways in which the conversion of a list of records ends. *)
Lemma convert_errors_cases errors dict_out st :
  template_ok st ->
  exists last,
    globals st = template (loc_path last) (loc_line last) (loc_column last)
    /\ let r := convert_errors errors dict_out st in
       match pure_errors (fs st) errors with
       | Raise e => fst r = Raise e
       | Ok issues =>
           errors_post (dyn st) (log st) (fs st) last dict_out issues r
       end.
Proof.
  intros (p & l & c & Hg). exists (Location p l c). split; [exact Hg |].
  destruct st as [g d lg f]. cbn [globals dyn log fs] in *. subst g.
  apply (convert_errors_spec f errors d lg (Location p l c) dict_out).
Qed.

Lemma frozen_all_some st vs issues :
  Forall2
    (fun v i => exists lo hi, frozen 6 (dyn st) lo hi v (issue_json i))
    vs issues ->
  all_some (reify st) vs = Some (map issue_json issues).
Proof.
  intros H. apply all_some_map_Forall2.
  eapply Forall2_impl; [exact H |].
  intros v i (lo & hi & Hfr). eapply reify_frozen, Hfr.
Qed.

Lemma frozen_same g1 d1 lg1 f1 g2 d2 lg2 f2 vs : forall issues,
  Forall2
    (fun v i => exists lo hi, frozen 6 d1 lo hi v (issue_json i)) vs issues ->
  Forall2
    (fun v i => exists lo hi, frozen 6 d2 lo hi v (issue_json i)) vs issues ->
  Forall
    (fun v =>
       reify (State g2 d2 lg2 f2) v = reify (State g1 d1 lg1 f1) v
       /\ reify (State g1 d1 lg1 f1) v <> None)
    vs.
Proof.
  induction vs as [| v vs IH]; intros issues H1 H2.
  - constructor.
  - inversion H1 as [| ? i ? issues' (lo1 & hi1 & Hfr1) Hrest1]; subst.
    inversion H2 as [| ? ? ? ? (lo2 & hi2 & Hfr2) Hrest2]; subst.
    pose proof (reify_frozen_state g1 d1 lg1 f1 _ _ _ _ Hfr1) as E1.
    pose proof (reify_frozen_state g2 d2 lg2 f2 _ _ _ _ Hfr2) as E2.
    constructor; [split; congruence |].
    exact (IH issues' Hrest1 Hrest2).
Qed.

(** Splits the first step of a computation that succeeded. *)
Ltac rb H :=
  match type of H with
  | rbind ?r _ = Ok _ =>
      let E := fresh "E" in
      destruct r eqn:E; cbn [rbind] in H; [| discriminate H]
  end.

(** The parts of the issue of a record. *)
Lemma pure_error_fields f error i :
  pure_error f error = Ok (Some i) ->
  exists rule msg severity category location loc others cwe rounded,
    Xml.attr error "@id" = Ok rule
    /\ Xml.attr error "@msg" = Ok msg
    /\ Xml.attr error "@severity" = Ok severity
    /\ __get_codeclimate_category severity = Ok category
    /\ Xml.item error "location" = Ok location
    /\ pure_primary location = Ok (loc, others)
    /\ match cwe with
       | Some c => Xml.contains "@cwe" error = Ok true
                   /\ Xml.attr error "@cwe" = Ok c
       | None => Xml.contains "@cwe" error = Ok false
       end
    /\ rounded_line (loc_line loc) = Ok rounded
    /\ i = Issue rule
             (match cwe with Some c => cwe_tag c ++ msg | None => msg end)
             (split_nl category ++ [severity])%list
             loc others
             (option_map cwe_reference cwe)
             (MD5.hexdigest
                (fingerprint_string (loc_path loc) rounded rule
                   (PyStr.strip
                      (linecache_getline f (loc_path loc) (loc_line loc))))).
Proof.
  unfold pure_error. intros H.
  destruct (str error) as [printed |]; cbn [rbind] in H; [| discriminate H].
  rb H. destruct a; cbn [negb] in H; [| discriminate H].
  rb H. rb H. rb H. rb H. rb H. rb H. rb H.
  destruct a4 as [loc others]. cbn [fst snd] in H.
  destruct a5.
  - destruct (Xml.attr error "@cwe") as [c |] eqn:Ecwe; cbn [rbind] in H;
      [| discriminate H].
    rb H. injection H as <-.
    exists a, a0, a1, a2, a3, loc, others, (Some c), a4. auto 10.
  - cbn [rbind] in H. rb H. injection H as <-.
    exists a, a0, a1, a2, a3, loc, others, None, a4. auto 10.
Qed.

Lemma hex_char_lower d :
  0 <= d < 16 -> is_lower_hex (MD5.hex_char d) = true.
Proof.
  intros Hd.
  assert (H : In d [0; 1; 2; 3; 4; 5; 6; 7; 8; 9; 10; 11; 12; 13; 14; 15])
    by (cbn [In]; lia).
  cbn [In] in H.
  repeat (destruct H as [<- | H]; [reflexivity |]). contradiction.
Qed.

Lemma hex_lower bs :
  Forall (fun b => 0 <= b < 256) bs ->
  all_chars is_lower_hex (MD5.hex bs) = true.
Proof.
  induction 1 as [| b bs Hb _ IH]; cbn [MD5.hex all_chars].
  - reflexivity.
  - rewrite !hex_char_lower, IH; [reflexivity | |].
    + apply Z.mod_pos_bound. lia.
    + split; [apply Z.div_pos; lia | apply Z.div_lt_upper_bound; lia].
Qed.

Lemma le_bytes_bound n x : Forall (fun b => 0 <= b < 256) (MD5.le_bytes n x).
Proof.
  unfold MD5.le_bytes.
  induction (seq 0 n) as [| i r IH]; cbn [map]; constructor.
  - apply Z.mod_pos_bound. lia.
  - exact IH.
Qed.

Lemma hexdigest_lower s : all_chars is_lower_hex (MD5.hexdigest s) = true.
Proof.
  unfold MD5.hexdigest, MD5.digest. apply hex_lower.
  repeat (apply Forall_app; split); apply le_bytes_bound.
Qed.

(** A conversion of a record that returns has skipped the record or has
    appended an element that reads as the issue of the record. *)
Lemma convert_error_ok error dict_out st out st' :
  template_ok st ->
  convert_error error dict_out st = (Ok out, st') ->
  (pure_error (fs st) error = Ok None /\ out = dict_out)
  \/ exists i v,
       pure_error (fs st) error = Ok (Some i)
       /\ out = (dict_out ++ [v])%list
       /\ reify st' v = Some (issue_json i)
       /\ error_post (dyn st) (log st) (fs st) error dict_out i (Ok out, st').
Proof.
  intros Hok Hrun.
  pose proof (convert_error_cases error dict_out st Hok) as H.
  cbv zeta in H. rewrite Hrun in H.
  destruct (pure_error (fs st) error) as [[i |] | e].
  - right. pose proof H as H'.
    destruct H as (v & ext & s & lo & hi & Heq & _ & Hfr).
    injection Heq as -> ->. exists i, v.
    split; [reflexivity |]. split; [reflexivity |]. split; [| exact H'].
    apply (reify_frozen_state _ _ _ _ lo hi), Hfr.
  - left. injection H as -> _. auto.
  - discriminate H.
Qed.

(** C1 (amended). A conversion of a record that returns either skips the
    record or appends an issue whose fingerprint is the MD5 digest, 32
    lowercase hexadecimal characters, of the string built from the path [p]
    and the line [n] of its primary location, its check name [r] and the
    stripped text of line [n] of [p] (empty when the lookup fails), where
    the line enters as [int(math.ceil(n / 10.0)) * 10].  That number is a
    function of [n], and for [1 <= n < 2 ^ 53] it is [n] rounded up to a
    multiple of ten. *)
Theorem fingerprint_of_record (error : xml_value) (dict_out out : list pyval)
    (st st' : state) :
  template_ok st ->
  convert_error error dict_out st = (Ok out, st') ->
  out = dict_out
  \/ exists v j p n c r fp rounded,
       out = (dict_out ++ [v])%list
       /\ reify st' v = Some j
       /\ field "check_name" j = Some (JStr r)
       /\ field "location" j = Some (location_json (Location p n c))
       /\ field "fingerprint" j = Some (JStr fp)
       /\ rounded_line n = Ok rounded
       /\ fp = MD5.hexdigest
                 (fingerprint_string p rounded r
                    (PyStr.strip (linecache_getline (fs st) p n)))
       /\ (1 <= n < 2 ^ 53 -> rounded = round_up_10 n)
       /\ String.length fp = 32%nat
       /\ all_chars is_lower_hex fp = true.
Proof.
  intros Hok Hrun.
  destruct (convert_error_ok error dict_out st out st' Hok Hrun)
    as [[_ ->] | (i & v & Hp & -> & Hv & _)]; [left; reflexivity | right].
  destruct (pure_error_fields _ _ _ Hp)
    as (rule & msg & sev & cat & location & loc & others & cwe & rounded
        & _ & _ & _ & _ & _ & _ & _ & Hr & ->).
  eexists v, _, (loc_path loc), (loc_line loc), (loc_column loc), rule, _,
    rounded.
  split; [reflexivity |]. split; [exact Hv |].
  split; [reflexivity |].
  split; [destruct loc; reflexivity |].
  split; [reflexivity |]. split; [exact Hr |].
  split; [reflexivity |].
  split.
  - intros Hn. rewrite (rounded_line_exact _ Hn) in Hr.
    injection Hr as <-. reflexivity.
  - split; [apply hexdigest_length | apply hexdigest_lower].
Qed.

Lemma fingerprint_of_record_witness :
  let st := initial_state Sample.four_lines in
  let r := convert_error Sample.warning_record [] st in
  List.length (value_of [] r) = 1%nat
  /\ (value_of [] r = []
      \/ exists v j p n c r0 fp rounded,
           value_of [] r = ([] ++ [v])%list
           /\ reify (snd r) v = Some j
           /\ field "check_name" j = Some (JStr r0)
           /\ field "location" j = Some (location_json (Location p n c))
           /\ field "fingerprint" j = Some (JStr fp)
           /\ rounded_line n = Ok rounded
           /\ fp = MD5.hexdigest
                     (fingerprint_string p rounded r0
                        (PyStr.strip (linecache_getline (fs st) p n)))
           /\ (1 <= n < 2 ^ 53 -> rounded = round_up_10 n)
           /\ String.length fp = 32%nat
           /\ all_chars is_lower_hex fp = true).
Proof.
  cbv zeta. split; [vm_compute; reflexivity |].
  apply (fingerprint_of_record Sample.warning_record []
           (value_of [] (convert_error Sample.warning_record []
                           (initial_state Sample.four_lines)))
           (initial_state Sample.four_lines)).
  - exists EmptyString, (-1), (-1). reflexivity.
  - vm_compute. reflexivity.
Defined.

(** C1, as stated, fails: for line 9007199254741001 the quotient by
    [10.0] is rounded to a binary64 number that is an integer, and the
    fingerprint is computed with 9007199254741000, which is below the
    line, instead of 9007199254741010. *)
Lemma fingerprint_rounds_down :
  option_map (map (field "fingerprint"))
    (output_of (convert_dict (Sample.report [Sample.far_record])
                  (initial_state Sample.four_lines)))
  = Some [Some (JStr (MD5.hexdigest
                        (fingerprint_string "tests/cpp_src/Foo.h"
                           9007199254741000 "id" "")))]
  /\ round_up_10 9007199254741001 = 9007199254741010
  /\ MD5.hexdigest
       (fingerprint_string "tests/cpp_src/Foo.h" 9007199254741000 "id" "")
     <> MD5.hexdigest
          (fingerprint_string "tests/cpp_src/Foo.h"
             (round_up_10 9007199254741001) "id" "").
Proof.
  split; [vm_compute; reflexivity |].
  split; [reflexivity |].
  vm_compute. discriminate.
Qed.

(** C2. The issue of the record of the repository's test
    [test_convert_no_cwe] has six entries and none of them is [severity]:
    the code has no table from severities to output severities. *)
Example no_severity_field :
  let r := run Sample.four_lines [Sample.no_cwe_record] in
  option_map (map keys) (output_of r)
  = Some [["type"; "check_name"; "description"; "categories"; "fingerprint";
           "location"]]
  /\ option_map (map (field "severity")) (output_of r) = Some [None].
Proof. split; vm_compute; reflexivity. Qed.

(** C5. The check name of the issue of that record is the identifier of
    the record as it is, not [cppcheck[uninitMemberVar]]. *)
Example check_name_is_the_rule :
  option_map (map (field "check_name"))
    (output_of (run Sample.four_lines [Sample.no_cwe_record]))
  = Some [Some (JStr "uninitMemberVar")].
Proof. vm_compute. reflexivity. Qed.

(** C6. A record with several locations whose first location has no
    column makes the conversion raise [KeyError], while a record with one
    location and no column is converted with column 0. *)
Example column_required_with_several_locations :
  raised (run Sample.four_lines [Sample.multiple_locations_record])
  = Some (KeyError "@column")
  /\ option_map (map (field "location"))
       (output_of (run Sample.four_lines [Sample.no_loc_column_record]))
     = Some [Some (location_json
                     (Location "tests/cpp_src/bad_code_1.cpp" 3 0))].
Proof. split; vm_compute; reflexivity. Qed.

(** C7. For a line beyond the end of the file, and for a file that is not
    there, the record is converted and its fingerprint has the empty text,
    but the log holds the two debug records only: no warning. *)
Example degraded_lookup_logs_no_warning :
  let r := run Sample.four_lines [Sample.longer_than_file_record] in
  let r' := run Sample.four_lines [Sample.no_cwe_record] in
  option_map (map (field "fingerprint")) (output_of r)
  = Some [Some (JStr (MD5.hexdigest
                        (fingerprint_string "tests/cpp_src/four_lines.c" 10
                           "id" "")))]
  /\ map log_level (log (snd r)) = [DEBUG; DEBUG]
  /\ option_map (map (field "fingerprint")) (output_of r')
     = Some [Some (JStr (MD5.hexdigest
                           (fingerprint_string "tests/cpp_src/bad_code_1.cpp"
                              50 "uninitMemberVar" "")))]
  /\ map log_level (log (snd r')) = [DEBUG; DEBUG].
Proof. repeat split; vm_compute; reflexivity. Qed.

(** C8. After the conversion of a report with one record, the dictionaries
    nested in the module-level template hold the path, the line and the
    column of that record: [dict(CODE_QUAL_ELEMENT)] copies the outer
    dictionary only. *)
Example template_is_mutated :
  let st := initial_state Sample.four_lines in
  let st' := snd (run Sample.four_lines [Sample.no_cwe_record]) in
  option_map (field "location") (reify st CODE_QUAL_ELEMENT)
  = Some (Some (location_json (Location "" (-1) (-1))))
  /\ option_map (field "location") (reify st' CODE_QUAL_ELEMENT)
     = Some (Some (location_json
                     (Location "tests/cpp_src/bad_code_1.cpp" 50 3)))
  /\ globals st' <> globals st.
Proof.
  split; [vm_compute; reflexivity |].
  split; [vm_compute; reflexivity |].
  vm_compute. discriminate.
Qed.

(** *** The exceptions of a record *)

Lemma attr_raise x k e :
  String.prefix "@" k = true -> Xml.attr x k = Raise e -> attr_error e.
Proof.
  intros Hk. unfold Xml.attr. destruct x as [| t | l | attrs elems];
    try (intros [= <-]; exact I).
  destruct (Xml.assoc k attrs); [discriminate |].
  intros [= <-]. left. exact Hk.
Qed.

Lemma item_location_raise x e :
  Xml.item x "location" = Raise e -> attr_error e.
Proof.
  unfold Xml.item. destruct x as [| t | l | attrs elems];
    try (intros [= <-]; exact I).
  destruct (Xml.assoc "location" elems); [discriminate |].
  intros [= <-]. right. reflexivity.
Qed.

Lemma contains_raise k x e : Xml.contains k x = Raise e -> attr_error e.
Proof.
  destruct x; cbn [Xml.contains]; try discriminate. intros [= <-]. exact I.
Qed.

Lemma pure_int_raise s e : pure_int s = Raise e -> attr_error e.
Proof.
  unfold pure_int. destruct (PyStr.int_of_str s); [discriminate |].
  intros [= <-]. exact I.
Qed.

Lemma rounded_line_raise n e : rounded_line n = Raise e -> attr_error e.
Proof.
  unfold rounded_line. destruct (PyFloat.of_int n); [| intros [= <-]; exact I].
  destruct (PyFloat.ceil _); [discriminate | intros [= <-]; exact I].
Qed.

(** Splits the first step of a computation that raised. *)
Ltac rr H lem :=
  match type of H with
  | rbind ?r _ = Raise _ =>
      let E := fresh "E" in
      destruct r eqn:E; cbn [rbind] in H;
      [| injection H as <-; eapply lem; try exact E; reflexivity]
  end.

Lemma pure_other_raise loc e : pure_other loc = Raise e -> attr_error e.
Proof.
  unfold pure_other. intros H.
  rr H attr_raise. rr H attr_raise. rr H pure_int_raise.
  rr H attr_raise. rr H pure_int_raise. discriminate H.
Qed.

Lemma pure_others_raise locs e : pure_others locs = Raise e -> attr_error e.
Proof.
  induction locs as [| loc rest IH]; cbn [pure_others]; intros H.
  - discriminate H.
  - rr H pure_other_raise.
    destruct (pure_others rest); cbn [rbind] in H; [discriminate H |].
    injection H as <-. apply IH. reflexivity.
Qed.

Lemma pure_primary_raise location e :
  pure_primary location = Raise e -> attr_error e.
Proof.
  assert (Hsingle :
    (path <-- Xml.attr location "@file" ;;
     line_s <-- Xml.attr location "@line" ;;
     line <-- pure_int line_s ;;
     has_column <-- Xml.contains "@column" location ;;
     column <-- (if has_column
                 then column_s <-- Xml.attr location "@column" ;;
                      pure_int column_s
                 else Ok 0) ;;
     Ok (Location path line column, @nil location_t)) = Raise e ->
    attr_error e).
  { intros H. rr H attr_raise. rr H attr_raise. rr H pure_int_raise.
    rr H contains_raise. destruct a2.
    - destruct (Xml.attr location "@column") eqn:Ec; cbn [rbind] in H;
        [| injection H as <-; eapply attr_raise; try exact Ec; reflexivity].
      destruct (pure_int a2) eqn:Ei; cbn [rbind] in H;
        [discriminate H | injection H as <-; eapply pure_int_raise, Ei].
    - discriminate H. }
  destruct location as [| t | locs | attrs elems]; try exact Hsingle.
  clear Hsingle. cbn [pure_primary]. intros H.
  destruct (Xml.index locs 0) eqn:Ei; cbn [rbind] in H;
    [| injection H as <-; unfold Xml.index in Ei;
       destruct (nth_error locs 0); [discriminate Ei |];
       injection Ei as <-; exact I].
  rr H contains_raise.
  destruct (Xml.attr a (if a0 then "@file0" else "@file")) eqn:Ep;
    cbn [rbind] in H;
    [| injection H as <-; eapply attr_raise; try exact Ep;
       destruct a0; reflexivity].
  rr H attr_raise. rr H pure_int_raise. rr H attr_raise. rr H pure_int_raise.
  rr H pure_others_raise. discriminate H.
Qed.

Lemma known_severity_closed s :
  known_severity s = true
  <-> In s ["error"; "warning"; "style"; "performance"; "portability";
            "information"].
Proof.
  unfold known_severity, Xml.has_key, map_severity_to_category.
  cbn [Xml.assoc In]. split.
  - repeat match goal with
           | |- context [String.eqb s ?t] =>
               let E := fresh "E" in
               destruct (String.eqb s t) eqn:E;
               [apply String.eqb_eq in E; intros _; auto 10 |]
           end.
    discriminate.
  - intros H.
    repeat (destruct H as [<- | H]; [reflexivity |]). contradiction.
Qed.

Lemma category_raises s :
  known_severity s = false ->
  __get_codeclimate_category s = Raise (KeyError s).
Proof.
  unfold known_severity, Xml.has_key, __get_codeclimate_category.
  destruct (Xml.assoc s map_severity_to_category); [discriminate |].
  reflexivity.
Qed.

Lemma category_returns s :
  known_severity s = true -> exists c, __get_codeclimate_category s = Ok c.
Proof.
  unfold known_severity, Xml.has_key, __get_codeclimate_category.
  destruct (Xml.assoc s map_severity_to_category) as [c |]; [| discriminate].
  exists c. reflexivity.
Qed.

(** C3 (amended). The table maps the six severities as listed and only
    them; the lookup of any other string raises [KeyError] with that
    string.  A record is first printed for the log: when [str(error)]
    raises, which it does with [RecursionError] only, the conversion raises
    [RecursionError], whatever the severity.  A record that is printed and
    has no location is skipped, whatever its severity.  For a record with a
    location and the attributes [id], [msg] and [severity], the conversion
    raises the [KeyError] of the severity exactly when the record is
    printed and its severity is not one of the six. *)
Theorem severity_mapping (error : xml_value) (dict_out : list pyval)
    (st : state) (id msg sev : string) :
  template_ok st ->
  Xml.attr error "@id" = Ok id ->
  Xml.attr error "@msg" = Ok msg ->
  Xml.attr error "@severity" = Ok sev ->
  (__get_codeclimate_category "error" = Ok "Bug Risk"
   /\ __get_codeclimate_category "warning" = Ok "Bug Risk"
   /\ __get_codeclimate_category "style" = Ok "Style"
   /\ __get_codeclimate_category "performance" = Ok "Performance"
   /\ __get_codeclimate_category "portability" = Ok "Compatibility"
   /\ __get_codeclimate_category "information" = Ok "Style")
  /\ (known_severity sev = true
      <-> In sev ["error"; "warning"; "style"; "performance"; "portability";
                  "information"])
  /\ (__get_codeclimate_category sev = Raise (KeyError sev)
      <-> known_severity sev = false)
  /\ (forall e,
        str error = Raise e ->
        e = RecursionError
        /\ fst (convert_error error dict_out st) = Raise RecursionError)
  /\ (forall printed,
        str error = Ok printed ->
        Xml.contains "location" error = Ok false ->
        fst (convert_error error dict_out st) = Ok dict_out)
  /\ (Xml.contains "location" error = Ok true ->
      (fst (convert_error error dict_out st) = Raise (KeyError sev)
       <-> known_severity sev = false
           /\ exists printed, str error = Ok printed)).
Proof.
  intros Hok Hid Hmsg Hsev.
  split; [repeat split |]. split; [apply known_severity_closed |].
  split.
  { split; [| apply category_raises].
    destruct (known_severity sev) eqn:Hk; [| reflexivity].
    destruct (category_returns sev Hk) as (c & ->). discriminate. }
  pose proof (convert_error_cases error dict_out st Hok) as H.
  cbv zeta in H. unfold pure_error in H.
  split.
  { intros e He. rewrite He in H. cbn [rbind] in H.
    unfold str in He. destruct (Nat.leb _ _); [discriminate He |].
    injection He as <-. split; [reflexivity | exact H]. }
  split.
  { intros printed Hs Hloc. rewrite Hs, Hloc in H. cbn [rbind negb] in H.
    rewrite H. reflexivity. }
  intros Hloc.
  destruct (str error) as [printed | e] eqn:Hs; cbn [rbind] in H.
  2: { split.
       - intros Hraise. rewrite H in Hraise. injection Hraise as ->.
         unfold str in Hs. destruct (Nat.leb _ _); discriminate Hs.
       - intros (_ & p & Hp). discriminate Hp. }
  rewrite Hloc in H. cbn [rbind negb] in H.
  rewrite Hid, Hmsg, Hsev in H. cbn [rbind] in H.
  destruct (known_severity sev) eqn:Hk.
  - split; [| intros (Hd & _); discriminate Hd]. intros Hraise.
    assert (Hbad : attr_error (KeyError sev)).
    { destruct (category_returns sev Hk) as (c & Hc).
      rewrite Hc in H. cbn [rbind] in H.
      match type of H with
      | match ?p with _ => _ end =>
          destruct p as [[i |] | e] eqn:Hp
      end.
      - destruct H as (v & ext & s & lo & hi & Heq & _).
        rewrite Heq in Hraise. discriminate Hraise.
      - rewrite H in Hraise. discriminate Hraise.
      - rewrite H in Hraise. injection Hraise as ->.
        rr Hp item_location_raise. rr Hp pure_primary_raise.
        rr Hp contains_raise.
        destruct a1.
        + destruct (Xml.attr error "@cwe") eqn:Ec; cbn [rbind] in Hp;
            [| injection Hp as <-; eapply attr_raise; try exact Ec;
               reflexivity].
          rr Hp rounded_line_raise. discriminate Hp.
        + cbn [rbind] in Hp. rr Hp rounded_line_raise. discriminate Hp. }
    apply known_severity_closed in Hk. cbn [In] in Hk. cbn in Hbad.
    repeat (destruct Hk as [<- | Hk];
            [destruct Hbad; discriminate |]).
    contradiction.
  - split; [intros _; split; [reflexivity | exists printed; reflexivity] |].
    intros _.
    rewrite (category_raises sev Hk) in H. exact H.
Qed.

Lemma severity_mapping_witness :
  known_severity "bogus" = false
  /\ Xml.contains "location" Sample.unknown_severity_record = Ok true
  /\ str Sample.unknown_severity_record
     = Ok (ARepr Sample.unknown_severity_record)
  /\ fst (convert_error Sample.unknown_severity_record []
            (initial_state Sample.four_lines))
     = Raise (KeyError "bogus").
Proof.
  split; [reflexivity |]. split; [reflexivity |]. split; [reflexivity |].
  assert (Hok : template_ok (initial_state Sample.four_lines))
    by (exists EmptyString, (-1), (-1); reflexivity).
  destruct (severity_mapping Sample.unknown_severity_record []
              (initial_state Sample.four_lines) "id" "msg" "bogus"
              Hok eq_refl eq_refl eq_refl)
    as (_ & _ & _ & _ & _ & H).
  apply H; [reflexivity |]. split; [reflexivity |].
  exists (ARepr Sample.unknown_severity_record). reflexivity.
Defined.

(** C3, as stated, fails: the report whose only record has the severity
    [bogus] and no location is converted, to an empty output. *)
Lemma unknown_severity_skipped :
  Xml.attr Sample.unlocated_record "@severity" = Ok "bogus"
  /\ __get_codeclimate_category "bogus" = Raise (KeyError "bogus")
  /\ fst (run Sample.four_lines [Sample.unlocated_record]) = Ok (RetList []).
Proof. repeat split; vm_compute; reflexivity. Qed.

(** Where the path of the primary location comes from. *)
Lemma pure_primary_path location loc others :
  pure_primary location = Ok (loc, others) ->
  match location with
  | XList locs =>
      exists loc0 has_file0,
        nth_error locs 0 = Some loc0
        /\ Xml.contains "@file0" loc0 = Ok has_file0
        /\ Xml.attr loc0 (if has_file0 then "@file0" else "@file")
           = Ok (loc_path loc)
  | _ => Xml.attr location "@file" = Ok (loc_path loc)
  end.
Proof.
  assert (Hsingle :
    (path <-- Xml.attr location "@file" ;;
     line_s <-- Xml.attr location "@line" ;;
     line <-- pure_int line_s ;;
     has_column <-- Xml.contains "@column" location ;;
     column <-- (if has_column
                 then column_s <-- Xml.attr location "@column" ;;
                      pure_int column_s
                 else Ok 0) ;;
     Ok (Location path line column, @nil location_t)) = Ok (loc, others) ->
    Xml.attr location "@file" = Ok (loc_path loc)).
  { intros H. rb H. rb H. rb H. rb H. rb H. injection H as <- _.
    reflexivity. }
  destruct location as [| t | locs | attrs elems]; try exact Hsingle.
  clear Hsingle. cbn [pure_primary]. intros H.
  unfold Xml.index in H.
  destruct (nth_error locs 0) as [loc0 |]; cbn [rbind] in H;
    [| discriminate H].
  rb H. rb H. rb H. rb H. rb H. rb H. rb H. injection H as <- _.
  exists loc0, a. auto.
Qed.

(** C4 (amended). In the issue of a record, the path of the primary
    location is, for a record with several locations, the [file0] of the
    first location when it has one and its [file] otherwise, and for a
    record with one location its [file], whether it has a [file0] or
    not. *)
Theorem primary_path_of_record (error location : xml_value)
    (dict_out : list pyval) (v : pyval) (st st' : state) :
  template_ok st ->
  convert_error error dict_out st = (Ok (dict_out ++ [v])%list, st') ->
  Xml.item error "location" = Ok location ->
  exists j p,
    reify st' v = Some j
    /\ path_of j = Some (JStr p)
    /\ match location with
       | XList locs =>
           exists loc0 has_file0,
             nth_error locs 0 = Some loc0
             /\ Xml.contains "@file0" loc0 = Ok has_file0
             /\ Xml.attr loc0 (if has_file0 then "@file0" else "@file")
                = Ok p
       | _ => Xml.attr location "@file" = Ok p
       end.
Proof.
  intros Hok Hrun Hloc.
  destruct (convert_error_ok error dict_out st _ st' Hok Hrun)
    as [[_ Heq] | (i & v' & Hp & Heq & Hv & _)].
  { apply (f_equal (@List.length pyval)) in Heq.
    rewrite length_app in Heq. cbn in Heq. lia. }
  apply app_inv_head in Heq. injection Heq as <-.
  destruct (pure_error_fields _ _ _ Hp)
    as (rule & msg & sev & cat & location' & loc & others & cwe & rounded
        & _ & _ & _ & _ & Hloc' & Hprim & _ & _ & ->).
  rewrite Hloc in Hloc'. injection Hloc' as <-.
  eexists _, (loc_path loc). split; [exact Hv |].
  split; [reflexivity |].
  exact (pure_primary_path _ _ _ Hprim).
Qed.

Lemma primary_path_of_record_witness :
  let st := initial_state Sample.four_lines in
  let r := convert_error Sample.location_file0_record [] st in
  exists v,
    value_of [] r = [v]
    /\ exists j p,
         reify (snd r) v = Some j
         /\ path_of j = Some (JStr p)
         /\ Xml.attr
              (Sample.location_elem (Some "tests/cpp_src/Foo.cpp")
                 "tests/cpp_src/Foo.h" "3" None) "@file" = Ok p.
Proof.
  cbv zeta. eexists. split; [vm_compute; reflexivity |].
  apply (primary_path_of_record Sample.location_file0_record
           (Sample.location_elem (Some "tests/cpp_src/Foo.cpp")
              "tests/cpp_src/Foo.h" "3" None)
           [] _ (initial_state Sample.four_lines) _).
  - exists EmptyString, (-1), (-1). reflexivity.
  - vm_compute. reflexivity.
  - reflexivity.
Defined.

(** C4, as stated, fails: for the record of the repository's test
    [test_convert_location_file0], which has one location with a [file0],
    the path is the reported file, not the [file0], and the description is
    the message, which does not contain the reported file. *)
Lemma file0_ignored_for_one_location :
  let r := run Sample.four_lines [Sample.location_file0_record] in
  Xml.item Sample.location_file0_record "location"
  = Ok (Sample.location_elem (Some "tests/cpp_src/Foo.cpp")
          "tests/cpp_src/Foo.h" "3" None)
  /\ option_map (map path_of) (output_of r)
     = Some [Some (JStr "tests/cpp_src/Foo.h")]
  /\ option_map (map (field "description")) (output_of r)
     = Some [Some (JStr "message")]
  /\ PyStr.contains "tests/cpp_src/Foo.h" "message" = false.
Proof. repeat split; vm_compute; reflexivity. Qed.

(** ** The elements of the output *)

Lemma pure_int_some s z : pure_int s = Ok z -> PyStr.int_of_str s = Some z.
Proof.
  unfold pure_int. destruct (PyStr.int_of_str s); [| discriminate].
  intros [= <-]. reflexivity.
Qed.

Lemma pure_primary_single location loc others :
  (forall locs, location <> XList locs) ->
  pure_primary location = Ok (loc, others) ->
  others = []
  /\ Xml.attr location "@file" = Ok (loc_path loc)
  /\ (exists line_s,
        Xml.attr location "@line" = Ok line_s
        /\ PyStr.int_of_str line_s = Some (loc_line loc))
  /\ match Xml.contains "@column" location with
     | Ok true =>
         exists column_s,
           Xml.attr location "@column" = Ok column_s
           /\ PyStr.int_of_str column_s = Some (loc_column loc)
     | _ => loc_column loc = 0
     end.
Proof.
  intros Hsingle.
  assert (E :
    pure_primary location
    = (path <-- Xml.attr location "@file" ;;
       line_s <-- Xml.attr location "@line" ;;
       line <-- pure_int line_s ;;
       has_column <-- Xml.contains "@column" location ;;
       column <-- (if has_column
                   then column_s <-- Xml.attr location "@column" ;;
                        pure_int column_s
                   else Ok 0) ;;
       Ok (Location path line column, []))).
  { destruct location; try reflexivity. destruct (Hsingle l). reflexivity. }
  rewrite E. clear E. intros H.
  destruct (Xml.attr location "@file") as [p |]; cbn [rbind] in H;
    [| discriminate H].
  destruct (Xml.attr location "@line") as [line_s |]; cbn [rbind] in H;
    [| discriminate H].
  destruct (pure_int line_s) as [n |] eqn:En; cbn [rbind] in H;
    [| discriminate H].
  destruct (Xml.contains "@column" location) as [[|] |]; cbn [rbind] in H;
    [| | discriminate H].
  - destruct (Xml.attr location "@column") as [column_s |];
      cbn [rbind] in H; [| discriminate H].
    destruct (pure_int column_s) as [c |] eqn:Ec; cbn [rbind] in H;
      [| discriminate H].
    injection H as <- <-. cbn [loc_path loc_line loc_column].
    split; [reflexivity |]. split; [reflexivity |].
    split; [exists line_s; split; [reflexivity | apply pure_int_some, En] |].
    exists column_s. split; [reflexivity | apply pure_int_some, Ec].
  - injection H as <- <-. cbn [loc_path loc_line loc_column].
    split; [reflexivity |]. split; [reflexivity |].
    split; [exists line_s; split; [reflexivity | apply pure_int_some, En] |].
    reflexivity.
Qed.

Lemma pure_error_located f error r :
  pure_error f error = Ok r ->
  located error = match r with Some _ => true | None => false end.
Proof.
  unfold pure_error, located. intros H.
  destruct (str error); cbn [rbind] in H; [| discriminate H].
  destruct (Xml.contains "location" error) as [[|] |]; cbn [rbind negb] in H.
  - destruct r; [reflexivity |].
    repeat match type of H with
           | rbind ?x _ = Ok _ =>
               destruct x; cbn [rbind] in H; [| discriminate H]
           | context [if ?b then _ else _] => destruct b
           end; discriminate H.
  - injection H as <-. reflexivity.
  - discriminate H.
Qed.

Lemma field_location_json (i : issue) :
  field "location" (issue_json i) = Some (location_json (i_location i)).
Proof. destruct i. reflexivity. Qed.


Lemma pure_primary_own location loc others :
  pure_primary location = Ok (loc, others) ->
  primary_of location (loc_path loc) (loc_line loc) (loc_column loc).
Proof.
  intros H.
  assert (Hsingle : (forall locs, location <> XList locs) ->
                    primary_of location (loc_path loc) (loc_line loc)
                      (loc_column loc)).
  { intros Hs.
    destruct (pure_primary_single _ _ _ Hs H) as (_ & Hf & Hl & Hc).
    destruct location as [| t | locs | attrs elems];
      [| | destruct (Hs locs); reflexivity |];
      (split; [exact Hf | split; [exact Hl | exact Hc]]). }
  destruct location as [| t | locs | attrs elems];
    try (apply Hsingle; discriminate).
  clear Hsingle. cbn [pure_primary] in H. unfold Xml.index in H.
  destruct (nth_error locs 0) as [loc0 |] eqn:E0; cbn [rbind] in H;
    [| discriminate H].
  destruct (Xml.contains "@file0" loc0) as [has_file0 |] eqn:Ef;
    cbn [rbind] in H; [| discriminate H].
  destruct (Xml.attr loc0 (if has_file0 then "@file0" else "@file"))
    as [path |] eqn:Ep; cbn [rbind] in H; [| discriminate H].
  destruct (Xml.attr loc0 "@line") as [line_s |] eqn:El; cbn [rbind] in H;
    [| discriminate H].
  destruct (pure_int line_s) as [n |] eqn:En; cbn [rbind] in H;
    [| discriminate H].
  destruct (Xml.attr loc0 "@column") as [column_s |] eqn:Ecs;
    cbn [rbind] in H; [| discriminate H].
  destruct (pure_int column_s) as [c |] eqn:Ec; cbn [rbind] in H;
    [| discriminate H].
  destruct (pure_others (tl locs)); cbn [rbind] in H; [| discriminate H].
  injection H as <- _. cbn [primary_of loc_path loc_line loc_column].
  exists loc0, has_file0, line_s, column_s.
  split; [exact E0 |]. split; [exact Ef |]. split; [exact Ep |].
  split; [exact El |]. split; [exact (pure_int_some _ _ En) |].
  split; [exact Ecs | exact (pure_int_some _ _ Ec)].
Qed.

(** A dictionary without the attribute [cwe]. *)
Lemma no_cwe_attr error rule :
  Xml.attr error "@id" = Ok rule ->
  Xml.contains "@cwe" error = Ok false ->
  exists e, Xml.attr error "@cwe" = Raise e.
Proof.
  destruct error as [| t | l | attrs elems]; try discriminate.
  intros _. cbn [Xml.contains Xml.attr].
  change (String.prefix "@" "@cwe") with true. cbn iota.
  unfold Xml.has_key. destruct (Xml.assoc "@cwe" attrs); [discriminate |].
  intros _. eexists. reflexivity.
Qed.

(** The issue of a record holds what the record says. *)
Lemma pure_error_own f error i :
  pure_error f error = Ok (Some i) -> own_issue f error (issue_json i).
Proof.
  intros H.
  destruct (pure_error_fields _ _ _ H)
    as (rule & msg & sev & cat & location & loc & others & cwe & rounded
        & Hid & Hmsg & Hsev & Hcat & Hloc & Hprim & Hcwe & Hround & ->).
  exists rule, msg, sev, cat, location, (loc_path loc), (loc_line loc),
    (loc_column loc), rounded.
  repeat (split; [assumption |]).
  split; [exact (pure_primary_own _ _ _ Hprim) |].
  split; [exact Hround |].
  split; [destruct loc; reflexivity |].
  split; [| split; reflexivity].
  destruct cwe as [c |].
  - destruct Hcwe as (_ & ->). reflexivity.
  - destruct (no_cwe_attr _ _ Hid Hcwe) as (e & ->). reflexivity.
Qed.

Lemma pure_errors_own f errors : forall issues,
  pure_errors f errors = Ok issues ->
  Forall2 (own_issue f) (List.filter located errors) (map issue_json issues).
Proof.
  induction errors as [| error rest IH]; intros issues H;
    cbn [pure_errors List.filter] in *.
  - injection H as <-. constructor.
  - destruct (pure_error f error) as [r |] eqn:Ee; cbn [rbind] in H;
      [| discriminate H].
    destruct (pure_errors f rest) as [issues' |]; cbn [rbind] in H;
      [| discriminate H].
    injection H as <-. rewrite (pure_error_located _ _ _ Ee).
    destruct r as [i |]; cbn [map].
    + constructor; [exact (pure_error_own _ _ _ Ee) | exact (IH _ eq_refl)].
    + exact (IH _ eq_refl).
Qed.

Lemma pure_errors_app f errors rest issues1 issues2 :
  pure_errors f errors = Ok issues1 ->
  pure_errors f rest = Ok issues2 ->
  pure_errors f (errors ++ rest) = Ok (issues1 ++ issues2)%list.
Proof.
  revert issues1.
  induction errors as [| error errors IH]; intros issues1 H1 H2;
    cbn [pure_errors app] in *.
  - injection H1 as <-. exact H2.
  - destruct (pure_error f error) as [r |]; cbn [rbind] in *;
      [| discriminate H1].
    destruct (pure_errors f errors) as [issues' |]; cbn [rbind] in H1;
      [| discriminate H1].
    injection H1 as <-. rewrite (IH issues' eq_refl H2). cbn [rbind].
    destruct r; reflexivity.
Qed.

(** C9. The elements appended to the output are copies of their own: when
    the records [rest] are converted after the records [errors], the output
    keeps the elements it had, in their places, and each of them reads
    exactly as it did before.  Before and after, the output has one
    element for each record with a location, in the order of the document,
    and the element of a record holds the path, line, column, description,
    categories and fingerprint that the attributes of that record give; it
    reads as what the record gives when it is converted alone. *)
Theorem outputs_retained (errors rest : list xml_value) (st st1 st2 : state)
    (out out' : list pyval) :
  template_ok st ->
  convert_errors errors [] st = (Ok out, st1) ->
  convert_errors rest out st1 = (Ok out', st2) ->
  (exists more, out' = out ++ more)
  /\ all_some (reify st1) out
     = Some (flat_map (converted_alone (fs st)) errors)
  /\ all_some (reify st2) out'
     = Some (flat_map (converted_alone (fs st)) (errors ++ rest))
  /\ Forall (fun v => reify st2 v = reify st1 v /\ reify st1 v <> None) out
  /\ (exists js,
        all_some (reify st1) out = Some js
        /\ Forall2 (own_issue (fs st)) (List.filter located errors) js)
  /\ (exists js',
        all_some (reify st2) out' = Some js'
        /\ Forall2 (own_issue (fs st))
             (List.filter located (errors ++ rest)) js').
Proof.
  intros Hok H1 H2.
  destruct (convert_errors_cases errors [] st Hok) as (last & Hg & Hc1).
  cbv zeta in Hc1. rewrite H1 in Hc1.
  destruct (pure_errors (fs st) errors) as [issues1 | e] eqn:Hp1;
    [| discriminate].
  destruct Hc1 as (vs1 & ext1 & lg1 & Heq1 & _ & Hvs1).
  injection Heq1 as -> ->. cbn [app] in *.
  match type of H2 with
  | convert_errors _ _ ?s = _ =>
      assert (Hok1 : template_ok s) by (eexists _, _, _; reflexivity);
      destruct (convert_errors_cases rest vs1 s Hok1) as (last1 & _ & Hc2)
  end.
  cbv zeta in Hc2. cbn [fs dyn log] in Hc2. rewrite H2 in Hc2.
  destruct (pure_errors (fs st) rest) as [issues2 | e] eqn:Hp2;
    [| discriminate].
  destruct Hc2 as (vs2 & ext2 & lg2 & Heq2 & _ & Hvs2).
  injection Heq2 as -> ->.
  assert (Hvs1' :
    Forall2
      (fun v i =>
         exists lo hi,
           frozen 6 ((dyn st ++ ext1) ++ ext2) lo hi v (issue_json i))
      vs1 issues1).
  { eapply Forall2_impl; [exact Hvs1 |].
    intros v i (lo & hi & Hfr). exists lo, hi. apply frozen_app, Hfr. }
  match goal with
  | |- _ /\ all_some (reify ?s1) _ = _ /\ all_some (reify ?s2) _ = _ /\ _ =>
      assert (Hall1 :
        all_some (reify s1) vs1 = Some (map issue_json issues1))
        by (apply frozen_all_some; exact Hvs1);
      assert (Hall2 :
        all_some (reify s2) (vs1 ++ vs2)
        = Some (map issue_json (issues1 ++ issues2)))
        by (rewrite map_app; apply all_some_app; apply frozen_all_some;
            assumption)
  end.
  split; [exists vs2; reflexivity |]. split; [| split; [| split; [| split]]].
  - rewrite (flat_map_alone _ _ _ Hp1). exact Hall1.
  - rewrite flat_map_app, (flat_map_alone _ _ _ Hp1),
      (flat_map_alone _ _ _ Hp2), <- map_app.
    exact Hall2.
  - exact (frozen_same _ _ _ _ _ _ _ _ _ _ Hvs1 Hvs1').
  - exists (map issue_json issues1). split; [exact Hall1 |].
    exact (pure_errors_own _ _ _ Hp1).
  - exists (map issue_json (issues1 ++ issues2)). split; [exact Hall2 |].
    exact (pure_errors_own _ _ _ (pure_errors_app _ _ _ _ _ Hp1 Hp2)).
Qed.

Lemma outputs_retained_witness :
  let st := initial_state Sample.four_lines in
  let r1 := convert_errors [Sample.warning_record] [] st in
  let r2 := convert_errors [Sample.header_record] (value_of [] r1) (snd r1) in
  List.length (value_of [] r1) = 1%nat
  /\ (exists more, value_of [] r2 = value_of [] r1 ++ more)
  /\ all_some (reify (snd r1)) (value_of [] r1)
     = Some (flat_map (converted_alone (fs st)) [Sample.warning_record])
  /\ all_some (reify (snd r2)) (value_of [] r2)
     = Some (flat_map (converted_alone (fs st))
               ([Sample.warning_record] ++ [Sample.header_record]))
  /\ Forall
       (fun v => reify (snd r2) v = reify (snd r1) v
                 /\ reify (snd r1) v <> None)
       (value_of [] r1)
  /\ (exists js,
        all_some (reify (snd r1)) (value_of [] r1) = Some js
        /\ Forall2 (own_issue (fs st))
             (List.filter located [Sample.warning_record]) js)
  /\ (exists js',
        all_some (reify (snd r2)) (value_of [] r2) = Some js'
        /\ Forall2 (own_issue (fs st))
             (List.filter located
                ([Sample.warning_record] ++ [Sample.header_record])) js').
Proof.
  cbv zeta. split; [vm_compute; reflexivity |].
  apply (outputs_retained [Sample.warning_record] [Sample.header_record]
           (initial_state Sample.four_lines)).
  - exists EmptyString, (-1), (-1). reflexivity.
  - vm_compute. reflexivity.
  - vm_compute. reflexivity.
Defined.
(* ===================================================================== *)
(** * Further properties of the conversion                               *)
(* ===================================================================== *)

(** ** The conversion leaves the file system alone *)

Lemma frames_ret {A} (a : A) : frames (ret a).
Proof. intros st. split; [reflexivity |]. exists []. symmetry. apply app_nil_r. Qed.

Lemma frames_raise {A} e : frames (@raise A e).
Proof. intros st. split; [reflexivity |]. exists []. symmetry. apply app_nil_r. Qed.

Lemma frames_lift {A} (r : result A) : frames (lift r).
Proof. intros st. split; [reflexivity |]. exists []. symmetry. apply app_nil_r. Qed.

Lemma frames_bind {A B} (c : M A) (k : A -> M B) :
  frames c -> (forall a, frames (k a)) -> frames (bind c k).
Proof.
  intros Hc Hk st. unfold bind. specialize (Hc st).
  destruct (c st) as [[a | e] st1]; cbn [snd] in *.
  - destruct Hc as (Hf & l & Hl). destruct (Hk a st1) as (Hf' & l' & Hl').
    split; [congruence |]. exists (l ++ l').
    rewrite Hl', Hl, app_assoc. reflexivity.
  - exact Hc.
Qed.

Lemma frames_pure {A} (h : state -> result A) :
  frames (fun st => (h st, st)).
Proof. intros st. split; [reflexivity |]. exists []. symmetry. apply app_nil_r. Qed.

Lemma frames_get_dict v : frames (Heap.get_dict v).
Proof.
  intros st. unfold Heap.get_dict.
  destruct v as [| | | a]; try apply (frames_raise TypeError st).
  destruct (Heap.lookup st a) as [[items | elts] |];
    cbn [snd]; (split; [reflexivity |]); exists []; symmetry; apply app_nil_r.
Qed.

Lemma frames_get_list v : frames (Heap.get_list v).
Proof.
  intros st. unfold Heap.get_list.
  destruct v as [| | | a]; try apply (frames_raise TypeError st).
  destruct (Heap.lookup st a) as [[items | elts] |];
    cbn [snd]; (split; [reflexivity |]); exists []; symmetry; apply app_nil_r.
Qed.

Lemma frames_put v o : frames (Heap.put v o).
Proof.
  intros st. unfold Heap.put.
  destruct v as [| | | [n | n]]; try apply (frames_raise TypeError st);
    cbn; (split; [reflexivity |]); exists []; symmetry; apply app_nil_r.
Qed.

Lemma frames_alloc o : frames (Heap.alloc o).
Proof.
  intros st. cbn. split; [reflexivity |]. exists []. symmetry. apply app_nil_r.
Qed.

Lemma frames_log_call l msg args : frames (Heap.log_call l msg args).
Proof. intros st. cbn. split; [reflexivity |]. eexists. reflexivity. Qed.

Lemma frames_getline path line : frames (getline path line).
Proof. apply frames_pure. Qed.

Lemma frames_int s : frames (int s).
Proof. unfold int. destruct (PyStr.int_of_str s); [apply frames_ret | apply frames_raise]. Qed.

Lemma frames_as_str v : frames (as_str v).
Proof. destruct v; try apply frames_raise. apply frames_ret. Qed.

(** Splits a computation into its steps. *)
Ltac fr1 :=
  lazymatch goal with
  | |- frames (ret _) => apply frames_ret
  | |- frames (raise _) => apply frames_raise
  | |- frames (lift _) => apply frames_lift
  | |- frames (bind _ _) => apply frames_bind; [| intros ?]
  | |- frames (Heap.get_dict _) => apply frames_get_dict
  | |- frames (Heap.get_list _) => apply frames_get_list
  | |- frames (Heap.put _ _) => apply frames_put
  | |- frames (Heap.alloc _) => apply frames_alloc
  | |- frames (Heap.log_call _ _ _) => apply frames_log_call
  | |- frames (getline _ _) => apply frames_getline
  | |- frames (int _) => apply frames_int
  | |- frames (as_str _) => apply frames_as_str
  | |- frames (if ?b then _ else _) => destruct b
  | |- frames (match ?x with _ => _ end) => destruct x
  end.

Ltac fr := repeat fr1.

Lemma frames_getitem d k : frames (Heap.getitem d k).
Proof. unfold Heap.getitem. fr. Qed.

Lemma frames_setitem d k v : frames (Heap.setitem d k v).
Proof. unfold Heap.setitem. fr. Qed.

Lemma frames_contains k d : frames (Heap.contains k d).
Proof. unfold Heap.contains. fr. Qed.

Lemma frames_dict_copy d : frames (Heap.dict_copy d).
Proof. unfold Heap.dict_copy. fr. Qed.

Lemma frames_append l v : frames (Heap.append l v).
Proof. unfold Heap.append. fr. Qed.

Lemma frames_mapM {A B} (h : A -> M B) l :
  (forall x, frames (h x)) -> frames (mapM h l).
Proof. intros Hh. induction l as [| x r IH]; cbn [mapM]; fr; auto. Qed.

Lemma frames_forM_ {A} (l : list A) (h : A -> M unit) :
  (forall x, frames (h x)) -> frames (forM_ l h).
Proof. intros Hh. induction l as [| x r IH]; cbn [forM_]; fr; auto. Qed.

Lemma frames_deepcopy_at fuel : forall v, frames (Heap.deepcopy_at fuel v).
Proof.
  induction fuel as [| fuel IH]; intros v; cbn [Heap.deepcopy_at].
  - apply frames_raise.
  - destruct v as [| | | a]; try apply frames_ret.
    intros st. destruct (Heap.lookup st a) as [[items | elts] |].
    + refine (frames_bind _ _ _ _ st); [| intros ?; apply frames_alloc].
      apply frames_mapM. intros kv. fr. apply IH.
    + refine (frames_bind _ _ _ _ st); [| intros ?; apply frames_alloc].
      apply frames_mapM. exact IH.
    + apply (frames_raise TypeError st).
Qed.

Ltac fr2 :=
  lazymatch goal with
  | |- frames (Heap.getitem _ _) => apply frames_getitem
  | |- frames (Heap.setitem _ _ _) => apply frames_setitem
  | |- frames (Heap.contains _ _) => apply frames_contains
  | |- frames (Heap.dict_copy _) => apply frames_dict_copy
  | |- frames (Heap.append _ _) => apply frames_append
  | |- frames (Heap.deepcopy _) => apply frames_deepcopy_at
  | |- _ => fr1
  end.

Ltac fr' := repeat fr2.

Lemma frames_other_location tmp loc : frames (other_location tmp loc).
Proof. unfold other_location. fr'. Qed.

Lemma frames_primary_location tmp location :
  frames (primary_location tmp location).
Proof.
  unfold primary_location. destruct location; fr';
    apply frames_forM_; intros x; apply frames_other_location.
Qed.

Lemma frames_convert_error error dict_out :
  frames (convert_error error dict_out).
Proof.
  unfold convert_error. fr'.
  all: apply frames_primary_location.
Qed.

Lemma frames_convert_errors errors : forall dict_out,
  frames (convert_errors errors dict_out).
Proof.
  induction errors as [| e r IH]; intros dict_out; cbn [convert_errors]; fr;
    [apply frames_convert_error | apply IH].
Qed.

Lemma frames_convert_dict dict_in : frames (convert_dict dict_in).
Proof.
  unfold convert_dict. fr. all: apply frames_convert_errors.
Qed.

Section Files.

Variable xmltodict_parse : string -> result xml_value.
Variable json_dumps : json -> string.

Local Abbreviation convert := (__convert xmltodict_parse json_dumps).
Local Abbreviation convert_file' := (convert_file xmltodict_parse json_dumps).

Lemma frames_dumps dict_out : frames (dumps json_dumps dict_out).
Proof.
  intros st. unfold dumps.
  destruct (all_some (reify st) dict_out); cbn [snd];
    (split; [reflexivity |]); exists []; symmetry; apply app_nil_r.
Qed.

Lemma frames_convert xml_input : frames (convert xml_input).
Proof.
  unfold __convert. fr.
  - apply frames_convert_dict.
  - apply frames_dumps.
Qed.

(** The ways in which [convert_file] ends. *)
Lemma convert_file_cases fname_in fname_out st :
  match files (fs st) fname_in with
  | None =>
      fst (convert_file' fname_in fname_out st) = Raise AttributeError
      /\ fs (snd (convert_file' fname_in fname_out st)) = fs st
  | Some text =>
      match fst (convert text (reading fname_in st)) with
      | Raise e =>
          fst (convert_file' fname_in fname_out st) = Raise e
          /\ fs (snd (convert_file' fname_in fname_out st)) = fs st
      | Ok json_out =>
          if writable (fs st) fname_out
          then
            match json_out with
            | PStr s =>
                fst (convert_file' fname_in fname_out st) = Ok true
                /\ fs (snd (convert_file' fname_in fname_out st))
                   = set_file fname_out s (set_file fname_out "" (fs st))
            | PTrue =>
                fst (convert_file' fname_in fname_out st) = Raise TypeError
                /\ fs (snd (convert_file' fname_in fname_out st))
                   = set_file fname_out "" (fs st)
            end
          else
            fst (convert_file' fname_in fname_out st) = Raise OSError
            /\ fs (snd (convert_file' fname_in fname_out st)) = fs st
      end
  end.
Proof.
  unfold convert_file, bind, Heap.log_call, open_read, close, raise, ret.
  cbn [fs globals dyn log].
  destruct (files (fs st) fname_in) as [text |]; [| split; reflexivity].
  fold (logged st DEBUG "Reading input file: %s" [AAbspath fname_in]).
  fold (reading fname_in st).
  destruct (frames_convert text (reading fname_in st)) as (Hfs & _).
  change (fs (reading fname_in st)) with (fs st) in Hfs.
  destruct (convert text (reading fname_in st)) as [[json_out | e] st2];
    cbn [fst snd] in *; [| split; [reflexivity | exact Hfs]].
  unfold open_write, write. cbn [fs globals dyn log]. rewrite Hfs.
  destruct (writable (fs st) fname_out); [| split; reflexivity].
  destruct json_out; split; reflexivity.
Qed.

End Files.

(** ** The conversion of a document *)

(** A conversion that returns a list has read the version, gone through
    the records of the document and logged around them. *)
Lemma convert_dict_list dict_in st out st' :
  template_ok st ->
  convert_dict dict_in st = (Ok (RetList out), st') ->
  exists version issues lg,
    document_version dict_in = Ok version
    /\ pure_errors (fs st) (document_records dict_in) = Ok issues
    /\ Forall2
         (fun v i => exists lo hi, frozen 6 (dyn st') lo hi v (issue_json i))
         out issues
    /\ template_ok st'
    /\ fs st' = fs st
    /\ Forall (fun r => log_level r = DEBUG) lg
    /\ log st'
       = log st
         ++ (if String.ltb version "1.82" then [version_warning] else [])
         ++ lg
         ++ match out with
            | [] => [LogRecord WARNING
                       (if has_errors dict_in then "Result is empty"
                        else "Nothing to do") []]
            | _ => []
            end.
Proof.
  intros Hok H. unfold convert_dict in H.
  rewrite bind_lift in H.
  destruct (Xml.len dict_in) as [n | e]; [| discriminate H].
  destruct (n =? 0)%nat; [discriminate H |].
  unfold document_version, document_records, has_errors.
  rewrite bind_lift in H.
  destruct (Xml.item dict_in "results") as [results | e]; [| discriminate H].
  rewrite bind_lift in H. cbn [rbind].
  destruct (Xml.item results "cppcheck") as [cppcheck | e];
    [| discriminate H].
  rewrite bind_lift in H. cbn [rbind].
  destruct (Xml.attr cppcheck "@version") as [version | e];
    [| discriminate H].
  exists version.
  set (vw := if String.ltb version "1.82" then [version_warning] else []).
  assert (H1 :
    (errors <- lift (Xml.item results "errors") ;;
     if negb (Xml.is_dict errors)
     then Heap.log_call WARNING "Nothing to do" [] ;;; ret (RetList [])
     else
       error <- lift (Xml.item errors "error") ;;
       dict_out <- convert_errors
                     match error with XList l => l | _ => [error] end [] ;;
       (if (List.length dict_out =? 0)%nat
        then Heap.log_call WARNING "Result is empty" []
        else ret tt) ;;;
       ret (RetList dict_out))
      (State (globals st) (dyn st) (log st ++ vw) (fs st))
    = (Ok (RetList out), st')).
  { subst vw. destruct (String.ltb version "1.82").
    - exact H.
    - rewrite bind_ret in H. rewrite app_nil_r. destruct st. exact H. }
  clear H. rewrite bind_lift in H1.
  destruct (Xml.item results "errors") as [errors | e]; [| discriminate H1].
  destruct (Xml.is_dict errors); cbn [negb] in H1.
  - rewrite bind_lift in H1.
    destruct (Xml.item errors "error") as [error | e]; [| discriminate H1].
    set (records := match error with XList l => l | _ => [error] end) in *.
    match type of H1 with
    | bind _ _ ?s = _ =>
        assert (Hok1 : template_ok s) by exact Hok;
        destruct (convert_errors_cases records [] s Hok1) as (last & _ & Hc)
    end.
    cbv zeta in Hc. cbn [fs dyn log] in Hc. unfold bind in H1 at 1.
    destruct (convert_errors records [] _) as [[dict_out | e] st1];
      [| discriminate H1].
    destruct (pure_errors (fs st) records) as [issues | e];
      [| discriminate Hc].
    destruct Hc as (vs & ext & lg & Heq & Hlg & Hvs).
    injection Heq as -> ->. cbn [app] in H1.
    exists issues, lg.
    destruct vs as [| v vs]; cbn [List.length Nat.eqb] in H1.
    + injection H1 as <- <-. cbn [dyn fs log].
      split; [reflexivity |]. split; [reflexivity |]. split; [exact Hvs |].
      split; [eexists _, _, _; reflexivity |].
      split; [reflexivity |]. split; [exact Hlg |].
      rewrite <- !app_assoc. reflexivity.
    + injection H1 as <- <-. cbn [dyn fs log].
      split; [reflexivity |]. split; [reflexivity |]. split; [exact Hvs |].
      split; [eexists _, _, _; reflexivity |].
      split; [reflexivity |]. split; [exact Hlg |].
      rewrite app_nil_r, <- !app_assoc. reflexivity.
  - injection H1 as <- <-. exists [], []. cbn [dyn fs log pure_errors].
    split; [reflexivity |]. split; [reflexivity |]. split; [constructor |].
    split; [exact Hok |]. split; [reflexivity |]. split; [constructor |].
    rewrite <- !app_assoc. reflexivity.
Qed.

(** [convert_dict] computes [pure_dict]. *)
Lemma convert_dict_cases dict_in st :
  template_ok st ->
  let r := convert_dict dict_in st in
  match pure_dict (fs st) dict_in with
  | Raise e => fst r = Raise e
  | Ok None => fst r = Ok RetTrue
  | Ok (Some issues) =>
      exists out,
        fst r = Ok (RetList out)
        /\ template_ok (snd r)
        /\ Forall2
             (fun v i =>
                exists lo hi, frozen 6 (dyn (snd r)) lo hi v (issue_json i))
             out issues
  end.
Proof.
  intros Hok r. subst r. unfold convert_dict, pure_dict.
  exec_lift. destruct (a =? 0)%nat; [reflexivity |].
  exec_lift. exec_lift. exec_lift.
  assert (H1 : forall k : unit -> M converted,
    exists l,
      bind (if String.ltb a2 "1.82"
            then Heap.log_call WARNING
                   (nl ++ "WARNING: This was tested against a newer version of CppCheck") []
            else ret tt) k st
      = k tt (State (globals st) (dyn st) (log st ++ l) (fs st))).
  { intros k. destruct (String.ltb a2 "1.82").
    - eexists. reflexivity.
    - exists []. rewrite app_nil_r. destruct st. reflexivity. }
  destruct (H1 (fun _ =>
      errors <- lift (Xml.item a0 "errors") ;;
      if negb (Xml.is_dict errors)
      then Heap.log_call WARNING "Nothing to do" [] ;;; ret (RetList [])
      else
        error <- lift (Xml.item errors "error") ;;
        dict_out <- convert_errors
                      match error with XList l => l | _ => [error] end [] ;;
        (if (List.length dict_out =? 0)%nat
         then Heap.log_call WARNING "Result is empty" []
         else ret tt) ;;;
        ret (RetList dict_out))) as (l & ->).
  clear H1. exec_lift.
  destruct (Xml.is_dict a3); cbn [negb].
  - exec_lift.
    set (records := match a4 with XList l => l | _ => [a4] end).
    match goal with
    | |- context [bind _ _ ?s] =>
        assert (Hok1 : template_ok s) by exact Hok;
        destruct (convert_errors_cases records [] s Hok1) as (last & _ & Hc)
    end.
    cbv zeta in Hc. cbn [fs dyn log] in Hc.
    destruct (convert_errors records [] _) as [[dict_out | e] st1] eqn:E.
    + rewrite (bind_ok _ _ _ _ _ E).
      destruct (pure_errors (fs st) records) as [issues | e];
        [| discriminate Hc].
      destruct Hc as (vs & ext & lg & Heq & _ & Hvs).
      injection Heq as -> ->. cbn [app rbind]. exists vs.
      destruct vs; cbn [List.length Nat.eqb]; cbn [fst snd dyn];
        (split; [reflexivity |]); (split; [| exact Hvs]);
        eexists _, _, _; reflexivity.
    + rewrite (bind_raise _ _ _ _ _ E).
      destruct (pure_errors (fs st) records) as [issues | e'];
        cbn [rbind].
      * destruct Hc as (vs & ext & lg & Heq & _). discriminate Heq.
      * injection Hc as ->. reflexivity.
  - exists []. split; [reflexivity |]. split; [exact Hok | constructor].
Qed.

(** ** The issue of a record *)

Lemma convert_error_appended error dict_out v st st' :
  template_ok st ->
  convert_error error dict_out st = (Ok (dict_out ++ [v]), st') ->
  exists i,
    pure_error (fs st) error = Ok (Some i)
    /\ reify st' v = Some (issue_json i).
Proof.
  intros Hok Hrun.
  destruct (convert_error_ok error dict_out st _ st' Hok Hrun)
    as [[_ Heq] | (i & v' & Hp & Heq & Hv & _)].
  - apply (f_equal (@List.length pyval)) in Heq.
    rewrite length_app in Heq. cbn in Heq. lia.
  - apply app_inv_head in Heq. injection Heq as <-. exists i. auto.
Qed.

Lemma category_single_line sev cat :
  __get_codeclimate_category sev = Ok cat -> split_nl cat = [cat].
Proof.
  unfold __get_codeclimate_category, map_severity_to_category.
  cbn [Xml.assoc].
  repeat match goal with
         | |- context [String.eqb sev ?t] => destruct (String.eqb sev t)
         end;
    intros [= <-]; reflexivity.
Qed.

(** X1. The categories of an issue are the category of the table for the
    severity of the record, followed by that severity itself, and its type
    is [issue]. *)
Theorem categories_of_record (error : xml_value) (dict_out : list pyval)
    (v : pyval) (st st' : state) :
  template_ok st ->
  convert_error error dict_out st = (Ok (dict_out ++ [v]), st') ->
  exists j sev cat,
    reify st' v = Some j
    /\ Xml.attr error "@severity" = Ok sev
    /\ __get_codeclimate_category sev = Ok cat
    /\ field "categories" j = Some (JList [JStr cat; JStr sev])
    /\ field "type" j = Some (JStr "issue").
Proof.
  intros Hok Hrun.
  destruct (convert_error_appended _ _ _ _ _ Hok Hrun) as (i & Hp & Hv).
  destruct (pure_error_fields _ _ _ Hp)
    as (rule & msg & sev & cat & location & loc & others & cwe & rounded
        & _ & _ & Hsev & Hcat & _ & _ & _ & _ & ->).
  eexists _, sev, cat. split; [exact Hv |]. split; [exact Hsev |].
  split; [exact Hcat |]. split; [| reflexivity].
  change (Some (JList (map JStr (split_nl cat ++ [sev])))
          = Some (JList [JStr cat; JStr sev])).
  rewrite (category_single_line _ _ Hcat). reflexivity.
Qed.

Lemma categories_of_record_witness :
  let r := convert_error Sample.warning_record []
             (initial_state Sample.four_lines) in
  exists v,
    value_of [] r = [v]
    /\ exists j sev cat,
         reify (snd r) v = Some j
         /\ Xml.attr Sample.warning_record "@severity" = Ok sev
         /\ __get_codeclimate_category sev = Ok cat
         /\ field "categories" j = Some (JList [JStr cat; JStr sev])
         /\ field "type" j = Some (JStr "issue").
Proof.
  cbv zeta. eexists. split; [vm_compute; reflexivity |].
  apply (categories_of_record Sample.warning_record [] _
           (initial_state Sample.four_lines)).
  - apply template_ok_initial.
  - vm_compute. reflexivity.
Defined.

Lemma field_content_json (i : issue) :
  field "content" (issue_json i)
  = match i_content i with
    | Some data => Some (JDict [("data", JStr data)])
    | None => None
    end.
Proof.
  destruct i as [r d c l others content fp]. cbn [i_content].
  destruct others, content; reflexivity.
Qed.

Lemma field_other_locations_json (i : issue) :
  field "other_locations" (issue_json i)
  = match i_other_locations i with
    | [] => None
    | others => Some (JList (map location_json others))
    end.
Proof.
  destruct i as [r d c l others content fp]. cbn [i_other_locations].
  destruct others, content; reflexivity.
Qed.

Lemma prefix_append s t : String.prefix s (s ++ t)%string = true.
Proof.
  induction s as [| a s IH]; cbn; [destruct t; reflexivity |].
  destruct (Ascii.ascii_dec a a) as [_ | Hn]; [exact IH | contradiction].
Qed.

(** X2. A record with a [cwe] attribute gives an issue whose description
    starts with the tag of that number and whose content refers to the
    page of the number at cwe.mitre.org; a record without one gives an
    issue without content. *)
Theorem cwe_of_record (error : xml_value) (dict_out : list pyval)
    (v : pyval) (st st' : state) :
  template_ok st ->
  convert_error error dict_out st = (Ok (dict_out ++ [v]), st') ->
  exists j d,
    reify st' v = Some j
    /\ field "description" j = Some (JStr d)
    /\ match Xml.attr error "@cwe" with
       | Ok cwe_id =>
           String.prefix ("[CWE-" ++ cwe_id ++ "] ")%string d = true
           /\ field "content" j
              = Some (JDict
                        [("data",
                          JStr ("Refer to [CWE-" ++ cwe_id
                                ++ "](https://cwe.mitre.org/data/definitions/"
                                ++ cwe_id ++ ".html)")%string)])
       | Raise _ => field "content" j = None
       end.
Proof.
  intros Hok Hrun.
  destruct (convert_error_appended _ _ _ _ _ Hok Hrun) as (i & Hp & Hv).
  destruct (pure_error_fields _ _ _ Hp)
    as (rule & msg & sev & cat & location & loc & others & cwe & rounded
        & Hid & _ & _ & _ & _ & _ & Hcwe & _ & ->).
  eexists _, _. split; [exact Hv |]. split; [reflexivity |].
  rewrite field_content_json. cbn [i_content].
  destruct cwe as [c |].
  - destruct Hcwe as (_ & ->). cbn [option_map]. split; [| reflexivity].
    apply (prefix_append (cwe_tag c) msg).
  - destruct error as [| t | l | attrs elems]; try reflexivity.
    cbn [Xml.contains String.prefix] in Hcwe. cbn [Xml.attr].
    unfold Xml.has_key in Hcwe.
    destruct (Xml.assoc "@cwe" attrs); [discriminate Hcwe | reflexivity].
Qed.

Lemma cwe_of_record_witness :
  let r := convert_error severity_warning_record []
             (initial_state Sample.four_lines) in
  exists v,
    value_of [] r = [v]
    /\ exists j d,
         reify (snd r) v = Some j
         /\ field "description" j = Some (JStr d)
         /\ String.prefix "[CWE-123456789] " d = true
         /\ field "content" j
            = Some (JDict
                      [("data",
                        JStr "Refer to [CWE-123456789](https://cwe.mitre.org/data/definitions/123456789.html)")]).
Proof.
  cbv zeta. eexists. split; [vm_compute; reflexivity |].
  apply (cwe_of_record severity_warning_record [] _
           (initial_state Sample.four_lines)).
  - apply template_ok_initial.
  - vm_compute. reflexivity.
Defined.

(** *** Locations *)

Lemma pure_other_fields x o :
  pure_other x = Ok o ->
  Xml.attr x "@file" = Ok (loc_path o)
  /\ exists line_s,
       Xml.attr x "@line" = Ok line_s
       /\ PyStr.int_of_str line_s = Some (loc_line o).
Proof.
  unfold pure_other. intros H. rb H. rb H. rb H. rb H. rb H.
  injection H as <-. split; [reflexivity |]. exists a0.
  split; [reflexivity |]. unfold pure_int in E1.
  destruct (PyStr.int_of_str a0); [| discriminate E1].
  injection E1 as <-. reflexivity.
Qed.

Lemma pure_others_fields rest : forall others,
  pure_others rest = Ok others ->
  Forall2
    (fun x o =>
       Xml.attr x "@file" = Ok (loc_path o)
       /\ exists line_s,
            Xml.attr x "@line" = Ok line_s
            /\ PyStr.int_of_str line_s = Some (loc_line o))
    rest others.
Proof.
  induction rest as [| x rest IH]; intros others H; cbn [pure_others] in H.
  - injection H as <-. constructor.
  - destruct (pure_other x) as [o |] eqn:Ex; cbn [rbind] in H;
      [| discriminate H].
    destruct (pure_others rest) as [os |] eqn:Er; cbn [rbind] in H;
      [| discriminate H].
    injection H as <-.
    constructor; [exact (pure_other_fields _ _ Ex) | exact (IH _ eq_refl)].
Qed.

Lemma pure_primary_others locs loc others :
  pure_primary (XList locs) = Ok (loc, others) ->
  pure_others (tl locs) = Ok others.
Proof.
  cbn [pure_primary]. intros H.
  rb H. rb H. rb H. rb H. rb H. rb H. rb H. rb H.
  injection H as _ <-. reflexivity.
Qed.

(** X3. A record with several locations gives an issue whose
    [other_locations] are the locations after the first, in their order,
    each with its own [file] as path and its line; a list of one location
    gives no [other_locations]. *)
Theorem other_locations_of_record (error : xml_value)
    (locs : list xml_value) (dict_out : list pyval) (v : pyval)
    (st st' : state) :
  template_ok st ->
  convert_error error dict_out st = (Ok (dict_out ++ [v]), st') ->
  Xml.item error "location" = Ok (XList locs) ->
  exists j,
    reify st' v = Some j
    /\ match tl locs with
       | [] => field "other_locations" j = None
       | rest =>
           exists others,
             field "other_locations" j
             = Some (JList (map location_json others))
             /\ Forall2
                  (fun x o =>
                     Xml.attr x "@file" = Ok (loc_path o)
                     /\ exists line_s,
                          Xml.attr x "@line" = Ok line_s
                          /\ PyStr.int_of_str line_s = Some (loc_line o))
                  rest others
       end.
Proof.
  intros Hok Hrun Hloc.
  destruct (convert_error_appended _ _ _ _ _ Hok Hrun) as (i & Hp & Hv).
  destruct (pure_error_fields _ _ _ Hp)
    as (rule & msg & sev & cat & location & loc & others & cwe & rounded
        & _ & _ & _ & _ & Hloc' & Hprim & _ & _ & ->).
  rewrite Hloc in Hloc'. injection Hloc' as <-.
  eexists. split; [exact Hv |].
  rewrite field_other_locations_json. cbn [i_other_locations].
  apply pure_primary_others in Hprim.
  pose proof (pure_others_fields _ _ Hprim) as Hall.
  destruct (tl locs) as [| x rest].
  - inversion Hall. reflexivity.
  - inversion Hall as [| ? o ? others' Ho Hrest]; subst.
    exists (o :: others'). split; [reflexivity | exact Hall].
Qed.

Lemma other_locations_of_record_witness :
  let r := convert_error three_locations_record []
             (initial_state Sample.four_lines) in
  exists v,
    value_of [] r = [v]
    /\ exists j others,
         reify (snd r) v = Some j
         /\ field "other_locations" j
            = Some (JList (map location_json others))
         /\ map loc_path others
            = ["tests/cpp_src/Foo.h"; "tests/cpp_src/Foo.h"]
         /\ map loc_line others = [2; 3].
Proof.
  cbv zeta. eexists. split; [vm_compute; reflexivity |].
  match goal with
  | |- exists j others, reify ?s ?v = _ /\ _ =>
      destruct (other_locations_of_record three_locations_record
                  [Sample.location_elem (Some "tests/cpp_src/four_lines.c")
                     "tests/cpp_src/Foo.h" "1" (Some "1");
                   Sample.location_elem (Some "tests/cpp_src/four_lines.c")
                     "tests/cpp_src/Foo.h" "2" (Some "2");
                   Sample.location_elem None "tests/cpp_src/Foo.h" "3"
                     (Some "3")]
                  [] v (initial_state Sample.four_lines) s
                  (template_ok_initial _))
        as (j & Hj & others & Hf & Hall);
      [vm_compute; reflexivity | reflexivity |]
  end.
  exists j, others. split; [exact Hj |]. split; [exact Hf |].
  inversion Hall as [| x1 o1 r1 os1 (Hp1 & l1 & Hl1 & Hi1) Hall1]; subst.
  inversion Hall1 as [| x2 o2 r2 os2 (Hp2 & l2 & Hl2 & Hi2) Hall2]; subst.
  inversion Hall2; subst.
  cbn [map]. injection Hp1 as Hp1. injection Hp2 as Hp2.
  injection Hl1 as <-. injection Hl2 as <-.
  assert (E1 : Some (loc_line o1) = Some 2)
    by (rewrite <- Hi1; vm_compute; reflexivity).
  assert (E2 : Some (loc_line o2) = Some 3)
    by (rewrite <- Hi2; vm_compute; reflexivity).
  injection E1 as E1. injection E2 as E2.
  rewrite <- Hp1, <- Hp2, E1, E2. split; reflexivity.
Defined.

(** X4. A record with one location gives an issue whose location has the
    [file] of the location as path, the integer of its [line] as line and
    the integer of its [column] as column, or column 0 when the location
    has no [column]; the issue has no [other_locations]. *)
Theorem location_of_single (error location : xml_value)
    (dict_out : list pyval) (v : pyval) (st st' : state) :
  template_ok st ->
  convert_error error dict_out st = (Ok (dict_out ++ [v]), st') ->
  Xml.item error "location" = Ok location ->
  (forall locs, location <> XList locs) ->
  exists j p n c,
    reify st' v = Some j
    /\ field "location" j = Some (location_json (Location p n c))
    /\ field "other_locations" j = None
    /\ Xml.attr location "@file" = Ok p
    /\ (exists line_s,
          Xml.attr location "@line" = Ok line_s
          /\ PyStr.int_of_str line_s = Some n)
    /\ match Xml.contains "@column" location with
       | Ok true =>
           exists column_s,
             Xml.attr location "@column" = Ok column_s
             /\ PyStr.int_of_str column_s = Some c
       | _ => c = 0
       end.
Proof.
  intros Hok Hrun Hloc Hsingle.
  destruct (convert_error_appended _ _ _ _ _ Hok Hrun) as (i & Hp & Hv).
  destruct (pure_error_fields _ _ _ Hp)
    as (rule & msg & sev & cat & location' & loc & others & cwe & rounded
        & _ & _ & _ & _ & Hloc' & Hprim & _ & _ & ->).
  rewrite Hloc in Hloc'. injection Hloc' as <-.
  destruct (pure_primary_single _ _ _ Hsingle Hprim)
    as (-> & Hfile & Hline & Hcol).
  eexists _, (loc_path loc), (loc_line loc), (loc_column loc).
  split; [exact Hv |]. split; [destruct loc; reflexivity |].
  split; [rewrite field_other_locations_json; reflexivity |].
  auto.
Qed.

Lemma location_of_single_witness :
  let r := convert_error Sample.no_loc_column_record []
             (initial_state Sample.four_lines) in
  exists v,
    value_of [] r = [v]
    /\ exists j p n c,
         reify (snd r) v = Some j
         /\ field "location" j = Some (location_json (Location p n c))
         /\ field "other_locations" j = None
         /\ Ok "tests/cpp_src/bad_code_1.cpp" = Ok p
         /\ (exists line_s,
               Ok "3" = Ok line_s /\ PyStr.int_of_str line_s = Some n)
         /\ c = 0.
Proof.
  cbv zeta. eexists. split; [vm_compute; reflexivity |].
  match goal with
  | |- exists j p n c, reify ?s ?v = _ /\ _ =>
      apply (location_of_single Sample.no_loc_column_record
               (Sample.location_elem None "tests/cpp_src/bad_code_1.cpp" "3"
                  None)
               [] v (initial_state Sample.four_lines) s
               (template_ok_initial _))
  end.
  - vm_compute. reflexivity.
  - reflexivity.
  - intros locs. discriminate.
Defined.

(** *** What the conversion of a record raises *)



















(** ** The output of a document *)

Lemma pure_errors_length f errors : forall issues,
  pure_errors f errors = Ok issues ->
  List.length issues = List.length (List.filter located errors).
Proof.
  induction errors as [| error rest IH]; intros issues H;
    cbn [pure_errors List.filter] in *.
  - injection H as <-. reflexivity.
  - destruct (pure_error f error) as [r |] eqn:Ee; cbn [rbind] in H;
      [| discriminate H].
    destruct (pure_errors f rest) as [issues' |]; cbn [rbind] in H;
      [| discriminate H].
    injection H as <-. rewrite (pure_error_located _ _ _ Ee).
    destruct r; cbn [List.length]; rewrite (IH issues' eq_refl); reflexivity.
Qed.

(** X8. A conversion that returns a list returns one issue for each record
    of the document that has a location, and none for the others. *)
Theorem one_issue_for_each_located_record (dict_in : xml_value)
    (st st' : state) (out : list pyval) :
  template_ok st ->
  convert_dict dict_in st = (Ok (RetList out), st') ->
  List.length out
  = List.length (List.filter located (document_records dict_in)).
Proof.
  intros Hok H.
  destruct (convert_dict_list _ _ _ _ Hok H)
    as (version & issues & lg & _ & Hp & Hvs & _).
  rewrite <- (pure_errors_length _ _ _ Hp).
  clear - Hvs. induction Hvs; cbn [List.length]; congruence.
Qed.

(** X9. A conversion that returns a list has only added records to the
    log, and the warnings among them are: the warning about the version
    when the version of the document is below ["1.82"] as a string, and,
    when the list is empty, one warning that says so; every other record
    it has added is at the level [DEBUG]. *)
Theorem warnings_of_conversion (dict_in : xml_value) (st st' : state)
    (out : list pyval) :
  template_ok st ->
  convert_dict dict_in st = (Ok (RetList out), st') ->
  exists version lg,
    document_version dict_in = Ok version
    /\ log st' = log st ++ lg
    /\ List.filter is_warning lg
       = (if String.ltb version "1.82" then [version_warning] else [])
         ++ match out with
            | [] => [LogRecord WARNING
                       (if has_errors dict_in then "Result is empty"
                        else "Nothing to do") []]
            | _ => []
            end
    /\ Forall (fun r => is_warning r = false -> log_level r = DEBUG) lg.
Proof.
  intros Hok H.
  destruct (convert_dict_list _ _ _ _ Hok H)
    as (version & issues & lg & Hv & _ & _ & _ & _ & Hlg & Hlog).
  exists version. eexists. split; [exact Hv |]. split; [exact Hlog |].
  split.
  - rewrite !List.filter_app.
    assert (Hd : List.filter is_warning lg = []).
    { clear - Hlg. induction Hlg as [| r lg Hr _ IH]; [reflexivity |].
      cbn [List.filter]. unfold is_warning at 1. rewrite Hr. exact IH. }
    rewrite Hd. cbn [app].
    destruct (String.ltb version "1.82"); destruct out; reflexivity.
  - repeat apply Forall_app_2.
    + destruct (String.ltb version "1.82"); repeat constructor.
      discriminate.
    + eapply Forall_impl; [exact Hlg |]. intros r Hr _. exact Hr.
    + destruct out; repeat constructor. discriminate.
Qed.

Lemma one_issue_for_each_located_record_witness :
  let r := convert_dict mixed_report (initial_state Sample.four_lines) in
  List.length (document_records mixed_report) = 2%nat
  /\ List.length (list_of r) = 1%nat
  /\ List.length (list_of r)
     = List.length (List.filter located (document_records mixed_report)).
Proof.
  cbv zeta. split; [reflexivity |]. split; [vm_compute; reflexivity |].
  apply (one_issue_for_each_located_record mixed_report
           (initial_state Sample.four_lines)
           (snd (convert_dict mixed_report (initial_state Sample.four_lines)))).
  - apply template_ok_initial.
  - vm_compute. reflexivity.
Defined.

Lemma warnings_of_conversion_witness :
  let st := initial_state Sample.four_lines in
  let r := convert_dict (Sample.report [Sample.unlocated_record]) st in
  list_of r = []
  /\ exists version lg,
       document_version (Sample.report [Sample.unlocated_record])
       = Ok version
       /\ log (snd r) = log st ++ lg
       /\ List.filter is_warning lg
          = (if String.ltb version "1.82" then [version_warning] else [])
            ++ [LogRecord WARNING "Result is empty" []]
       /\ Forall (fun r => is_warning r = false -> log_level r = DEBUG) lg.
Proof.
  cbv zeta. split; [vm_compute; reflexivity |].
  apply (warnings_of_conversion (Sample.report [Sample.unlocated_record])
           (initial_state Sample.four_lines)
           (snd (convert_dict (Sample.report [Sample.unlocated_record])
                   (initial_state Sample.four_lines)))
           []).
  - apply template_ok_initial.
  - vm_compute. reflexivity.
Defined.

(** X10. A conversion that returned a list can be repeated in the state it
    left: the second conversion of the document returns a list that reads
    as the first one does, although the first has changed the template. *)
Theorem conversion_repeatable (dict_in : xml_value) (st st1 : state)
    (out : list pyval) :
  template_ok st ->
  convert_dict dict_in st = (Ok (RetList out), st1) ->
  exists out' st2,
    convert_dict dict_in st1 = (Ok (RetList out'), st2)
    /\ all_some (reify st2) out' = all_some (reify st1) out
    /\ all_some (reify st1) out <> None.
Proof.
  intros Hok H.
  destruct (convert_dict_list _ _ _ _ Hok H)
    as (version & issues & lg & _ & _ & _ & Hok1 & Hfs & _).
  pose proof (convert_dict_cases dict_in st Hok) as H1.
  pose proof (convert_dict_cases dict_in st1 Hok1) as H2.
  cbv zeta in H1, H2. rewrite Hfs in H2. rewrite H in H1.
  cbn [fst snd] in H1.
  destruct (pure_dict (fs st) dict_in) as [[issues' |] | e];
    [| discriminate H1 | discriminate H1].
  destruct H1 as (out1 & Heq & _ & Hvs1). injection Heq as <-.
  destruct H2 as (out' & Hfst & _ & Hvs2).
  destruct (convert_dict dict_in st1) as [r2 st2]. cbn [fst snd] in *.
  subst r2. exists out', st2. split; [reflexivity |].
  rewrite (frozen_all_some _ _ _ Hvs1), (frozen_all_some _ _ _ Hvs2).
  split; [reflexivity | discriminate].
Qed.

Lemma conversion_repeatable_witness :
  let st := initial_state Sample.four_lines in
  let st1 := snd (convert_dict mixed_report st) in
  globals st1 <> globals st
  /\ exists out' st2,
       convert_dict mixed_report st1 = (Ok (RetList out'), st2)
       /\ all_some (reify st2) out'
          = all_some (reify st1) (list_of (convert_dict mixed_report st))
       /\ all_some (reify st1) (list_of (convert_dict mixed_report st))
          <> None.
Proof.
  cbv zeta. split; [vm_compute; discriminate |].
  apply (conversion_repeatable mixed_report
           (initial_state Sample.four_lines)).
  - apply template_ok_initial.
  - vm_compute. reflexivity.
Defined.

(** ** [__convert] and [convert_file] *)

(** X11. When [__convert] returns a text, the text is what [json.dumps]
    gives for the list that holds, in the order of the document, what each
    record of the document gives when it is converted alone: one issue for
    a record with a location, nothing for another. *)
Theorem convert_returns_issues
    (xmltodict_parse : string -> result xml_value)
    (json_dumps : json -> string) (xml_input s : string) (st st' : state) :
  template_ok st ->
  __convert xmltodict_parse json_dumps xml_input st = (Ok (PStr s), st') ->
  exists dict_in,
    xmltodict_parse xml_input = Ok dict_in
    /\ s = json_dumps
             (JList (flat_map (converted_alone (fs st))
                       (document_records dict_in))).
Proof.
  intros Hok H. unfold __convert in H. rewrite bind_lift in H.
  destruct (xmltodict_parse xml_input) as [dict_in | e]; [| discriminate H].
  exists dict_in. split; [reflexivity |].
  destruct (convert_dict dict_in st) as [[r | e] st1] eqn:E.
  - rewrite (bind_ok _ _ _ _ _ E) in H.
    destruct r as [| out]; [discriminate H |].
    destruct (convert_dict_list _ _ _ _ Hok E)
      as (version & issues & lg & _ & Hp & Hvs & _ & _).
    unfold bind, dumps in H.
    rewrite (frozen_all_some _ _ _ Hvs) in H.
    injection H as <- _.
    rewrite (flat_map_alone _ _ _ Hp). reflexivity.
  - rewrite (bind_raise _ _ _ _ _ E) in H. discriminate H.
Qed.

Lemma convert_returns_issues_witness :
  let st := initial_state with_report in
  exists dict_in,
    parse_as mixed_report "<results/>" = Ok dict_in
    /\ value_of PTrue
         (__convert (parse_as mixed_report) dumps_count "<results/>" st)
       = PStr (dumps_count
                 (JList (flat_map (converted_alone (fs st))
                           (document_records dict_in)))).
Proof.
  cbv zeta.
  destruct (convert_returns_issues (parse_as mixed_report) dumps_count
              "<results/>" "1" (initial_state with_report)
              (snd (__convert (parse_as mixed_report) dumps_count
                      "<results/>" (initial_state with_report)))
              (template_ok_initial _))
    as (dict_in & Hparse & Hs); [vm_compute; reflexivity |].
  exists dict_in. split; [exact Hparse |].
  rewrite <- Hs. vm_compute. reflexivity.
Defined.

(** X12. [__convert] leaves the file system as it is and only adds records
    to the log, whether it returns or raises. *)
Theorem convert_keeps_file_system
    (xmltodict_parse : string -> result xml_value)
    (json_dumps : json -> string) (xml_input : string) (st : state) :
  fs (snd (__convert xmltodict_parse json_dumps xml_input st)) = fs st
  /\ exists l,
       log (snd (__convert xmltodict_parse json_dumps xml_input st))
       = log st ++ l.
Proof. apply frames_convert. Qed.

(** X14. [convert_file] returns nothing but [True], and it returns only
    when the input file could be read, [__convert] returned a text for what
    it holds (not the [True] it returns for an empty document) and the
    output path could be opened for writing. *)
Theorem convert_file_returns_true
    (xmltodict_parse : string -> result xml_value)
    (json_dumps : json -> string) (fname_in fname_out : string)
    (st st' : state) (b : bool) :
  convert_file xmltodict_parse json_dumps fname_in fname_out st
  = (Ok b, st') ->
  b = true
  /\ exists text s,
       files (fs st) fname_in = Some text
       /\ fst (__convert xmltodict_parse json_dumps text (reading fname_in st))
          = Ok (PStr s)
       /\ writable (fs st) fname_out = true.
Proof.
  intros Hrun.
  pose proof (convert_file_cases xmltodict_parse json_dumps fname_in
                fname_out st) as H.
  rewrite Hrun in H. cbn [fst snd] in H.
  destruct (files (fs st) fname_in) as [text |];
    [| destruct H as (H & _); discriminate H].
  destruct (fst (__convert _ _ text _)) as [json_out | e] eqn:Hconv;
    [| destruct H as (H & _); discriminate H].
  destruct (writable (fs st) fname_out);
    [| destruct H as (H & _); discriminate H].
  destruct json_out as [| s]; destruct H as (H & _);
    [discriminate H |].
  injection H as ->. split; [reflexivity |].
  exists text, s. auto.
Qed.

Lemma convert_file_returns_true_witness :
  let r := convert_file (parse_as mixed_report) dumps_count "cppcheck.xml"
             "cppcheck.json" (initial_state with_report) in
  fst r = Ok true
  /\ exists text s,
       files (fs (initial_state with_report)) "cppcheck.xml" = Some text
       /\ fst (__convert (parse_as mixed_report) dumps_count text
                 (reading "cppcheck.xml" (initial_state with_report)))
          = Ok (PStr s)
       /\ writable (fs (initial_state with_report)) "cppcheck.json" = true.
Proof.
  cbv zeta.
  assert (Hrun :
    convert_file (parse_as mixed_report) dumps_count "cppcheck.xml"
      "cppcheck.json" (initial_state with_report)
    = (Ok true,
       snd (convert_file (parse_as mixed_report) dumps_count "cppcheck.xml"
              "cppcheck.json" (initial_state with_report))))
    by (vm_compute; reflexivity).
  split; [rewrite Hrun; reflexivity |].
  exact (proj2 (convert_file_returns_true _ _ _ _ _ _ _ Hrun)).
Defined.

(** X15. When the input file can be read and [__convert] raises, the
    exception leaves [convert_file] and the file system is the one before
    the call: the output file is not created and not emptied. *)
Theorem convert_file_failure_keeps_output
    (xmltodict_parse : string -> result xml_value)
    (json_dumps : json -> string) (fname_in fname_out text : string)
    (st : state) (e : exn) :
  files (fs st) fname_in = Some text ->
  fst (__convert xmltodict_parse json_dumps text (reading fname_in st))
  = Raise e ->
  fst (convert_file xmltodict_parse json_dumps fname_in fname_out st)
  = Raise e
  /\ fs (snd (convert_file xmltodict_parse json_dumps fname_in fname_out st))
     = fs st.
Proof.
  intros Hin Hconv.
  pose proof (convert_file_cases xmltodict_parse json_dumps fname_in
                fname_out st) as H.
  rewrite Hin, Hconv in H. exact H.
Qed.

Lemma convert_file_failure_keeps_output_witness :
  fst (convert_file (parse_as (Sample.report
                                 [Sample.multiple_locations_record]))
         dumps_count "cppcheck.xml" "cppcheck.json"
         (initial_state with_report))
  = Raise (KeyError "@column")
  /\ fs (snd (convert_file (parse_as (Sample.report
                                        [Sample.multiple_locations_record]))
                dumps_count "cppcheck.xml" "cppcheck.json"
                (initial_state with_report)))
     = fs (initial_state with_report).
Proof.
  apply (convert_file_failure_keeps_output
           (parse_as (Sample.report [Sample.multiple_locations_record]))
           dumps_count "cppcheck.xml" "cppcheck.json" "<results/>"
           (initial_state with_report)).
  - reflexivity.
  - vm_compute. reflexivity.
Defined.

(** X16. When the conversion has returned but the output path cannot be
    opened for writing, [convert_file] raises [OSError] and the file
    system is the one before the call. *)
Theorem convert_file_output_unwritable
    (xmltodict_parse : string -> result xml_value)
    (json_dumps : json -> string) (fname_in fname_out text : string)
    (st : state) (json_out : pyret) :
  files (fs st) fname_in = Some text ->
  fst (__convert xmltodict_parse json_dumps text (reading fname_in st))
  = Ok json_out ->
  writable (fs st) fname_out = false ->
  fst (convert_file xmltodict_parse json_dumps fname_in fname_out st)
  = Raise OSError
  /\ fs (snd (convert_file xmltodict_parse json_dumps fname_in fname_out st))
     = fs st.
Proof.
  intros Hin Hconv Hout.
  pose proof (convert_file_cases xmltodict_parse json_dumps fname_in
                fname_out st) as H.
  rewrite Hin, Hconv, Hout in H. exact H.
Qed.

Lemma convert_file_output_unwritable_witness :
  fst (convert_file (parse_as mixed_report) dumps_count "cppcheck.xml"
         "/proc/version" (initial_state with_report))
  = Raise OSError
  /\ fs (snd (convert_file (parse_as mixed_report) dumps_count
                "cppcheck.xml" "/proc/version" (initial_state with_report)))
     = fs (initial_state with_report).
Proof.
  apply (convert_file_output_unwritable (parse_as mixed_report) dumps_count
           "cppcheck.xml" "/proc/version" "<results/>"
           (initial_state with_report) (PStr "1")).
  - reflexivity.
  - vm_compute. reflexivity.
  - reflexivity.
Defined.






(** ** The fingerprint *)

Lemma getline_below_one f p n : n < 1 -> linecache_getline f p n = "".
Proof.
  unfold linecache_getline. intros H.
  destruct (files f p); [| reflexivity].
  destruct (Z.leb_spec 1 n); [lia | reflexivity].
Qed.

Lemma location_json_inj l1 l2 :
  location_json l1 = location_json l2 -> l1 = l2.
Proof. destruct l1, l2. cbn. intros [= -> -> ->]. reflexivity. Qed.

(** The fingerprint of an issue from its path, line and check name. *)
Lemma fingerprint_of_issue error dict_out v st st' j p r n c :
  template_ok st ->
  convert_error error dict_out st = (Ok (dict_out ++ [v]), st') ->
  reify st' v = Some j ->
  field "location" j = Some (location_json (Location p n c)) ->
  field "check_name" j = Some (JStr r) ->
  exists rounded,
    rounded_line n = Ok rounded
    /\ field "fingerprint" j
       = Some (JStr (MD5.hexdigest
                       (fingerprint_string p rounded r
                          (PyStr.strip (linecache_getline (fs st) p n))))).
Proof.
  intros Hok Hrun Hj Hloc Hname.
  destruct (convert_error_appended _ _ _ _ _ Hok Hrun) as (i & Hp & Hv).
  rewrite Hv in Hj. injection Hj as <-.
  rewrite field_location_json in Hloc.
  assert (Hl : i_location i = Location p n c)
    by (apply location_json_inj; congruence).
  clear Hloc.
  destruct (pure_error_fields _ _ _ Hp)
    as (rule & msg & sev & cat & location & loc & others & cwe & rounded
        & _ & _ & _ & _ & _ & _ & _ & Hr & ->).
  cbn [i_location] in Hl. subst loc.
  cbn [loc_path loc_line] in *.
  injection Hname as <-.
  exists rounded. split; [exact Hr | reflexivity].
Qed.

(** X19. When the line of the primary location of an issue is below 1, as
    for the messages that cppcheck reports at line 0, no line of the source
    file is looked at: the fingerprint of the issue is the digest of the
    string with an empty line text, whatever the file holds. *)
Theorem fingerprint_without_line_text (error : xml_value)
    (dict_out : list pyval) (v : pyval) (st st' : state) (j : json)
    (p r : string) (n c : Z) :
  template_ok st ->
  convert_error error dict_out st = (Ok (dict_out ++ [v]), st') ->
  reify st' v = Some j ->
  field "location" j = Some (location_json (Location p n c)) ->
  field "check_name" j = Some (JStr r) ->
  n < 1 ->
  exists rounded,
    rounded_line n = Ok rounded
    /\ field "fingerprint" j
       = Some (JStr (MD5.hexdigest (fingerprint_string p rounded r ""))).
Proof.
  intros Hok Hrun Hj Hloc Hname Hno.
  destruct (fingerprint_of_issue _ _ _ _ _ _ _ _ _ _ Hok Hrun Hj Hloc Hname)
    as (rounded & Hr & Hfp).
  exists rounded. split; [exact Hr |].
  rewrite Hfp, (getline_below_one _ _ _ Hno). reflexivity.
Qed.

Lemma fingerprint_without_line_text_witness :
  let r := convert_error line_zero_record []
             (initial_state Sample.four_lines) in
  exists v j,
    value_of [] r = [v]
    /\ reify (snd r) v = Some j
    /\ exists rounded,
         rounded_line 0 = Ok rounded
         /\ field "fingerprint" j
            = Some (JStr (MD5.hexdigest
                            (fingerprint_string "tests/cpp_src/four_lines.c"
                               rounded "id" ""))).
Proof.
  cbv zeta. eexists _, _. split; [vm_compute; reflexivity |].
  split; [vm_compute; reflexivity |].
  eapply (fingerprint_without_line_text line_zero_record []
            _ (initial_state Sample.four_lines) _ _
            "tests/cpp_src/four_lines.c" "id" 0 0).
  - apply template_ok_initial.
  - vm_compute. reflexivity.
  - vm_compute. reflexivity.
  - reflexivity.
  - reflexivity.
  - lia.
Defined.

(** X20. Two issues with the same path and check name, with lines from 1
    to below 2^53 that round up to the same multiple of ten, and with
    line texts that are equal once stripped, have the same fingerprint:
    the fingerprint survives a shift of the line within its block of ten
    and a change of the indentation. *)
Theorem fingerprint_tolerates_drift (e1 e2 : xml_value)
    (d1 d2 : list pyval) (v1 v2 : pyval) (st1 st1' st2 st2' : state)
    (j1 j2 : json) (p r : string) (n1 n2 c1 c2 : Z) :
  template_ok st1 ->
  template_ok st2 ->
  convert_error e1 d1 st1 = (Ok (d1 ++ [v1]), st1') ->
  convert_error e2 d2 st2 = (Ok (d2 ++ [v2]), st2') ->
  reify st1' v1 = Some j1 ->
  reify st2' v2 = Some j2 ->
  field "location" j1 = Some (location_json (Location p n1 c1)) ->
  field "location" j2 = Some (location_json (Location p n2 c2)) ->
  field "check_name" j1 = Some (JStr r) ->
  field "check_name" j2 = Some (JStr r) ->
  1 <= n1 < 2 ^ 53 ->
  1 <= n2 < 2 ^ 53 ->
  round_up_10 n1 = round_up_10 n2 ->
  PyStr.strip (linecache_getline (fs st1) p n1)
  = PyStr.strip (linecache_getline (fs st2) p n2) ->
  field "fingerprint" j1 = field "fingerprint" j2.
Proof.
  intros Hok1 Hok2 Hrun1 Hrun2 Hj1 Hj2 Hl1 Hl2 Hc1 Hc2 Hn1 Hn2 Hround Htext.
  destruct (fingerprint_of_issue _ _ _ _ _ _ _ _ _ _ Hok1 Hrun1 Hj1 Hl1 Hc1)
    as (r1 & Hr1 & ->).
  destruct (fingerprint_of_issue _ _ _ _ _ _ _ _ _ _ Hok2 Hrun2 Hj2 Hl2 Hc2)
    as (r2 & Hr2 & ->).
  rewrite (rounded_line_exact _ Hn1) in Hr1.
  rewrite (rounded_line_exact _ Hn2) in Hr2.
  injection Hr1 as <-. injection Hr2 as <-.
  fold (round_up_10 n1). fold (round_up_10 n2).
  rewrite Hround, Htext. reflexivity.
Qed.

Lemma fingerprint_tolerates_drift_witness :
  let r1 := convert_error Sample.warning_record []
              (initial_state Sample.four_lines) in
  let r2 := convert_error shifted_record [] (initial_state shifted_lines) in
  exists v1 v2 j1 j2,
    value_of [] r1 = [v1] /\ value_of [] r2 = [v2]
    /\ reify (snd r1) v1 = Some j1 /\ reify (snd r2) v2 = Some j2
    /\ field "location" j1 <> field "location" j2
    /\ field "fingerprint" j1 = field "fingerprint" j2.
Proof.
  cbv zeta. eexists _, _, _, _.
  split; [vm_compute; reflexivity |]. split; [vm_compute; reflexivity |].
  split; [vm_compute; reflexivity |]. split; [vm_compute; reflexivity |].
  split; [vm_compute; discriminate |].
  eapply (fingerprint_tolerates_drift Sample.warning_record shifted_record
            [] [] _ _ (initial_state Sample.four_lines) _
            (initial_state shifted_lines) _ _ _
            "tests/cpp_src/four_lines.c" "uninitMemberVar" 2 3 5 1).
  - apply template_ok_initial.
  - apply template_ok_initial.
  - vm_compute. reflexivity.
  - vm_compute. reflexivity.
  - vm_compute. reflexivity.
  - vm_compute. reflexivity.
  - reflexivity.
  - reflexivity.
  - reflexivity.
  - reflexivity.
  - lia.
  - lia.
  - reflexivity.
  - vm_compute. reflexivity.
Defined.
